(** * Meta Agent CX: the rule-based pipeline, embedded and verified

    A shallow embedding of the deterministic (no LLM client) path of the
    repository:

      - [Orchestrator]    src/meta_agent/orchestrator.py  (MetaOrchestrator)
      - [AgentCreator]    src/meta_agent/agent_creator.py (AgentCreator)
      - [FunctionCreator] src/meta_agent/function_creator.py (FunctionCreator)
      - [Models]          src/meta_agent/models.py (the pydantic models)

    Python [str] is [string]; the text handled by the keyword tables is
    ASCII, and [Py.lower] / [Py.title] change the case of ASCII letters only
    (other bytes are kept as they are).  Python dicts with a fixed set of
    keys are records, a key that may be absent is an [option] field; dicts
    that are iterated in order are association lists; dicts and sets that
    are only looked up are [gmap] / [gset].  Lists mutated in place through
    an alias (the flow nodes reached through [node_map]) are modelled as a
    store ([list]) indexed by position. *)

From stdpp Require Import base option list strings gmap pretty.
From Stdlib Require Import Ascii QArith.

Set Warnings "-register-all".
Open Scope string_scope.
Open Scope list_scope.

(* ================================================================== *)
(** ** Python string primitives                                        *)
(* ================================================================== *)

Module Py.

Definition is_upper (c : ascii) : bool :=
  (65 <=? nat_of_ascii c)%nat && (nat_of_ascii c <=? 90)%nat.

Definition is_lower (c : ascii) : bool :=
  (97 <=? nat_of_ascii c)%nat && (nat_of_ascii c <=? 122)%nat.

Definition is_digit (c : ascii) : bool :=
  (48 <=? nat_of_ascii c)%nat && (nat_of_ascii c <=? 57)%nat.

Definition is_alpha (c : ascii) : bool := is_upper c || is_lower c.

Definition char_lower (c : ascii) : ascii :=
  if is_upper c then ascii_of_nat (nat_of_ascii c + 32) else c.

Definition char_upper (c : ascii) : ascii :=
  if is_lower c then ascii_of_nat (nat_of_ascii c - 32) else c.

(** [s.lower()] *)
Fixpoint lower (s : string) : string :=
  match s with
  | EmptyString => EmptyString
  | String c t => String (char_lower c) (lower t)
  end.

(** [s.title()]: the first letter of every run of letters is upper-cased,
    the other letters of the run are lower-cased. *)
Fixpoint title_go (prev_cased : bool) (s : string) : string :=
  match s with
  | EmptyString => EmptyString
  | String c t =>
      if is_alpha c
      then String (if prev_cased then char_lower c else char_upper c) (title_go true t)
      else String c (title_go false t)
  end.

Definition title (s : string) : string := title_go false s.

(** [kw in text] on strings: [kw] occurs in [text] as a substring. *)
Fixpoint isin (kw text : string) : bool :=
  String.prefix kw text ||
  match text with
  | EmptyString => false
  | String _ t => isin kw t
  end.

(** [any(kw in text for kw in keywords)] *)
Definition any_in (keywords : list string) (text : string) : bool :=
  existsb (fun kw => isin kw text) keywords.

(** [s.replace(old, new)] for a non-empty [old]: the occurrences of [old]
    are replaced from left to right, without overlap.  [skip] counts the
    characters of a matched occurrence that are still to be dropped. *)
Fixpoint replace_go (old new : string) (skip : nat) (s : string) : string :=
  match s with
  | EmptyString => EmptyString
  | String c t =>
      match skip with
      | S k => replace_go old new k t
      | O =>
          if String.prefix old s
          then new +:+ replace_go old new (String.length old - 1) t
          else String c (replace_go old new 0 t)
      end
  end.

Definition replace (old new s : string) : string := replace_go old new 0 s.

(** [s.split(sep)] for a one-character separator. *)
Fixpoint split_go (sep : ascii) (cur s : string) : list string :=
  match s with
  | EmptyString => [cur]
  | String c t =>
      if Ascii.eqb c sep
      then cur :: split_go sep EmptyString t
      else split_go sep (cur +:+ String c EmptyString) t
  end.

Definition split (sep : ascii) (s : string) : list string :=
  split_go sep EmptyString s.

(** [sep.join(parts)] *)
Definition join (sep : string) (parts : list string) : string :=
  String.concat sep parts.

(** [re.sub(r"[^a-z0-9_]", "", s)] *)
Fixpoint re_sub_non_ident (s : string) : string :=
  match s with
  | EmptyString => EmptyString
  | String c t =>
      if is_lower c || is_digit c || Ascii.eqb c "_"%char
      then String c (re_sub_non_ident t)
      else re_sub_non_ident t
  end.

(** [d.get(key)] on a dict literal whose keys are all different. *)
Fixpoint get {V : Type} (d : list (string * V)) (key : string) : option V :=
  match d with
  | [] => None
  | (k, v) :: d' => if String.eqb k key then Some v else get d' key
  end.

(** [s[:n]] *)
Fixpoint slice_to (n : nat) (s : string) : string :=
  match n, s with
  | S k, String c t => String c (slice_to k t)
  | _, _ => EmptyString
  end.

End Py.

(* ================================================================== *)
(** ** JSON-like values (mock responses, parameter defaults)           *)
(* ================================================================== *)

Inductive json : Type :=
  | JNone
  | JBool (b : bool)
  | JInt (z : Z)
  | JFloat (q : Q)
  | JStr (s : string)
  | JList (l : list json)
  | JDict (kv : list (string * json)).


(* ================================================================== *)
(** ** Effects: raised exceptions, uuid4 and the clock                 *)
(* ================================================================== *)

(** An instance of Python's [Exception]: its class name and [str(e)]. *)
Record PyException : Type := mkExc {
  exc_class : string;
  exc_str : string;
}.

Inductive Outcome (A : Type) : Type :=
  | Returns (a : A)
  | Raises (e : PyException).

Arguments Returns {A} a.
Arguments Raises {A} e.

#[global] Instance Outcome_ret : MRet Outcome := fun A a => Returns a.
#[global] Instance Outcome_bind : MBind Outcome := fun A B f m =>
  match m with
  | Returns a => f a
  | Raises e => Raises e
  end.

(** What the model factories read from outside the program: the hex digits
    of the successive [uuid.uuid4()] values and the successive readings of
    [datetime.utcnow().isoformat()], with the number of values drawn so far. *)
Record World : Type := mkWorld {
  uuid4_hex : nat -> string;
  uuid4_calls : nat;
  utcnow_isoformat : nat -> string;
  utcnow_calls : nat;
}.

(** A computation that reads and advances the world and returns or raises. *)
Definition Run (A : Type) : Type := World -> Outcome A * World.

#[global] Instance Run_ret : MRet Run := fun A a w => (Returns a, w).
#[global] Instance Run_bind : MBind Run := fun A B f m w =>
  match m w with
  | (Returns a, w') => f a w'
  | (Raises e, w') => (Raises e, w')
  end.

(** A computation that does not touch the world. *)
Definition pure_run {A : Type} (o : Outcome A) : Run A := fun w => (o, w).

(** [uuid.uuid4().hex] *)
Definition uuid4 : Run string := fun w =>
  (Returns (uuid4_hex w (uuid4_calls w)),
   mkWorld (uuid4_hex w) (S (uuid4_calls w)) (utcnow_isoformat w) (utcnow_calls w)).

(** [datetime.utcnow().isoformat()] *)
Definition utcnow : Run string := fun w =>
  (Returns (utcnow_isoformat w (utcnow_calls w)),
   mkWorld (uuid4_hex w) (uuid4_calls w) (utcnow_isoformat w) (S (utcnow_calls w))).

(* ================================================================== *)
(** ** The analysis brief (orchestrator.py)                            *)
(* ================================================================== *)

(** A task dict.  The greeting task is a copy of its pattern from which
    the "keywords" key is not popped, so a task may carry keywords. *)
Record Task : Type := mkTask {
  task_keywords : option (list string);
  task_name : string;
  task_description : string;
  data_to_collect : list string;
  requires_api : bool;
  api_description : string;
}.

(** A parameter dict, as the orchestrator, the function creator and an
    LLM collaborator write it: only "name" is always there. *)
Record ParamDict : Type := mkParam {
  pd_name : string;
  pd_type : option string;
  pd_description : option string;
  pd_required : option bool;
  pd_default : option json;
  pd_enum : option (list string);
}.

(** An entry of "functions_needed". *)
Record FunctionRequirement : Type := mkFnReq {
  fr_name : string;
  fr_purpose : string;
  fr_input_params : list ParamDict;
  fr_expected_output : string;
}.

Record AnalysisBrief : Type := mkBrief {
  domain : string;
  agent_name_suggestion : string;
  agent_role : string;
  personality_traits : list string;
  greeting_style : string;
  language : string;
  voice_gender : string;
  tasks : list Task;
  functions_needed : list FunctionRequirement;
  flow_summary : list string;
  ambiguities : list string;
  platform : string;
  user_requested_slots : list string;
}.

Module Orchestrator.

Definition domain_keywords : list (string * list string) := [
  ("healthcare", ["appointment"; "doctor"; "clinic"; "hospital"; "patient"; "medical"; "health"; "therapy"]);
  ("e-commerce", ["order"; "product"; "shipping"; "cart"; "purchase"; "delivery"; "shop"; "store"; "buy"]);
  ("finance", ["account"; "balance"; "transaction"; "payment"; "loan"; "bank"; "card"; "credit"]);
  ("travel", ["flight"; "hotel"; "booking"; "reservation"; "travel"; "trip"; "airline"]);
  ("telecommunications", ["plan"; "data"; "mobile"; "phone bill"; "sim"; "network"; "roaming"]);
  ("food_delivery", ["food"; "restaurant"; "delivery"; "menu"; "order food"; "meal"]);
  ("insurance", ["claim"; "policy"; "insurance"; "coverage"; "premium"]);
  ("education", ["course"; "class"; "enrollment"; "student"; "tutor"; "training"]);
  ("real_estate", ["property"; "rent"; "lease"; "apartment"; "house"; "real estate"]);
  ("automotive", ["car"; "vehicle"; "service"; "repair"; "maintenance"; "dealership"])
].

Definition _detect_domain (text : string) : string :=
  match List.find (fun '(_, kws) => Py.any_in kws text) domain_keywords with
  | Some (d, _) => d
  | None => "general_support"
  end.

Definition slot_keywords : list (string * list string) := [
  ("customer_name", ["name"; "first name"; "last name"; "full name"; "caller name"; "user name"]);
  ("email", ["email"; "e-mail"; "email address"; "mail"]);
  ("phone_number", ["phone"; "phone number"; "mobile"; "contact number"; "cell"]);
  ("preferred_date", ["date"; "day"; "when"; "preferred date"; "appointment date"]);
  ("preferred_time", ["time"; "preferred time"; "appointment time"; "what time"]);
  ("address", ["address"; "location"; "where"]);
  ("service_type", ["service"; "service type"; "type of service"]);
  ("reason", ["reason"; "purpose"; "why"]);
  ("order_number", ["order number"; "order id"; "order #"]);
  ("account_number", ["account number"; "account id"; "account #"]);
  ("issue_description", ["issue"; "problem"; "complaint"; "describe"]);
  ("age", ["age"; "how old"]);
  ("dob", ["date of birth"; "dob"; "birthday"]);
  ("insurance_id", ["insurance"; "insurance id"; "policy number"]);
  ("company_name", ["company"; "organization"; "business name"])
].

(** The loop of [_extract_user_slots]: [found_slots] is the accumulator. *)
Definition _extract_user_slots (text : string) : list string :=
  foldl (fun found_slots '(slot_name, kws) =>
           if Py.any_in kws text
           then (if bool_decide (slot_name ∈ found_slots)
                 then found_slots else found_slots ++ [slot_name])
           else found_slots)
        [] slot_keywords.

(** Position of the first element of [l] that satisfies [p]. *)
Fixpoint find_index {A : Type} (p : A -> bool) (l : list A) : option nat :=
  match l with
  | [] => None
  | x :: l' => if p x then Some 0%nat else S <$> find_index p l'
  end.

Definition collect_customer_information (user_slots : list string) : Task :=
  mkTask None "Collect Customer Information"
         "Collect customer details for the interaction"
         user_slots true
         "Store or process collected customer information".

(** The merge loop: [existing_slots] is the set of names already seen,
    the slots themselves are appended to the task's list. *)
Definition merge_slots (task : Task) (user_slots : list string) : Task :=
  let '(slots, _) :=
    foldl (fun '(slots, existing_slots) slot =>
             if bool_decide (slot ∈ (existing_slots : gset string))
             then (slots, existing_slots)
             else (slots ++ [slot], {[slot]} ∪ existing_slots))
          (data_to_collect task, list_to_set (data_to_collect task))
          user_slots in
  mkTask (task_keywords task) (task_name task) (task_description task)
         slots (requires_api task) (api_description task).

(** The position of the primary task: the first task that requires an
    API, else the first task that is not the greeting. *)
Definition primary_task (tasks : list Task) : option nat :=
  match find_index requires_api tasks with
  | Some i => Some i
  | None => find_index (fun t => negb (String.eqb (task_name t) "Greeting")) tasks
  end.

(** The primary task is mutated in place, so it is updated at its
    position in [tasks]. *)
Definition _merge_user_slots_into_tasks
    (tasks : list Task) (user_slots : list string) : list Task :=
  match primary_task tasks with
  | None => tasks ++ [collect_customer_information user_slots]
  | Some i => alter (fun t => merge_slots t user_slots) i tasks
  end.

(** The "greet" pattern: the task every brief starts with. *)
Definition greeting_task : Task :=
  mkTask (Some ["greet"; "welcome"; "hello"; "introduce"])
         "Greeting" "Greet the caller and introduce the service" [] false "".

Definition task_patterns : list (string * Task) := [
  ("greet", greeting_task);
  ("collect_name", mkTask (Some ["take name"; "ask name"; "collect name"; "get name"; "ask for name"])
      "Collect Customer Name" "Collect the caller's name for personalization"
      ["customer_name"] false "");
  ("collect_email", mkTask (Some ["email"; "e-mail"; "mail address"])
      "Collect Email" "Collect the caller's email address" ["email"] false "");
  ("collect_phone", mkTask (Some ["phone number"; "mobile number"; "contact number"])
      "Collect Phone Number" "Collect the caller's phone number" ["phone_number"] false "");
  ("appointment", mkTask (Some ["appointment"; "schedule"; "book"; "booking"; "slot"])
      "Appointment Booking" "Book an appointment for the customer"
      ["customer_name"; "preferred_date"; "preferred_time"] true
      "Check available appointment slots and book an appointment");
  ("order_status", mkTask (Some ["order status"; "track order"; "where is my order"; "order tracking"])
      "Order Status Check" "Check the status of a customer's order"
      ["order_number"] true "Look up order status by order number");
  ("account_inquiry", mkTask (Some ["account"; "balance"; "statement"])
      "Account Inquiry" "Look up customer account information"
      ["account_number"] true "Retrieve account details and balance");
  ("complaint", mkTask (Some ["complaint"; "issue"; "problem"; "wrong"])
      "File Complaint" "Record and process a customer complaint"
      ["customer_name"; "issue_description"] true "Submit a customer complaint ticket");
  ("cancel", mkTask (Some ["cancel"; "cancellation"; "refund"])
      "Cancellation Processing" "Process a cancellation or refund request"
      ["order_number"; "cancellation_reason"] true "Process cancellation and initiate refund");
  ("confirm", mkTask (Some ["confirm"; "verify"; "availability"; "available"])
      "Confirm Availability" "Confirm availability via external system"
      [] true "Verify availability through the backend API");
  ("faq", mkTask (Some ["faq"; "question"; "information"; "info"; "help"])
      "FAQ & Information" "Answer frequently asked questions" [] false "")
].

(** [pattern["keywords"]] *)
Definition pattern_keywords (pattern : Task) : list string :=
  default [] (task_keywords pattern).

(** [task = pattern.copy(); task.pop("keywords", None)] *)
Definition pop_keywords (pattern : Task) : Task :=
  mkTask None (task_name pattern) (task_description pattern)
         (data_to_collect pattern) (requires_api pattern) (api_description pattern).

Definition _domain_default_tasks (domain : string) : list Task :=
  default
    [ mkTask None "General Inquiry" "Handle general customer inquiries"
        ["customer_name"; "inquiry_details"] false "" ]
    (Py.get [
       ("healthcare",
        [ mkTask None "Appointment Booking" "Book an appointment for the customer"
            ["customer_name"; "preferred_date"; "preferred_time"] true
            "Check available appointment slots and book an appointment" ]);
       ("e-commerce",
        [ mkTask None "Order Status Check" "Check the status of a customer's order"
            ["order_number"] true "Look up order status by order number" ]);
       ("finance",
        [ mkTask None "Account Inquiry" "Look up customer account information"
            ["account_number"] true "Retrieve account details and balance" ])
     ] domain).

(** Tasks are deduplicated by name, the first occurrence wins. *)
Definition dedup_tasks (tasks : list Task) : list Task :=
  fst (foldl (fun '(unique_tasks, seen_names) t =>
                if bool_decide (task_name t ∈ (seen_names : gset string))
                then (unique_tasks, seen_names)
                else (unique_tasks ++ [t], {[task_name t]} ∪ seen_names))
             ([], ∅) tasks).

(** The keyword scan of [_detect_tasks] over every pattern but "greet". *)
Definition detected_patterns (text : string) : list Task :=
  omap (fun '(key, pattern) =>
          if String.eqb key "greet" then None
          else if Py.any_in (pattern_keywords pattern) text
               then Some (pop_keywords pattern) else None)
       task_patterns.

Definition _detect_tasks (text domain : string) : list Task :=
  let greet_pattern := default (mkTask None "" "" [] false "") (Py.get task_patterns "greet") in
  let tasks := [] in
  (* Detect greeting (always present): the test is [... or True] *)
  let tasks :=
    if Py.any_in (pattern_keywords greet_pattern) text || true
    then tasks ++ [greet_pattern] else tasks in
  let tasks := tasks ++ detected_patterns text in
  let tasks :=
    if (length tasks <=? 1)%nat then tasks ++ _domain_default_tasks domain else tasks in
  dedup_tasks tasks.

Definition name_map : list (string * string) := [
  ("appointment_booking", "get_appointment_slots");
  ("order_status_check", "get_order_status");
  ("account_inquiry", "get_account_info");
  ("file_complaint", "submit_complaint");
  ("cancellation_processing", "process_cancellation");
  ("confirm_availability", "check_availability");
  ("general_inquiry", "search_knowledge_base")
].

(** Truth value of a Python string: non-empty. *)
Definition truthy (s : string) : bool := negb (String.eqb s "").

Definition _task_to_function_name (task_name : string) (task : Task) : string :=
  let generated :=
    let clean := Py.re_sub_non_ident task_name in
    if truthy clean then clean else "perform_action" in
  match Py.get name_map task_name with
  | Some fn_name => if truthy fn_name then fn_name else generated
  | None => generated
  end.

Definition _task_to_function_params (task : Task) (text : string) : list ParamDict :=
  map (fun slot =>
         let param_type :=
           if Py.isin "date" (Py.lower slot) then "string"
           else if Py.isin "number" (Py.lower slot) || Py.isin "amount" (Py.lower slot)
                then "string"
           else if Py.isin "count" (Py.lower slot) || Py.isin "quantity" (Py.lower slot)
                then "integer"
           else "string" in
         mkParam slot (Some param_type)
                 (Some ("The customer's " +:+ Py.replace "_" " " slot))
                 None None None)
      (data_to_collect task).

Definition output_map : list (string * string) := [
  ("get_appointment_slots", "List of available appointment slots with dates and times");
  ("book_appointment", "Booking confirmation with confirmation code");
  ("get_order_status", "Order status including tracking info and estimated delivery");
  ("get_account_info", "Account details including balance and recent activity");
  ("submit_complaint", "Complaint ticket ID and status");
  ("process_cancellation", "Cancellation confirmation and refund details");
  ("check_availability", "Availability status with available options");
  ("search_knowledge_base", "Relevant FAQ entries or knowledge base articles")
].

Definition _infer_output (fn_name : string) (task : Task) : string :=
  default "JSON response with operation result" (Py.get output_map fn_name).

(** One requirement per task that requires an API, in task order. *)
Definition function_for_task (text : string) (task : Task) : FunctionRequirement :=
  let task_name := Py.replace " " "_" (Py.lower (task_name task)) in
  let fn_name := _task_to_function_name task_name task in
  let fn_params := _task_to_function_params task text in
  mkFnReq fn_name (api_description task) fn_params (_infer_output fn_name task).

Definition _detect_functions (tasks : list Task) (text : string) : list FunctionRequirement :=
  map (function_for_task text) (List.filter requires_api tasks).

Definition domain_names : list (string * string) := [
  ("healthcare", "MediBot"); ("e-commerce", "ShopAssist"); ("finance", "FinanceHelper");
  ("travel", "TravelBuddy"); ("telecommunications", "TeleConnect");
  ("food_delivery", "FoodieBot"); ("insurance", "InsureGuide"); ("education", "EduAssist");
  ("real_estate", "PropertyPal"); ("automotive", "AutoCare"); ("general_support", "Ava")
].

Definition _detect_persona (text domain : string) : string * list string * string :=
  let name := default "Ava" (Py.get domain_names domain) in
  if Py.isin "formal" text
  then (name, ["professional"; "courteous"; "precise"], "formal")
  else if Py.isin "casual" text || Py.isin "friendly" text
  then (name, ["friendly"; "upbeat"; "approachable"], "casual")
  else (name, ["friendly"; "professional"; "helpful"], "warm").

Definition _detect_voice_gender (text : string) : string :=
  if Py.isin "male voice" text || Py.isin "male agent" text then "male"
  else if Py.isin "female voice" text || Py.isin "female agent" text then "female"
  else "female".

Definition roles : list (string * string) := [
  ("healthcare", "Appointment & Patient Support Agent");
  ("e-commerce", "Order & Shopping Support Agent");
  ("finance", "Account & Financial Support Agent");
  ("travel", "Booking & Travel Support Agent");
  ("telecommunications", "Service & Billing Support Agent");
  ("food_delivery", "Order & Delivery Support Agent");
  ("insurance", "Claims & Policy Support Agent");
  ("education", "Enrollment & Course Support Agent");
  ("real_estate", "Property & Leasing Support Agent");
  ("automotive", "Service & Repair Support Agent");
  ("general_support", "Customer Support Agent")
].

Definition _role_for_domain (domain : string) : string :=
  default "Customer Support Agent" (Py.get roles domain).

(** The steps one task adds to the flow summary, numbered from
    [step_num]; the result carries the next free number. *)
Definition task_steps (acc : list string * nat) (task : Task) : list string * nat :=
  let '(steps, step_num) := acc in
  if String.eqb (task_name task) "Greeting" then (steps, step_num)
  else
    let '(steps, step_num) :=
      foldl (fun '(steps, step_num) slot =>
               (steps ++ ["Step " +:+ pretty step_num +:+ ": Ask for the customer's "
                          +:+ Py.replace "_" " " slot],
                S step_num))
            (steps, step_num) (data_to_collect task) in
    if requires_api task
    then (steps ++ ["Step " +:+ pretty step_num +:+ ": " +:+ api_description task;
                    "Step " +:+ pretty (S step_num) +:+ ": Communicate the result to the caller"],
          S (S step_num))
    else (steps, step_num).

Definition _build_flow_summary (tasks : list Task) : list string :=
  let '(steps, step_num) :=
    foldl task_steps (["Step 1: Greet the caller and introduce the service"], 2%nat) tasks in
  steps ++ ["Step " +:+ pretty step_num +:+ ": Ask if there's anything else";
            "Step " +:+ pretty (step_num + 1)%nat +:+ ": End the call politely"].

Definition _analyze_with_rules (user_prompt language platform : string) : AnalysisBrief :=
  let prompt_lower := Py.lower user_prompt in
  let domain := _detect_domain prompt_lower in
  let user_slots := _extract_user_slots prompt_lower in
  let tasks := _detect_tasks prompt_lower domain in
  let tasks :=
    match user_slots with
    | [] => tasks
    | _ :: _ => _merge_user_slots_into_tasks tasks user_slots
    end in
  let functions_needed := _detect_functions tasks prompt_lower in
  let persona := _detect_persona prompt_lower domain in
  let name := persona.1.1 in
  let traits := persona.1.2 in
  let style := persona.2 in
  let flow_summary := _build_flow_summary tasks in
  let gender := _detect_voice_gender prompt_lower in
  mkBrief domain name
          (Py.title domain +:+ " " +:+ _role_for_domain domain)
          traits style language gender tasks functions_needed flow_summary
          [] platform user_slots.

(** [_analyze_request] of an orchestrator whose [llm_client] is [None]. *)
Definition _analyze_request (user_prompt language platform : string)
  : Run AnalysisBrief :=
  mret (_analyze_with_rules user_prompt language platform).

End Orchestrator.

(* ================================================================== *)
(** ** Raw agent configuration (the dicts agent_creator.py returns)    *)
(* ================================================================== *)

Definition nl : string := String (ascii_of_nat 10) EmptyString.

Record PersonaDict : Type := mkPersonaDict {
  pr_name : string;
  pr_role : string;
  pr_personality_traits : list string;
  pr_greeting_style : string;
  pr_system_prompt : string;
  pr_fallback_message : string;
  pr_escalation_message : string;
  pr_max_retries : Z;
  pr_greeting_text : string;
}.

Record VoiceDict : Type := mkVoiceDict {
  vr_provider : string;
  vr_voice_id : string;
  vr_gender : string;
  vr_language : string;
  vr_speaking_rate : Q;
  vr_pitch : Q;
}.

Record PhraseDict : Type := mkPhraseDict {
  ph_text : string;
  ph_language : string;
}.

Record IntentDict : Type := mkIntentDict {
  ir_name : string;
  ir_description : string;
  ir_training_phrases : list PhraseDict;
  ir_priority : Z;
}.

Record TransitionDict : Type := mkTransition {
  tr_condition : string;
  tr_target_node_id : string;
}.

Record NodeDict : Type := mkNode {
  nd_node_id : string;
  nd_type : string;
  nd_label : string;
  nd_prompt_text : option string;
  nd_collect_slot : option string;
  nd_function_call : option string;
  nd_transitions : list TransitionDict;
}.

Record FlowDict : Type := mkFlowDict {
  fl_name : string;
  fl_description : string;
  fl_entry_node_id : string;
  fl_nodes : list NodeDict;
}.

Record AgentConfigDict : Type := mkAgentConfigDict {
  ac_persona : PersonaDict;
  ac_voice : VoiceDict;
  ac_intents : list IntentDict;
  ac_conversation_flow : FlowDict;
}.

Module AgentCreator.

(** One numbered entry of the system prompt's task list. *)
Definition task_instruction (i : nat) (task : Task) : string :=
  nl +:+ pretty i +:+ ". **" +:+ task_name task +:+ "**: " +:+ task_description task
  +:+ (match data_to_collect task with
       | [] => ""
       | slots => nl +:+ "   - Collect: " +:+ Py.join ", " slots
       end)
  +:+ (if requires_api task
       then nl +:+ "   - API Integration: " +:+ api_description task
       else "").

Definition _build_persona (analysis : AnalysisBrief) : PersonaDict :=
  let name := agent_name_suggestion analysis in
  let role := agent_role analysis in
  let traits := personality_traits analysis in
  let domain := domain analysis in
  let greeting_style := greeting_style analysis in
  let task_instructions :=
    String.concat "" (imap (fun i task => task_instruction (S i) task) (tasks analysis)) in
  let system_prompt :=
    "You are " +:+ name +:+ ", a " +:+ Py.join ", " traits +:+ " " +:+ role
      +:+ " specializing in " +:+ domain +:+ ". "
    +:+ "You handle phone conversations with customers and your primary tasks are:" +:+ nl
    +:+ task_instructions +:+ nl +:+ nl
    +:+ "## Conversation Guidelines" +:+ nl
    +:+ "- Always greet the caller warmly and introduce yourself by name." +:+ nl
    +:+ "- Speak clearly and at a moderate pace." +:+ nl
    +:+ "- Confirm information back to the caller before proceeding." +:+ nl
    +:+ "- If you don't understand something, politely ask for clarification." +:+ nl
    +:+ "- If you cannot help with a request, offer to transfer to a human agent." +:+ nl
    +:+ "- Keep responses concise — callers prefer short, clear answers." +:+ nl
    +:+ "- End every call by asking if there's anything else you can help with." +:+ nl +:+ nl
    +:+ "## Error Handling" +:+ nl
    +:+ "- If an API call fails, apologize and offer to try again or escalate." +:+ nl
    +:+ "- After " +:+ pretty 3%nat +:+ " failed attempts to understand, escalate to a human." +:+ nl
    +:+ "- Never make up information — only state what you know or can look up." +:+ nl +:+ nl
    +:+ "## Tone" +:+ nl
    +:+ "- You are " +:+ Py.join ", " traits +:+ "." +:+ nl
    +:+ "- Match the caller's energy level while maintaining professionalism." +:+ nl
    +:+ "- Use the caller's name once you have it to personalize the experience." in
  let greeting_map := [
    ("warm", "Hello! Thank you for calling. My name is " +:+ name
             +:+ ", and I'm here to help you today. How can I assist you?");
    ("formal", "Good day. This is " +:+ name +:+ ", your " +:+ role
               +:+ ". How may I assist you today?");
    ("casual", "Hey there! I'm " +:+ name +:+ ". What can I help you with today?")
  ] in
  mkPersonaDict name role traits greeting_style system_prompt
    "I'm sorry, I didn't quite catch that. Could you please repeat what you said?"
    "I appreciate your patience. Let me connect you with a team member who can help you further. Please hold for just a moment."
    3
    (default (default "" (Py.get greeting_map "warm")) (Py.get greeting_map greeting_style)).

(** The voice table, keyed by the pair (gender, language). *)
Definition voice_map : list (string * string * string) := [
  ("female", "en-US", "en-US-Neural2-F");
  ("male", "en-US", "en-US-Neural2-D");
  ("neutral", "en-US", "en-US-Neural2-C");
  ("female", "en-GB", "en-GB-Neural2-A");
  ("male", "en-GB", "en-GB-Neural2-B");
  ("female", "hi-IN", "hi-IN-Neural2-A");
  ("male", "hi-IN", "hi-IN-Neural2-B");
  ("female", "es-ES", "es-ES-Neural2-A")
].

Definition _build_voice (analysis : AnalysisBrief) : VoiceDict :=
  let gender := voice_gender analysis in
  let lang := language analysis in
  let voice_id :=
    match List.find (fun '(g, l, _) => String.eqb g gender && String.eqb l lang) voice_map with
    | Some (_, _, v) => v
    | None => "en-US-Neural2-F"
    end in
  mkVoiceDict "google" voice_id gender lang 1 0.

Definition task_intent (lang : string) (task : Task) : IntentDict :=
  let task_name := Py.replace " " "_" (Py.lower (task_name task)) in
  let desc := task_description task in
  mkIntentDict ("request_" +:+ task_name) ("Caller wants to: " +:+ desc)
    [ mkPhraseDict ("I want to " +:+ Py.lower desc) lang;
      mkPhraseDict ("Can you help me " +:+ Py.lower desc) lang;
      mkPhraseDict ("I need to " +:+ Py.replace "_" " " task_name) lang;
      mkPhraseDict ("Please " +:+ Py.lower desc) lang ]
    3.

Definition _build_intents (analysis : AnalysisBrief) : list IntentDict :=
  let lang := language analysis in
  [ mkIntentDict "greeting" "Caller greets the agent or starts the conversation"
      [ mkPhraseDict "Hello" lang; mkPhraseDict "Hi there" lang;
        mkPhraseDict "Good morning" lang; mkPhraseDict "Hey" lang;
        mkPhraseDict "I need help" lang ]
      5 ]
  ++ map (task_intent lang) (tasks analysis)
  ++ [ mkIntentDict "fallback" "Caller's request is not understood" [] 0;
       mkIntentDict "request_human_agent" "Caller wants to speak with a human"
         [ mkPhraseDict "I want to talk to a person" lang;
           mkPhraseDict "Transfer me to a human" lang;
           mkPhraseDict "Can I speak with someone" lang;
           mkPhraseDict "Let me talk to a real person" lang ]
         8 ].

Definition slot_prompts : list (string * string) := [
  ("name", "Could I please have your name?");
  ("customer_name", "Could I please have your name?");
  ("full_name", "May I have your full name, please?");
  ("first_name", "What's your first name?");
  ("date", "What date works best for you?");
  ("appointment_date", "What date would you like to schedule your appointment?");
  ("preferred_date", "When would you prefer to come in?");
  ("time", "And what time would you prefer?");
  ("appointment_time", "What time would you like your appointment?");
  ("preferred_time", "What time works best for you?");
  ("email", "Could you provide your email address?");
  ("phone", "What's the best phone number to reach you at?");
  ("phone_number", "What's the best phone number to reach you at?");
  ("service", "What type of service are you looking for?");
  ("service_type", "What type of service do you need?");
  ("reason", "Could you tell me the reason for your visit?");
  ("location", "Which location would you prefer?");
  ("order_number", "Could you provide your order number?");
  ("account_number", "What's your account number?");
  ("issue", "Could you describe the issue you're experiencing?");
  ("product", "Which product are you inquiring about?")
].

Definition _slot_prompt (slot agent_name : string) : string :=
  let readable := Py.replace "_" " " slot in
  default ("Could you please provide your " +:+ readable +:+ "?")
          (Py.get slot_prompts (Py.lower slot)).

(** *** The flow nodes of [_build_flow] *)

Definition greeting_node (analysis : AnalysisBrief) : NodeDict :=
  mkNode "node_greet" "greeting" "Welcome Greeting"
    (Some ("Hello! Thank you for calling. My name is "
           +:+ agent_name_suggestion analysis
           +:+ ", and I'm here to help you today. How can I assist you?"))
    None None [].

Definition collect_node (analysis : AnalysisBrief) (slot : string) : NodeDict :=
  let slot_id := Py.replace " " "_" (Py.lower slot) in
  mkNode ("node_collect_" +:+ slot_id) "collect_info"
    ("Collect " +:+ Py.title (Py.replace "_" " " slot))
    (Some (_slot_prompt slot (agent_name_suggestion analysis)))
    (Some slot_id) None [].

(** The function an API node refers to: the first requirement whose name
    contains the task name or occurs in the task's API description, else
    the first requirement, else none. *)
Definition matching_fn (functions_needed : list FunctionRequirement)
    (task_name : string) (task : Task) : option string :=
  match List.find (fun fn => Py.isin task_name (fr_name fn)
                             || Py.isin (fr_name fn) (api_description task))
                  functions_needed with
  | Some fn => Some (fr_name fn)
  | None =>
      match functions_needed with
      | fn :: _ => Some (fr_name fn)
      | [] => None
      end
  end.

Definition api_nodes (functions_needed : list FunctionRequirement)
    (task_name : string) (task : Task) : list NodeDict :=
  let readable := Py.replace "_" " " task_name in
  [ mkNode ("node_api_" +:+ task_name) "api_call"
      ("Call API for " +:+ Py.title readable)
      (Some "One moment while I look that up for you...")
      None (matching_fn functions_needed task_name task) [];
    mkNode ("node_decision_" +:+ task_name) "decision"
      ("Check " +:+ Py.title readable +:+ " Result")
      None None None [];
    mkNode ("node_success_" +:+ task_name) "response"
      (Py.title readable +:+ " — Success")
      (Some ("Great news! I've processed your " +:+ readable +:+ " successfully."))
      None None [];
    mkNode ("node_failure_" +:+ task_name) "response"
      (Py.title readable +:+ " — Failure")
      (Some ("I'm sorry, I wasn't able to complete your " +:+ readable
             +:+ " at this time. Would you like me to transfer you to a team member?"))
      None None [] ].

(** The nodes one task contributes: a collect node per slot, then, when
    the task requires an API, the api, decision, success and failure nodes. *)
Definition task_nodes (analysis : AnalysisBrief) (task : Task) : list NodeDict :=
  let task_name := Py.replace " " "_" (Py.lower (task_name task)) in
  map (collect_node analysis) (data_to_collect task)
  ++ (if requires_api task
      then api_nodes (functions_needed analysis) task_name task
      else []).

Definition confirm_node : NodeDict :=
  mkNode "node_confirm" "confirm" "Confirm & Anything Else"
    (Some "Is there anything else I can help you with today?") None None [].

Definition fallback_node : NodeDict :=
  mkNode "node_fallback" "fallback" "Fallback / Didn't Understand"
    (Some "I'm sorry, I didn't quite catch that. Could you please repeat what you said?")
    None None [].

Definition transfer_node : NodeDict :=
  mkNode "node_transfer" "transfer" "Transfer to Human Agent"
    (Some "I appreciate your patience. Let me connect you with a team member who can help you further. Please hold for just a moment.")
    None None [].

Definition end_node : NodeDict :=
  mkNode "node_end" "end" "End Call"
    (Some "Thank you for calling! Have a wonderful day. Goodbye!") None None [].

Definition closing_nodes : list NodeDict :=
  [confirm_node; fallback_node; transfer_node; end_node].

(** The node list before wiring: every node has no transition yet. *)
Definition unwired_nodes (analysis : AnalysisBrief) : list NodeDict :=
  greeting_node analysis
  :: concat (map (task_nodes analysis) (tasks analysis))
  ++ closing_nodes.

(** *** [_wire_transitions]

    [node_map = {n["node_id"]: n for n in nodes}] maps an id to the node
    dict itself; transitions are appended to that dict in place.  The
    store is the node list, and [node_map] gives the position of the dict
    an id stands for: the last node of that id. *)

Fixpoint node_map_from (i : nat) (nodes : list NodeDict) (m : gmap string nat)
  : gmap string nat :=
  match nodes with
  | [] => m
  | n :: rest => node_map_from (S i) rest (<[nd_node_id n := i]> m)
  end.

Definition node_map_of (nodes : list NodeDict) : gmap string nat :=
  node_map_from 0 nodes ∅.

(** [nid in node_map] *)
Definition has_node (node_map : gmap string nat) (nid : string) : bool :=
  match node_map !! nid with Some _ => true | None => false end.

Definition add_transition (t : TransitionDict) (n : NodeDict) : NodeDict :=
  mkNode (nd_node_id n) (nd_type n) (nd_label n) (nd_prompt_text n)
         (nd_collect_slot n) (nd_function_call n) (nd_transitions n ++ [t]).

(** [node_map[nid]["transitions"].append(t)].  Every id wired below is
    either tested with [in node_map] first or is an id [_build_flow]
    always creates, so the lookup does not fail. *)
Definition append_transition (node_map : gmap string nat) (nid : string)
    (t : TransitionDict) (store : list NodeDict) : list NodeDict :=
  match node_map !! nid with
  | Some i => alter (add_transition t) i store
  | None => store
  end.

(** [node_map[nid]] read from the store. *)
Definition node_at (node_map : gmap string nat) (store : list NodeDict)
    (nid : string) : option NodeDict :=
  node_map !! nid ≫= (fun i => store !! i).

Definition task_group (node_map : gmap string nat) (task : Task) : list string :=
  let task_name := Py.replace " " "_" (Py.lower (task_name task)) in
  List.filter (has_node node_map)
    (map (fun slot => "node_collect_" +:+ Py.replace " " "_" (Py.lower slot))
         (data_to_collect task))
  ++ (if requires_api task
      then List.filter (has_node node_map)
             ["node_api_" +:+ task_name; "node_decision_" +:+ task_name]
      else []).

(** The target of a chained node: the next node of its group, or the
    confirm node when it is the last one. *)
Definition next_or_confirm (next_nid : option string) : string :=
  match next_nid with
  | Some n => if Orchestrator.truthy n then n else "node_confirm"
  | None => "node_confirm"
  end.

Definition wire_decision (node_map : gmap string nat) (nid : string)
    (store : list NodeDict) : list NodeDict :=
  let task_name := Py.replace "node_decision_" "" nid in
  let success_nid := "node_success_" +:+ task_name in
  let failure_nid := "node_failure_" +:+ task_name in
  let store :=
    if has_node node_map success_nid
    then append_transition node_map success_nid (mkTransition "continue" "node_confirm")
           (append_transition node_map nid (mkTransition "success" success_nid) store)
    else store in
  if has_node node_map failure_nid
  then append_transition node_map failure_nid
         (mkTransition "user_declines_transfer" "node_confirm")
         (append_transition node_map failure_nid
            (mkTransition "user_wants_transfer" "node_transfer")
            (append_transition node_map nid (mkTransition "failure" failure_nid) store))
  else store.

(** One step of the chaining loop, for the node [nid] of a group whose
    successor in the group is [next_nid]. *)
Definition wire_node (node_map : gmap string nat) (nid : string)
    (next_nid : option string) (store : list NodeDict) : list NodeDict :=
  match node_at node_map store nid with
  | None => store
  | Some node =>
      if String.eqb (nd_type node) "collect_info"
      then append_transition node_map nid
             (mkTransition "slot_filled" (next_or_confirm next_nid)) store
      else if String.eqb (nd_type node) "api_call"
      then append_transition node_map nid
             (mkTransition "api_response_received" (next_or_confirm next_nid)) store
      else if String.eqb (nd_type node) "decision"
      then wire_decision node_map nid store
      else store
  end.

Fixpoint wire_group (node_map : gmap string nat) (group : list string)
    (store : list NodeDict) : list NodeDict :=
  match group with
  | [] => store
  | nid :: rest => wire_group node_map rest (wire_node node_map nid (head rest) store)
  end.

Definition wire_greeting (node_map : gmap string nat) (task_groups : list (list string))
    (store : list NodeDict) : list NodeDict :=
  match task_groups with
  | (first :: _) :: _ =>
      append_transition node_map "node_greet" (mkTransition "user_responds" first) store
  | _ =>
      append_transition node_map "node_greet"
        (mkTransition "user_responds" "node_confirm") store
  end.

Definition wire_closing (node_map : gmap string nat) (store : list NodeDict)
  : list NodeDict :=
  let store :=
    if has_node node_map "node_confirm"
    then append_transition node_map "node_confirm"
           (mkTransition "has_more_questions" "node_greet")
           (append_transition node_map "node_confirm"
              (mkTransition "nothing_else" "node_end") store)
    else store in
  let store :=
    if has_node node_map "node_fallback"
    then append_transition node_map "node_fallback" (mkTransition "retry" "node_greet") store
    else store in
  if has_node node_map "node_transfer"
  then append_transition node_map "node_transfer" (mkTransition "transferred" "node_end") store
  else store.

Definition _wire_transitions (nodes : list NodeDict) (tasks : list Task)
    (functions_needed : list FunctionRequirement) : list NodeDict :=
  let node_map := node_map_of nodes in
  let task_groups := map (task_group node_map) tasks in
  let store := wire_greeting node_map task_groups nodes in
  let store := foldl (fun store group => wire_group node_map group store) store task_groups in
  wire_closing node_map store.

Definition _build_flow (analysis : AnalysisBrief) : FlowDict :=
  let nodes := unwired_nodes analysis in
  let nodes := _wire_transitions nodes (tasks analysis) (functions_needed analysis) in
  mkFlowDict (domain analysis +:+ "_flow")
    ("Conversation flow for " +:+ agent_name_suggestion analysis +:+ " handling "
     +:+ Py.join ", " (map task_name (tasks analysis)))
    "node_greet" nodes.

Definition _create_with_rules (analysis : AnalysisBrief) : AgentConfigDict :=
  let persona := _build_persona analysis in
  let voice := _build_voice analysis in
  let intents := _build_intents analysis in
  let flow := _build_flow analysis in
  mkAgentConfigDict persona voice intents flow.

(** [create_agent_config] of a creator whose [llm_client] is [None]. *)
Definition create_agent_config (analysis : AnalysisBrief) : Run AgentConfigDict :=
  mret (_create_with_rules analysis).

End AgentCreator.

(* ================================================================== *)
(** ** Function definitions (function_creator.py)                      *)
(* ================================================================== *)

Record EndpointDict : Type := mkEndpointDict {
  ep_url : string;
  ep_method : string;
  ep_headers : list (string * string);
  ep_auth_type : option string;
  ep_timeout_seconds : Z;
}.

(** A function definition dict: only "name" is indexed directly, every
    other key is read with [.get]. *)
Record FnDict : Type := mkFnDict {
  fd_name : string;
  fd_description : option string;
  fd_parameters : option (list ParamDict);
  fd_returns_description : option string;
  fd_api_endpoint : option EndpointDict;
  fd_mock_response : option json;
}.

(** The OpenAI tool schema:
    [{type, function: {name, description, parameters: {type, properties, required}}}].
    A property's "enum" and "default" keys are optional. *)
Record PropSchema : Type := mkPropSchema {
  ps_type : string;
  ps_description : string;
  ps_enum : option (list string);
  ps_default : option json;
}.

Record ParamsSchema : Type := mkParamsSchema {
  psc_type : string;
  psc_properties : gmap string PropSchema;
  psc_required : list string;
}.

Record FunctionSchema : Type := mkFunctionSchema {
  fs_name : string;
  fs_description : string;
  fs_parameters : ParamsSchema;
}.

Record ToolSchema : Type := mkToolSchema {
  tool_type : string;
  tool_function : FunctionSchema;
}.

Module FunctionCreator.

Definition _infer_http_method (name purpose : string) : string :=
  let name_lower := Py.lower name in
  let purpose_lower := Py.lower purpose in
  if Py.any_in ["get"; "fetch"; "list"; "check"; "search"; "find"; "lookup"] name_lower
  then "GET"
  else if Py.any_in ["create"; "book"; "schedule"; "submit"; "register"] name_lower
  then "POST"
  else if Py.any_in ["update"; "modify"; "change"] name_lower
  then "PUT"
  else if Py.any_in ["delete"; "cancel"; "remove"] name_lower
  then "DELETE"
  else if Py.any_in ["retrieve"; "query"; "look up"] purpose_lower
  then "GET"
  else "POST".

Definition verbs : gset string :=
  list_to_set ["get"; "fetch"; "create"; "book"; "update"; "delete"; "check";
               "list"; "search"; "submit"; "cancel"].

Definition _build_endpoint (name method : string) (parameters : list ParamDict)
  : EndpointDict :=
  let parts := Py.split "_" name in
  let resource_parts :=
    List.filter (fun p => negb (bool_decide (Py.lower p ∈ verbs))) parts in
  let resource_parts :=
    match resource_parts with
    | [] => if (1 <? length parts)%nat then tail parts else parts
    | _ :: _ => resource_parts
    end in
  let url_path := Py.join "/" resource_parts in
  let url_path :=
    if String.eqb method "GET"
    then match List.filter (fun p => Py.isin "id" (Py.lower (pd_name p))) parameters with
         | p :: _ => url_path +:+ "/{" +:+ pd_name p +:+ "}"
         | [] => url_path
         end
    else url_path in
  mkEndpointDict ("/api/v1/" +:+ url_path) method
                 [("Content-Type", "application/json")] (Some "bearer") 10.

Definition slot_entry (date time : string) : json :=
  JDict [("date", JStr date); ("time", JStr time); ("available", JBool true)].

Definition mock_templates : list (string * json) := [
  ("appointment", JDict [
     ("success", JBool true);
     ("data", JDict [
        ("available_slots", JList [
           slot_entry "2026-02-24" "09:00 AM";
           slot_entry "2026-02-24" "10:30 AM";
           slot_entry "2026-02-24" "02:00 PM" ]);
        ("timezone", JStr "America/New_York") ]);
     ("message", JStr "Available slots retrieved successfully") ]);
  ("book", JDict [
     ("success", JBool true);
     ("data", JDict [
        ("booking_id", JStr "BK-20260224-001");
        ("status", JStr "confirmed");
        ("confirmation_code", JStr "CONF-7829");
        ("date", JStr "2026-02-24");
        ("time", JStr "10:30 AM") ]);
     ("message", JStr "Appointment booked successfully") ]);
  ("order", JDict [
     ("success", JBool true);
     ("data", JDict [
        ("order_id", JStr "ORD-2026-4521");
        ("status", JStr "shipped");
        ("tracking_number", JStr "1Z999AA10123456784");
        ("estimated_delivery", JStr "2026-02-26");
        ("items", JList [
           JDict [("name", JStr "Product A"); ("quantity", JInt 1);
                  ("price", JFloat (2999 # 100))] ]) ]);
     ("message", JStr "Order details retrieved successfully") ]);
  ("account", JDict [
     ("success", JBool true);
     ("data", JDict [
        ("account_id", JStr "ACC-78291");
        ("name", JStr "John Smith");
        ("status", JStr "active");
        ("balance", JFloat (1250 # 1));
        ("last_activity", JStr "2026-02-23") ]);
     ("message", JStr "Account information retrieved successfully") ]);
  ("cancel", JDict [
     ("success", JBool true);
     ("data", JDict [
        ("cancellation_id", JStr "CAN-20260224-003");
        ("status", JStr "cancelled");
        ("refund_amount", JFloat (2999 # 100));
        ("refund_eta", JStr "3-5 business days") ]);
     ("message", JStr "Cancellation processed successfully") ]);
  ("transfer", JDict [
     ("success", JBool true);
     ("data", JDict [
        ("transfer_id", JStr "TRF-001");
        ("department", JStr "Customer Support");
        ("estimated_wait", JStr "2 minutes");
        ("queue_position", JInt 3) ]);
     ("message", JStr "Transfer initiated") ]);
  ("verify", JDict [
     ("success", JBool true);
     ("data", JDict [
        ("verified", JBool true);
        ("customer_id", JStr "CUST-45678");
        ("name", JStr "John Smith") ]);
     ("message", JStr "Customer verified successfully") ])
].

Definition _generate_mock_response (name expected_output : string)
    (parameters : list ParamDict) : json :=
  let name_lower := Py.lower name in
  match List.find (fun '(keyword, _) => Py.isin keyword name_lower) mock_templates with
  | Some (_, template) => template
  | None =>
      JDict [
        ("success", JBool true);
        ("data", JDict [
           ("result", JStr ("Operation '" +:+ name +:+ "' completed successfully"));
           ("id", JStr "RES-20260224-001");
           ("timestamp", JStr "2026-02-24T10:30:00Z") ]);
        ("message", JStr (Py.title (Py.replace "_" " " name) +:+ " completed successfully")) ]
  end.

(** A requirement's parameter, with every key of a parameter dict set. *)
Definition build_parameter (param : ParamDict) : ParamDict :=
  mkParam (pd_name param)
          (Some (default "string" (pd_type param)))
          (Some (default ("The " +:+ pd_name param +:+ " value") (pd_description param)))
          (Some (default true (pd_required param)))
          (pd_default param)
          (pd_enum param).

Definition _build_function (fn_req : FunctionRequirement) : FnDict :=
  let name := fr_name fn_req in
  let purpose := fr_purpose fn_req in
  let input_params := fr_input_params fn_req in
  let expected_output := fr_expected_output fn_req in
  let parameters := map build_parameter input_params in
  let method := _infer_http_method name purpose in
  let endpoint := _build_endpoint name method parameters in
  let mock := _generate_mock_response name expected_output parameters in
  mkFnDict name
    (Some (purpose +:+ ". This function is called during the conversation when "
           +:+ "the agent needs to " +:+ Py.lower purpose +:+ ". "
           +:+ "Returns: " +:+ expected_output))
    (Some parameters) (Some expected_output) (Some endpoint) (Some mock).

Definition _create_with_rules (functions_needed : list FunctionRequirement)
  : list FnDict :=
  map _build_function functions_needed.

(** [create_functions] of a creator whose [llm_client] is [None]. *)
Definition create_functions (functions_needed : list FunctionRequirement)
  : Run (list FnDict) :=
  match functions_needed with
  | [] => mret []
  | _ :: _ => mret (_create_with_rules functions_needed)
  end.

(** *** [to_openai_tools] *)

(** The property dict written for one parameter. *)
Definition tool_property (p : ParamDict) : PropSchema :=
  mkPropSchema (default "string" (pd_type p))
               (default "" (pd_description p))
               (match pd_enum p with
                | Some (_ :: _ as enum) => Some enum
                | _ => None
                end)
               (match pd_default p with
                | Some JNone | None => None
                | Some v => Some v
                end).

(** One turn of the parameter loop over the accumulators
    [(properties, required)]. *)
Definition tool_param_step (acc : gmap string PropSchema * list string) (p : ParamDict)
  : gmap string PropSchema * list string :=
  let '(properties, required) := acc in
  let properties := <[pd_name p := tool_property p]> properties in
  if default true (pd_required p)
  then (properties, required ++ [pd_name p])
  else (properties, required).

Definition tool_of_function (fn : FnDict) : ToolSchema :=
  let '(properties, required) :=
    foldl tool_param_step (∅, []) (default [] (fd_parameters fn)) in
  mkToolSchema "function"
    (mkFunctionSchema (fd_name fn) (default "" (fd_description fn))
       (mkParamsSchema "object" properties required)).

Definition to_openai_tools (functions : list FnDict) : list ToolSchema :=
  map tool_of_function functions.

End FunctionCreator.

(* ================================================================== *)
(** ** The pydantic models (models.py)                                 *)
(* ================================================================== *)

Module Models.

Inductive VoiceGender : Type := MALE | FEMALE | NEUTRAL.
Inductive VoiceProvider : Type := GOOGLE | AZURE | ELEVENLABS | AWS_POLLY.
Inductive LanguageCode : Type := EN_US | EN_GB | ES_ES | FR_FR | DE_DE | HI_IN | JA_JP.
Inductive ParamType : Type := STRING | INTEGER | NUMBER | BOOLEAN | ARRAY | OBJECT.
Inductive HTTPMethod : Type := GET | POST | PUT | PATCH | DELETE.
Inductive NodeType : Type :=
  | GREETING | COLLECT_INFO | API_CALL | DECISION | RESPONSE
  | TRANSFER | END | CONFIRM | FALLBACK.
Inductive AgentStatus : Type := DRAFT | TESTING | DEPLOYED | ARCHIVED.

Definition VoiceGender_values : list (string * VoiceGender) :=
  [("male", MALE); ("female", FEMALE); ("neutral", NEUTRAL)].
Definition VoiceProvider_values : list (string * VoiceProvider) :=
  [("google", GOOGLE); ("azure", AZURE); ("elevenlabs", ELEVENLABS); ("aws_polly", AWS_POLLY)].
Definition LanguageCode_values : list (string * LanguageCode) :=
  [("en-US", EN_US); ("en-GB", EN_GB); ("es-ES", ES_ES); ("fr-FR", FR_FR);
   ("de-DE", DE_DE); ("hi-IN", HI_IN); ("ja-JP", JA_JP)].
Definition ParamType_values : list (string * ParamType) :=
  [("string", STRING); ("integer", INTEGER); ("number", NUMBER);
   ("boolean", BOOLEAN); ("array", ARRAY); ("object", OBJECT)].
Definition HTTPMethod_values : list (string * HTTPMethod) :=
  [("GET", GET); ("POST", POST); ("PUT", PUT); ("PATCH", PATCH); ("DELETE", DELETE)].
Definition NodeType_values : list (string * NodeType) :=
  [("greeting", GREETING); ("collect_info", COLLECT_INFO); ("api_call", API_CALL);
   ("decision", DECISION); ("response", RESPONSE); ("transfer", TRANSFER);
   ("end", END); ("confirm", CONFIRM); ("fallback", FALLBACK)].

(** [language.value] *)
Definition LanguageCode_value (l : LanguageCode) : string :=
  match l with
  | EN_US => "en-US" | EN_GB => "en-GB" | ES_ES => "es-ES" | FR_FR => "fr-FR"
  | DE_DE => "de-DE" | HI_IN => "hi-IN" | JA_JP => "ja-JP"
  end.

(** [type.value] *)
Definition ParamType_value (t : ParamType) : string :=
  match t with
  | STRING => "string" | INTEGER => "integer" | NUMBER => "number"
  | BOOLEAN => "boolean" | ARRAY => "array" | OBJECT => "object"
  end.

(** pydantic refuses a value a field does not admit.  The text of its
    message is not modelled beyond the model and the field it names. *)
Definition validation_error (model field : string) : PyException :=
  mkExc "ValidationError" ("1 validation error for " +:+ model +:+ nl +:+ field).

(** A string validated against an enum's values. *)
Definition enum_field {E : Type} (values : list (string * E))
    (model field value : string) : Outcome E :=
  match Py.get values value with
  | Some e => Returns e
  | None => Raises (validation_error model field)
  end.

(** An integer validated against [ge] and [le] bounds. *)
Definition int_field (lo hi : Z) (model field : string) (v : Z) : Outcome Z :=
  if (lo <=? v)%Z && (v <=? hi)%Z then Returns v
  else Raises (validation_error model field).

(** A float validated against [ge] and [le] bounds. *)
Definition float_field (lo hi : Q) (model field : string) (v : Q) : Outcome Q :=
  if Qle_bool lo v && Qle_bool v hi then Returns v
  else Raises (validation_error model field).

Record VoiceConfig : Type := mkVoiceConfig {
  provider : VoiceProvider;
  voice_id : string;
  gender : VoiceGender;
  voice_language : LanguageCode;
  speaking_rate : Q;
  pitch : Q;
}.

Definition VoiceConfig_new (provider voice_id gender language : string)
    (speaking_rate pitch : Q) : Outcome VoiceConfig :=
  provider ← enum_field VoiceProvider_values "VoiceConfig" "provider" provider;
  gender ← enum_field VoiceGender_values "VoiceConfig" "gender" gender;
  language ← enum_field LanguageCode_values "VoiceConfig" "language" language;
  speaking_rate ← float_field (1 # 2) 2 "VoiceConfig" "speaking_rate" speaking_rate;
  pitch ← float_field (-10) 10 "VoiceConfig" "pitch" pitch;
  mret (mkVoiceConfig provider voice_id gender language speaking_rate pitch).

Record PersonaConfig : Type := mkPersonaConfig {
  persona_name : string;
  role : string;
  persona_traits : list string;
  persona_greeting_style : string;
  system_prompt : string;
  fallback_message : string;
  escalation_message : string;
  max_retries : Z;
}.

Definition PersonaConfig_new (name role : string) (traits : list string)
    (greeting_style system_prompt fallback_message escalation_message : string)
    (max_retries : Z) : Outcome PersonaConfig :=
  max_retries ← int_field 1 5 "PersonaConfig" "max_retries" max_retries;
  mret (mkPersonaConfig name role traits greeting_style system_prompt
          fallback_message escalation_message max_retries).

Record TrainingPhrase : Type := mkTrainingPhrase {
  phrase_text : string;
  phrase_language : LanguageCode;
}.

Definition TrainingPhrase_new (text language : string) : Outcome TrainingPhrase :=
  language ← enum_field LanguageCode_values "TrainingPhrase" "language" language;
  mret (mkTrainingPhrase text language).

Record IntentDefinition : Type := mkIntentDefinition {
  intent_id : string;
  intent_name : string;
  intent_description : string;
  training_phrases : list TrainingPhrase;
  priority : Z;
}.

(** [intent_id] comes from its default factory: ["intent_" + uuid4().hex[:8]]. *)
Definition IntentDefinition_new (name description : string)
    (training_phrases : list TrainingPhrase) (priority : Z) : Run IntentDefinition :=
  hex ← uuid4;
  priority ← pure_run (int_field 0 10 "IntentDefinition" "priority" priority);
  mret (mkIntentDefinition ("intent_" +:+ Py.slice_to 8 hex) name description
          training_phrases priority).

Record FunctionParameter : Type := mkFunctionParameter {
  param_name : string;
  param_type : ParamType;
  param_description : string;
  required : bool;
  param_default : option json;
  enum : option (list string);
}.

Definition FunctionParameter_new (name type description : string) (required : bool)
    (default : option json) (enum : option (list string)) : Outcome FunctionParameter :=
  type ← enum_field ParamType_values "FunctionParameter" "type" type;
  mret (mkFunctionParameter name type description required default enum).

Record APIEndpoint : Type := mkAPIEndpoint {
  url : string;
  method : HTTPMethod;
  headers : list (string * string);
  auth_type : option string;
  timeout_seconds : Z;
}.

Definition APIEndpoint_new (url method : string) (headers : list (string * string))
    (auth_type : option string) (timeout_seconds : Z) : Outcome APIEndpoint :=
  method ← enum_field HTTPMethod_values "APIEndpoint" "method" method;
  timeout_seconds ← int_field 1 60 "APIEndpoint" "timeout_seconds" timeout_seconds;
  mret (mkAPIEndpoint url method headers auth_type timeout_seconds).

Record FunctionDefinition : Type := mkFunctionDefinition {
  function_id : string;
  function_name : string;
  function_description : string;
  parameters : list FunctionParameter;
  returns_description : string;
  api_endpoint : option APIEndpoint;
  mock_response : option json;
}.

(** [function_id] comes from its default factory: ["fn_" + uuid4().hex[:8]]. *)
Definition FunctionDefinition_new (name description : string)
    (parameters : list FunctionParameter) (returns_description : string)
    (api_endpoint : option APIEndpoint) (mock_response : option json)
  : Run FunctionDefinition :=
  hex ← uuid4;
  mret (mkFunctionDefinition ("fn_" +:+ Py.slice_to 8 hex) name description
          parameters returns_description api_endpoint mock_response).

(** The loop of [FunctionDefinition.to_openai_tool_schema]. *)
Definition schema_param_step (acc : gmap string PropSchema * list string)
    (p : FunctionParameter) : gmap string PropSchema * list string :=
  let '(properties, req) := acc in
  let prop :=
    mkPropSchema (ParamType_value (param_type p))
                 (param_description p)
                 (match enum p with Some (_ :: _ as e) => Some e | _ => None end)
                 (match param_default p with Some JNone | None => None | Some v => Some v end) in
  let properties := <[param_name p := prop]> properties in
  if required p then (properties, req ++ [param_name p]) else (properties, req).

Definition to_openai_tool_schema (f : FunctionDefinition) : ToolSchema :=
  let '(properties, req) := foldl schema_param_step (∅, []) (parameters f) in
  mkToolSchema "function"
    (mkFunctionSchema (function_name f) (function_description f)
       (mkParamsSchema "object" properties req)).

Record FlowTransition : Type := mkFlowTransition {
  condition : string;
  target_node_id : string;
}.

Record FlowNode : Type := mkFlowNode {
  node_id : string;
  type : NodeType;
  label : string;
  prompt_text : option string;
  collect_slot : option string;
  function_call : option string;
  transitions : list FlowTransition;
}.

Definition FlowNode_new (node_id type label : string)
    (prompt_text collect_slot function_call : option string)
    (transitions : list FlowTransition) : Outcome FlowNode :=
  type ← enum_field NodeType_values "FlowNode" "type" type;
  mret (mkFlowNode node_id type label prompt_text collect_slot function_call transitions).

Record ConversationFlow : Type := mkConversationFlow {
  flow_id : string;
  flow_name : string;
  flow_description : string;
  entry_node_id : string;
  nodes : list FlowNode;
}.

(** [flow_id] comes from its default factory: ["flow_" + uuid4().hex[:8]]. *)
Definition ConversationFlow_new (name description entry_node_id : string)
    (nodes : list FlowNode) : Run ConversationFlow :=
  hex ← uuid4;
  mret (mkConversationFlow ("flow_" +:+ Py.slice_to 8 hex) name description
          entry_node_id nodes).

Record DeploymentConfig : Type := mkDeploymentConfig {
  deployment_platform : string;
  phone_number : option string;
  webhook_url : option string;
  environment : string;
  max_concurrent_calls : Z;
  recording_enabled : bool;
  analytics_enabled : bool;
}.

(** [DeploymentConfig(platform=platform)]: every other field has its default. *)
Definition DeploymentConfig_new (platform : string) : DeploymentConfig :=
  mkDeploymentConfig platform None None "staging" 10 true true.

Record CXAgentConfig : Type := mkCXAgentConfig {
  agent_id : string;
  version : string;
  status : AgentStatus;
  created_at : string;
  persona : PersonaConfig;
  voice : VoiceConfig;
  intents : list IntentDefinition;
  functions : list FunctionDefinition;
  conversation_flow : option ConversationFlow;
  deployment : DeploymentConfig;
  metadata : list (string * string);
}.

(** [agent_id] is ["agent_" + uuid4().hex[:12]] and [created_at] is
    [datetime.utcnow().isoformat() + "Z"], both from default factories. *)
Definition CXAgentConfig_new (persona : PersonaConfig) (voice : VoiceConfig)
    (intents : list IntentDefinition) (functions : list FunctionDefinition)
    (conversation_flow : option ConversationFlow) (deployment : DeploymentConfig)
    (metadata : list (string * string)) : Run CXAgentConfig :=
  hex ← uuid4;
  now ← utcnow;
  mret (mkCXAgentConfig ("agent_" +:+ Py.slice_to 12 hex) "1.0.0" DRAFT (now +:+ "Z")
          persona voice intents functions conversation_flow deployment metadata).

Definition get_openai_tools (c : CXAgentConfig) : list ToolSchema :=
  map to_openai_tool_schema (functions c).

Record AgentCreateRequest : Type := mkAgentCreateRequest {
  user_prompt : string;
  request_language : LanguageCode;
  request_platform : string;
}.

Record AgentCreateResponse : Type := mkAgentCreateResponse {
  success : bool;
  message : string;
  agent_config : option CXAgentConfig;
  openai_tools_schema : option (list ToolSchema);
  raw_analysis : option AnalysisBrief;
}.

End Models.

(* ================================================================== *)
(** ** Merging and the request pipeline (orchestrator.py)              *)
(* ================================================================== *)

Module MetaOrchestrator.
Import Models.

Definition intent_of_raw (intent_raw : IntentDict) : Run IntentDefinition :=
  phrases ← pure_run (mapM (fun p => TrainingPhrase_new (ph_text p) (ph_language p))
                           (ir_training_phrases intent_raw));
  IntentDefinition_new (ir_name intent_raw) (ir_description intent_raw)
                       phrases (ir_priority intent_raw).

Definition parameter_of_raw (p : ParamDict) : Outcome FunctionParameter :=
  FunctionParameter_new (pd_name p) (default "string" (pd_type p))
    (default "" (pd_description p)) (default true (pd_required p))
    (pd_default p) (pd_enum p).

Definition endpoint_of_raw (ep : EndpointDict) : Outcome APIEndpoint :=
  APIEndpoint_new (ep_url ep) (ep_method ep) (ep_headers ep) (ep_auth_type ep)
                  (ep_timeout_seconds ep).

Definition function_of_raw (fn_raw : FnDict) : Run FunctionDefinition :=
  params ← pure_run (mapM parameter_of_raw (default [] (fd_parameters fn_raw)));
  endpoint ← pure_run (match fd_api_endpoint fn_raw with
                       | Some ep => endpoint ← endpoint_of_raw ep; mret (Some endpoint)
                       | None => mret None
                       end);
  FunctionDefinition_new (fd_name fn_raw) (default "" (fd_description fn_raw))
    params (default "" (fd_returns_description fn_raw)) endpoint
    (fd_mock_response fn_raw).

Definition transition_of_raw (t : TransitionDict) : FlowTransition :=
  mkFlowTransition (tr_condition t) (tr_target_node_id t).

Definition node_of_raw (n : NodeDict) : Outcome FlowNode :=
  FlowNode_new (nd_node_id n) (nd_type n) (nd_label n) (nd_prompt_text n)
    (nd_collect_slot n) (nd_function_call n)
    (map transition_of_raw (nd_transitions n)).

Definition flow_of_raw (flow_raw : FlowDict) : Run ConversationFlow :=
  flow_nodes ← pure_run (mapM node_of_raw (fl_nodes flow_raw));
  ConversationFlow_new (fl_name flow_raw) (fl_description flow_raw)
                       (fl_entry_node_id flow_raw) flow_nodes.

(** [_merge_config] of an orchestrator whose [llm_client] is [None]. *)
Definition _merge_config (analysis : AnalysisBrief) (agent_config : AgentConfigDict)
    (functions : list FnDict) (platform : string) : Run CXAgentConfig :=
  let persona_raw := ac_persona agent_config in
  persona ← pure_run (PersonaConfig_new
    (pr_name persona_raw) (pr_role persona_raw) (pr_personality_traits persona_raw)
    (pr_greeting_style persona_raw) (pr_system_prompt persona_raw)
    (pr_fallback_message persona_raw) (pr_escalation_message persona_raw)
    (pr_max_retries persona_raw));
  let voice_raw := ac_voice agent_config in
  voice ← pure_run (VoiceConfig_new
    (vr_provider voice_raw) (vr_voice_id voice_raw) (vr_gender voice_raw)
    (vr_language voice_raw) (vr_speaking_rate voice_raw) (vr_pitch voice_raw));
  intents ← mapM intent_of_raw (ac_intents agent_config);
  func_defs ← mapM function_of_raw functions;
  flow ← flow_of_raw (ac_conversation_flow agent_config);
  let deployment := DeploymentConfig_new platform in
  CXAgentConfig_new persona voice intents func_defs (Some flow) deployment
    [("source_prompt", domain analysis); ("generation_mode", "rule_based")].

(** *** [process_request]

    The body of the [try] block runs five stages in sequence; the handler
    [except Exception as e] turns whatever one of them raises into a
    failure response.  The stages are parameters here: with an LLM client
    they are remote calls, without one they are the rule-based functions
    ([process_request] below). *)
Section Pipeline.

Variable analyze_request : string -> string -> string -> Run AnalysisBrief.
Variable create_agent_config : AnalysisBrief -> Run AgentConfigDict.
Variable create_functions : list FunctionRequirement -> Run (list FnDict).
Variable merge_config :
  AnalysisBrief -> AgentConfigDict -> list FnDict -> string -> Run CXAgentConfig.
Variable to_openai_tools : list FnDict -> Run (list ToolSchema).

Definition success_response (analysis : AnalysisBrief) (agent_config : CXAgentConfig)
    (openai_tools : list ToolSchema) : AgentCreateResponse :=
  mkAgentCreateResponse true
    ("Successfully created CX agent '" +:+ persona_name (persona agent_config)
     +:+ "' with " +:+ pretty (length (functions agent_config)) +:+ " functions and "
     +:+ pretty (length (intents agent_config)) +:+ " intents.")
    (Some agent_config) (Some openai_tools) (Some analysis).

Definition failure_response (e : PyException) : AgentCreateResponse :=
  mkAgentCreateResponse false ("Failed to create agent: " +:+ exc_str e)
                        None None None.

(** The [try] block. *)
Definition pipeline (request : AgentCreateRequest) : Run AgentCreateResponse :=
  analysis ← analyze_request (user_prompt request)
                             (LanguageCode_value (request_language request))
                             (request_platform request);
  agent_config_raw ← create_agent_config analysis;
  let functions_needed := functions_needed analysis in
  functions_raw ← create_functions functions_needed;
  agent_config ← merge_config analysis agent_config_raw functions_raw
                              (request_platform request);
  openai_tools ← to_openai_tools functions_raw;
  mret (success_response analysis agent_config openai_tools).

(** [try: ... except Exception as e: ...]: the result is always a response. *)
Definition process_request_with (request : AgentCreateRequest) (w : World)
  : AgentCreateResponse * World :=
  match pipeline request w with
  | (Returns response, w') => (response, w')
  | (Raises e, w') => (failure_response e, w')
  end.

(** An exception [e] escapes the stages: one of them raises [e] after the
    stages before it have returned. *)
Inductive escapes (request : AgentCreateRequest) (w : World) (e : PyException) : Prop :=
  | escapes_analysis w' :
      analyze_request (user_prompt request)
                      (LanguageCode_value (request_language request))
                      (request_platform request) w = (Raises e, w') ->
      escapes request w e
  | escapes_agent_creator analysis w1 w' :
      analyze_request (user_prompt request)
                      (LanguageCode_value (request_language request))
                      (request_platform request) w = (Returns analysis, w1) ->
      create_agent_config analysis w1 = (Raises e, w') ->
      escapes request w e
  | escapes_function_creator analysis w1 agent_config_raw w2 w' :
      analyze_request (user_prompt request)
                      (LanguageCode_value (request_language request))
                      (request_platform request) w = (Returns analysis, w1) ->
      create_agent_config analysis w1 = (Returns agent_config_raw, w2) ->
      create_functions (functions_needed analysis) w2 = (Raises e, w') ->
      escapes request w e
  | escapes_merge analysis w1 agent_config_raw w2 functions_raw w3 w' :
      analyze_request (user_prompt request)
                      (LanguageCode_value (request_language request))
                      (request_platform request) w = (Returns analysis, w1) ->
      create_agent_config analysis w1 = (Returns agent_config_raw, w2) ->
      create_functions (functions_needed analysis) w2 = (Returns functions_raw, w3) ->
      merge_config analysis agent_config_raw functions_raw (request_platform request) w3
        = (Raises e, w') ->
      escapes request w e
  | escapes_tools analysis w1 agent_config_raw w2 functions_raw w3 agent_config w4 w' :
      analyze_request (user_prompt request)
                      (LanguageCode_value (request_language request))
                      (request_platform request) w = (Returns analysis, w1) ->
      create_agent_config analysis w1 = (Returns agent_config_raw, w2) ->
      create_functions (functions_needed analysis) w2 = (Returns functions_raw, w3) ->
      merge_config analysis agent_config_raw functions_raw (request_platform request) w3
        = (Returns agent_config, w4) ->
      to_openai_tools functions_raw w4 = (Raises e, w') ->
      escapes request w e.

End Pipeline.

(** [process_request] of the orchestrator built without an API key: every
    stage is the rule-based one. *)
Definition process_request (request : AgentCreateRequest) (w : World)
  : AgentCreateResponse * World :=
  process_request_with
    Orchestrator._analyze_request
    AgentCreator.create_agent_config
    FunctionCreator.create_functions
    _merge_config
    (fun functions => mret (FunctionCreator.to_openai_tools functions))
    request w.

End MetaOrchestrator.

(* ================================================================== *)
(** ** The example request of [GET /api/example] (main.py)             *)
(* ================================================================== *)

Definition example_prompt : string :=
  "Create a support bot for appointment booking. It should greet, ask for name and date, and confirm availability via an API.".

Definition example_request : Models.AgentCreateRequest :=
  Models.mkAgentCreateRequest example_prompt Models.EN_US "voiceowl".

Definition example_brief : AnalysisBrief :=
  Orchestrator._analyze_with_rules example_prompt "en-US" "voiceowl".

(** A prompt that mentions "email" and "phone number" and nothing else
    the keyword tables know. *)
Definition contact_prompt : string :=
  "Collect the email and phone number of the caller".

(** A function creator that fails as an LLM-backed one does when the
    model's JSON lacks a key the code indexes. *)
Definition failing_function_creator : list FunctionRequirement -> Run (list FnDict) :=
  fun _ w => (Raises (mkExc "KeyError" "'name'"), w).

(** A world whose n-th uuid starts with the digits of [n] and whose clock
    reads a fixed instant on the first call and a later one afterwards. *)
Definition example_world : World :=
  mkWorld (fun n => pretty n +:+ "c0ffee0123456789abcdef0123456789")
          0
          (fun n => "2026-02-24T10:30:0" +:+ pretty n +:+ ".000000")
          0.

(* ================================================================== *)
(** ** The route that creates an agent (main.py)                       *)
(* ================================================================== *)

Module Main.
Import Models.

(** What a route handler does: it returns a body, or raises
    [HTTPException(status_code, detail)]. *)
Inductive Handled (A : Type) : Type :=
  | Responds (body : A)
  | HTTPException (status_code : Z) (detail : string).

Arguments Responds {A} body.
Arguments HTTPException {A} status_code detail.

(** [create_agent].  [orchestrator] is the module-level singleton, [None]
    until the lifespan hook has built it; its [process_request] is what
    the handler awaits. *)
Definition create_agent
    (orchestrator : option (AgentCreateRequest -> World -> AgentCreateResponse * World))
    (request : AgentCreateRequest) (w : World)
  : Handled AgentCreateResponse * World :=
  match orchestrator with
  | None => (HTTPException 503 "Orchestrator not initialized", w)
  | Some process_request =>
      let '(result, w') := process_request request w in
      if negb (success result)
      then (HTTPException 400 (message result), w')
      else (Responds result, w')
  end.

End Main.

(* ================================================================== *)
(** ** Task names                                                      *)
(* ================================================================== *)

(** The names a detected task can have. *)
Definition detectable_names : list string :=
  [ "Greeting"; "Collect Customer Name"; "Collect Email"; "Collect Phone Number";
    "Appointment Booking"; "Order Status Check"; "Account Inquiry"; "File Complaint";
    "Cancellation Processing"; "Confirm Availability"; "FAQ & Information";
    "General Inquiry" ].

(** The slot names a task of a rule-based brief can collect: those of the
    task tables and those of the slot table. *)
Definition collectable_slots : list string :=
  [ "customer_name"; "email"; "phone_number"; "preferred_date"; "preferred_time";
    "address"; "service_type"; "reason"; "order_number"; "account_number";
    "issue_description"; "age"; "dob"; "insurance_id"; "company_name";
    "inquiry_details"; "cancellation_reason" ].

(* ================================================================== *)
(** ** The flow as a graph                                             *)
(* ================================================================== *)

Module Flow.

(** [edge nodes a b]: a node of id [a] carries a transition to [b]. *)
Definition edge (nodes : list NodeDict) (a b : string) : Prop :=
  exists n t, n ∈ nodes /\ nd_node_id n = a
              /\ t ∈ nd_transitions n /\ tr_target_node_id t = b.

(** [reachable nodes a b]: [b] is reached from [a] by following transitions. *)
Definition reachable (nodes : list NodeDict) : relation string := rtc (edge nodes).

(** The targets of the transitions of the nodes of id [a]. *)
Definition successors (nodes : list NodeDict) (a : string) : list string :=
  concat (map (fun n => if String.eqb (nd_node_id n) a
                        then map tr_target_node_id (nd_transitions n) else [])
              nodes).

(** [ids] is closed under the transitions of [nodes]. *)
Definition closed (nodes : list NodeDict) (ids : list string) : bool :=
  forallb (fun a => forallb (fun b => bool_decide (b ∈ ids)) (successors nodes a)) ids.

(** The nodes created for the tasks of a brief that the invariant of the
    flow speaks about. *)
Definition is_task_node (n : NodeDict) : bool :=
  String.eqb (nd_type n) "collect_info" || String.eqb (nd_type n) "api_call".

Definition node_ids (nodes : list NodeDict) : list string := map nd_node_id nodes.

(** The transitions of the nodes of id [a], as (condition, target) pairs. *)
Definition transitions_of (nodes : list NodeDict) (a : string)
  : list (list (string * string)) :=
  map (fun n => map (fun t => (tr_condition t, tr_target_node_id t)) (nd_transitions n))
      (List.filter (fun n => String.eqb (nd_node_id n) a) nodes).

(** The ids of the three nodes the entry node leads to. *)
Definition fixed_id (nid : string) : Prop :=
  nid = "node_greet" \/ nid = "node_confirm" \/ nid = "node_end".

(** The transition the greeting node gets when the first task group is
    empty, and the confirm node once wired. *)
Definition greeting_transition : TransitionDict :=
  mkTransition "user_responds" "node_confirm".

Definition wired_confirm_node : NodeDict :=
  AgentCreator.add_transition (mkTransition "has_more_questions" "node_greet")
    (AgentCreator.add_transition (mkTransition "nothing_else" "node_end")
       AgentCreator.confirm_node).

(** What the wiring never touches: a node's id, type and function reference. *)
Definition node_static (n : NodeDict) : string * string * option string :=
  (nd_node_id n, nd_type n, nd_function_call n).

(** All of a node but its transitions. *)
Definition node_frame (n : NodeDict)
  : string * string * string * option string * option string * option string :=
  (nd_node_id n, nd_type n, nd_label n, nd_prompt_text n, nd_collect_slot n,
   nd_function_call n).

(** The node at position [i] of [store] has a transition. *)
Definition wired_at (store : list NodeDict) (i : nat) : Prop :=
  exists n, store !! i = Some n /\ nd_transitions n <> [].

(** Every transition of [store] leads to an id that [known] accepts. *)
Definition targets_known (known : string -> bool) (store : list NodeDict) : Prop :=
  Forall (fun n => Forall (fun t => known (tr_target_node_id t) = true) (nd_transitions n))
         store.

End Flow.

(* ================================================================== *)
(** ** Outputs without their generated identifiers                     *)
(* ================================================================== *)

Module Erase.
Import Models.

Definition intent (i : IntentDefinition) : IntentDefinition :=
  mkIntentDefinition "" (intent_name i) (intent_description i)
                     (training_phrases i) (priority i).

Definition function (f : FunctionDefinition) : FunctionDefinition :=
  mkFunctionDefinition "" (function_name f) (function_description f) (parameters f)
                       (returns_description f) (api_endpoint f) (mock_response f).

Definition flow (f : ConversationFlow) : ConversationFlow :=
  mkConversationFlow "" (flow_name f) (flow_description f) (entry_node_id f) (nodes f).

(** A configuration with [agent_id], [created_at] and every [intent_id],
    [function_id] and [flow_id] blanked. *)
Definition config (c : CXAgentConfig) : CXAgentConfig :=
  mkCXAgentConfig "" (version c) (status c) "" (persona c) (voice c)
    (map intent (intents c)) (map function (functions c))
    (flow <$> conversation_flow c) (deployment c) (metadata c).

Definition response (r : AgentCreateResponse) : AgentCreateResponse :=
  mkAgentCreateResponse (success r) (message r) (config <$> agent_config r)
                        (openai_tools_schema r) (raw_analysis r).

End Erase.

(* ================================================================== *)
(** ** Runs compared across worlds                                     *)
(* ================================================================== *)

Module Blind.

(** Two outcomes agree up to [R]: both return, with results related by
    [R], or both raise the same exception. *)
Definition outcome_rel {A : Type} (R : A -> A -> Prop) (o1 o2 : Outcome A) : Prop :=
  match o1, o2 with
  | Returns a, Returns b => R a b
  | Raises e1, Raises e2 => e1 = e2
  | _, _ => False
  end.

(** [related R m1 m2]: whatever the two worlds, [m1] and [m2] agree up to [R]. *)
Definition related {A : Type} (R : A -> A -> Prop) (m1 m2 : Run A) : Prop :=
  forall w1 w2, outcome_rel R (fst (m1 w1)) (fst (m2 w2)).

End Blind.

(* ================================================================== *)
(** * Verification                                                     *)
(* ================================================================== *)

(** ** Substring facts *)

Lemma isin_unfold (kw text : string) :
  Py.isin kw text =
  String.prefix kw text ||
  match text with
  | EmptyString => false
  | String _ t => Py.isin kw t
  end.
Proof. destruct text; reflexivity. Qed.

Lemma prefix_app (kw rest : string) : String.prefix kw (kw +:+ rest) = true.
Proof.
  induction kw as [|c kw IH]; simpl.
  - destruct rest; reflexivity.
  - destruct (ascii_dec c c); [exact IH | congruence].
Qed.

Lemma isin_of_prefix (kw text : string) :
  String.prefix kw text = true -> Py.isin kw text = true.
Proof. intros H. rewrite isin_unfold, H. reflexivity. Qed.

Lemma isin_cons (kw : string) (c : ascii) (text : string) :
  Py.isin kw text = true -> Py.isin kw (String c text) = true.
Proof. intros H. rewrite isin_unfold, H. apply orb_true_r. Qed.

(** A keyword occurs in every text built around it. *)
Lemma isin_app (kw before after : string) :
  Py.isin kw (before +:+ kw +:+ after) = true.
Proof.
  induction before as [|c before IH].
  - change (Py.isin kw (kw +:+ after) = true). apply isin_of_prefix, prefix_app.
  - change (Py.isin kw (String c (before +:+ kw +:+ after)) = true).
    apply isin_cons, IH.
Qed.

Lemma prefix_refl (kw : string) : String.prefix kw kw = true.
Proof.
  induction kw as [|c kw IH]; simpl; [reflexivity|].
  destruct (ascii_dec c c); [exact IH | congruence].
Qed.

(** A text ends with what was appended to it. *)
Lemma isin_app_end (kw before : string) : Py.isin kw (before +:+ kw) = true.
Proof.
  induction before as [|c before IH].
  - apply isin_of_prefix, prefix_refl.
  - change (Py.isin kw (String c (before +:+ kw)) = true). apply isin_cons, IH.
Qed.

Lemma prefix_app_isin (a b text : string) :
  String.prefix (a +:+ b) text = true -> Py.isin b text = true.
Proof.
  revert text. induction a as [|c a IH]; intros text H.
  - apply isin_of_prefix, H.
  - destruct text as [|d text]; simpl in H; [discriminate|].
    destruct (ascii_dec c d); [|discriminate].
    apply isin_cons, IH, H.
Qed.

(** Where a string occurs, so does each of its suffixes. *)
Lemma isin_suffix (a b text : string) :
  Py.isin (a +:+ b) text = true -> Py.isin b text = true.
Proof.
  induction text as [|d text IH]; rewrite isin_unfold; intros H.
  - apply orb_true_iff in H as [H|H]; [|discriminate].
    eapply prefix_app_isin, H.
  - apply orb_true_iff in H as [H|H].
    + eapply prefix_app_isin, H.
    + apply isin_cons, IH, H.
Qed.

(** ** Voice gender (C6) *)

(** What [_detect_voice_gender] computes: "male" exactly when one of the
    two male phrases occurs, "female" otherwise. *)
Lemma detect_voice_gender_spec (text : string) :
  Orchestrator._detect_voice_gender text =
  if Py.isin "male voice" text || Py.isin "male agent" text then "male" else "female".
Proof.
  unfold Orchestrator._detect_voice_gender.
  destruct (Py.isin "male voice" text || Py.isin "male agent" text); [reflexivity|].
  destruct (Py.isin "female voice" text || Py.isin "female agent" text); reflexivity.
Qed.

(** Every text with the phrase "female voice" or "female agent" contains
    the male phrase too, and is answered "male". *)
Lemma female_phrase_detected_as_male (text : string) :
  Py.isin "female voice" text || Py.isin "female agent" text = true ->
  Orchestrator._detect_voice_gender text = "male".
Proof.
  intros H. rewrite detect_voice_gender_spec.
  apply orb_true_iff in H as [H|H].
  - rewrite (isin_suffix "fe" "male voice" text H). reflexivity.
  - rewrite (isin_suffix "fe" "male agent" text H), orb_true_r. reflexivity.
Qed.

Lemma female_phrase_witness :
  Orchestrator._detect_voice_gender "the bot should speak with a female voice" = "male".
Proof. apply female_phrase_detected_as_male. reflexivity. Defined.

(** C6 (code defect): a lower-cased text asking for a female voice contains
    the phrase "female voice", and [_detect_voice_gender] returns "male"
    for it; the same happens with "female agent". *)
Theorem C6_female_voice_returns_male :
  Py.isin "female voice" "i want a female voice for my support bot" = true
  /\ Orchestrator._detect_voice_gender "i want a female voice for my support bot" = "male"
  /\ Py.isin "female agent" "please create a female agent" = true
  /\ Orchestrator._detect_voice_gender "please create a female agent" = "male".
Proof. repeat split; vm_compute; reflexivity. Qed.

(** ** OpenAI tool schemas (C9) *)

(** The [required] accumulator of the parameter loop grows by the names
    of the parameters flagged required, in parameter order. *)
Lemma tool_param_loop_required (ps : list ParamDict)
    (properties : gmap string PropSchema) (req : list string) :
  snd (foldl FunctionCreator.tool_param_step (properties, req) ps)
  = req ++ map pd_name (List.filter (fun p => default true (pd_required p)) ps).
Proof.
  revert properties req. induction ps as [|p ps IH]; intros properties req.
  - simpl. rewrite app_nil_r. reflexivity.
  - cbn [foldl List.filter]. unfold FunctionCreator.tool_param_step at 2.
    destruct (default true (pd_required p)); rewrite IH.
    + cbn [map]. rewrite <- app_assoc. reflexivity.
    + reflexivity.
Qed.

Lemma tool_of_function_required (fn : FnDict) :
  psc_required (fs_parameters (tool_function (FunctionCreator.tool_of_function fn)))
  = map pd_name (List.filter (fun p => default true (pd_required p))
                             (default [] (fd_parameters fn))).
Proof.
  unfold FunctionCreator.tool_of_function.
  pose proof (tool_param_loop_required (default [] (fd_parameters fn)) ∅ []) as H.
  destruct (foldl FunctionCreator.tool_param_step (∅, []) (default [] (fd_parameters fn)))
    as [properties req].
  exact H.
Qed.

(** C9: for every list of function definition dicts, [to_openai_tools]
    yields one tool per function, in order, named after it, whose
    [required] array lists exactly the names of the parameters whose
    "required" flag is true, in parameter order; a parameter without the
    flag counts as required. *)
Theorem C9_required_is_flagged_subset (functions : list FnDict) :
  map (fun tool => (fs_name (tool_function tool),
                    psc_required (fs_parameters (tool_function tool))))
      (FunctionCreator.to_openai_tools functions)
  = map (fun fn => (fd_name fn,
                    map pd_name
                        (List.filter (fun p => default true (pd_required p))
                                     (default [] (fd_parameters fn)))))
        functions.
Proof.
  unfold FunctionCreator.to_openai_tools.
  rewrite map_map. apply map_ext. intros fn.
  rewrite tool_of_function_required.
  unfold FunctionCreator.tool_of_function.
  destruct (foldl FunctionCreator.tool_param_step (∅, []) (default [] (fd_parameters fn))).
  reflexivity.
Qed.

(** The method of the model, [FunctionDefinition.to_openai_tool_schema],
    builds its [required] array the same way from the validated flags. *)
Lemma schema_param_loop_required (ps : list Models.FunctionParameter)
    (properties : gmap string PropSchema) (req : list string) :
  snd (foldl Models.schema_param_step (properties, req) ps)
  = req ++ map Models.param_name (List.filter Models.required ps).
Proof.
  revert properties req. induction ps as [|p ps IH]; intros properties req.
  - simpl. rewrite app_nil_r. reflexivity.
  - cbn [foldl List.filter]. unfold Models.schema_param_step at 2.
    destruct (Models.required p); rewrite IH.
    + cbn [map]. rewrite <- app_assoc. reflexivity.
    + reflexivity.
Qed.

(** [FunctionDefinition.to_openai_tool_schema]: the [required] array holds,
    in parameter order, the names of the parameters whose [required] flag
    is set, and no other name. *)
Theorem model_schema_required_is_flagged_subset (f : Models.FunctionDefinition) :
  psc_required (fs_parameters (tool_function (Models.to_openai_tool_schema f)))
  = map Models.param_name (List.filter Models.required (Models.parameters f)).
Proof.
  unfold Models.to_openai_tool_schema.
  pose proof (schema_param_loop_required (Models.parameters f) ∅ []) as H.
  destruct (foldl Models.schema_param_step (∅, []) (Models.parameters f))
    as [properties req].
  exact H.
Qed.

(** ** The exception handler of [process_request] (C10) *)

Section Handler.
Import Models MetaOrchestrator.

Variable analyze_request : string -> string -> string -> Run AnalysisBrief.
Variable create_agent_config : AnalysisBrief -> Run AgentConfigDict.
Variable create_functions : list FunctionRequirement -> Run (list FnDict).
Variable merge_config :
  AnalysisBrief -> AgentConfigDict -> list FnDict -> string -> Run CXAgentConfig.
Variable to_openai_tools : list FnDict -> Run (list ToolSchema).

Local Abbreviation the_pipeline :=
  (pipeline analyze_request create_agent_config create_functions merge_config
            to_openai_tools).
Local Abbreviation the_escapes :=
  (escapes analyze_request create_agent_config create_functions merge_config
           to_openai_tools).

(** When a stage raises, the [try] block raises the same exception. *)
Lemma escapes_pipeline_raises request w e :
  the_escapes request w e -> exists w', the_pipeline request w = (Raises e, w').
Proof.
  unfold pipeline, mbind, Run_bind.
  intros [w' H0 | a w1 w' H0 H1 | a w1 c w2 w' H0 H1 H2
         | a w1 c w2 f w3 w' H0 H1 H2 H3 | a w1 c w2 f w3 g w4 w' H0 H1 H2 H3 H4];
    exists w'; rewrite H0; try rewrite H1; try rewrite H2; try rewrite H3;
    try rewrite H4; reflexivity.
Qed.

(** Conversely the [try] block only raises what a stage raised. *)
Lemma pipeline_raises_escapes request w e w' :
  the_pipeline request w = (Raises e, w') -> the_escapes request w e.
Proof.
  unfold pipeline, mbind, Run_bind. intros H.
  destruct (analyze_request _ _ _ w) as [[a|e0] w1] eqn:H0.
  2:{ inversion H; subst. eapply escapes_analysis, H0. }
  destruct (create_agent_config a w1) as [[c|e1] w2] eqn:H1.
  2:{ inversion H; subst. eapply escapes_agent_creator; eassumption. }
  destruct (create_functions (functions_needed a) w2) as [[f|e2] w3] eqn:H2.
  2:{ inversion H; subst. eapply escapes_function_creator; eassumption. }
  destruct (merge_config a c f (request_platform request) w3) as [[g|e3] w4] eqn:H3.
  2:{ inversion H; subst. eapply escapes_merge; eassumption. }
  destruct (to_openai_tools f w4) as [[t|e4] w5] eqn:H4.
  2:{ inversion H; subst. eapply escapes_tools; eassumption. }
  discriminate H.
Qed.

(** C10: whichever stage raises an exception [e], [process_request]
    returns a response (nothing propagates) with [success = False], the
    message "Failed to create agent: " followed by [str(e)], and neither an
    agent configuration nor tool schemas nor the analysis. *)
Theorem C10_exception_becomes_failure_response request w e :
  the_escapes request w e ->
  let response :=
    fst (process_request_with analyze_request create_agent_config create_functions
                              merge_config to_openai_tools request w) in
  success response = false
  /\ message response = "Failed to create agent: " +:+ exc_str e
  /\ Py.isin (exc_str e) (message response) = true
  /\ agent_config response = None
  /\ openai_tools_schema response = None
  /\ raw_analysis response = None.
Proof.
  intros H. apply escapes_pipeline_raises in H as [w' H].
  unfold process_request_with. rewrite H. cbn.
  repeat split.
  apply isin_app_end.
Qed.

(** A response that reports failure always comes from a stage that raised. *)
Lemma failure_response_only_from_exception request w :
  success (fst (process_request_with analyze_request create_agent_config
                  create_functions merge_config to_openai_tools request w)) = false ->
  exists e, the_escapes request w e.
Proof.
  unfold process_request_with.
  destruct (the_pipeline request w) as [[r|e] w'] eqn:H; cbn.
  - unfold pipeline, mbind, Run_bind in H.
    destruct (analyze_request _ _ _ w) as [[a|e0] w1]; [|discriminate].
    destruct (create_agent_config a w1) as [[c|e1] w2]; [|discriminate].
    destruct (create_functions (functions_needed a) w2) as [[f|e2] w3]; [|discriminate].
    destruct (merge_config a c f (request_platform request) w3) as [[g|e3] w4];
      [|discriminate].
    destruct (to_openai_tools f w4) as [[t|e4] w5]; [|discriminate].
    inversion H; subst. cbn. discriminate.
  - intros _. exists e. eapply pipeline_raises_escapes, H.
Qed.

End Handler.

Lemma C10_witness :
  let response :=
    fst (MetaOrchestrator.process_request_with
           Orchestrator._analyze_request AgentCreator.create_agent_config
           failing_function_creator MetaOrchestrator._merge_config
           (fun functions => mret (FunctionCreator.to_openai_tools functions))
           example_request example_world) in
  Models.success response = false
  /\ Models.message response = "Failed to create agent: " +:+ "'name'"
  /\ Py.isin "'name'" (Models.message response) = true
  /\ Models.agent_config response = None
  /\ Models.openai_tools_schema response = None
  /\ Models.raw_analysis response = None.
Proof.
  apply (C10_exception_becomes_failure_response
           Orchestrator._analyze_request AgentCreator.create_agent_config
           failing_function_creator MetaOrchestrator._merge_config
           (fun functions => mret (FunctionCreator.to_openai_tools functions))
           example_request example_world (mkExc "KeyError" "'name'")).
  apply (MetaOrchestrator.escapes_function_creator _ _ _ _ _ _ _ _
           example_brief example_world
           (AgentCreator._create_with_rules example_brief) example_world example_world);
    reflexivity.
Defined.

(** The same run read backwards: its response reports failure, so one of
    the five stages raised. *)
Lemma failure_response_witness :
  exists e,
    MetaOrchestrator.escapes
      Orchestrator._analyze_request AgentCreator.create_agent_config
      failing_function_creator MetaOrchestrator._merge_config
      (fun functions => mret (FunctionCreator.to_openai_tools functions))
      example_request example_world e.
Proof.
  apply (failure_response_only_from_exception
           Orchestrator._analyze_request AgentCreator.create_agent_config
           failing_function_creator MetaOrchestrator._merge_config
           (fun functions => mret (FunctionCreator.to_openai_tools functions))
           example_request example_world).
  reflexivity.
Defined.

(** ** The example scenario (C5) *)

(** C5 (as the code has it): for the example request, in every world, the
    pipeline succeeds with domain healthcare and extracted slots
    [customer_name, preferred_date]; the tasks are Greeting, Collect
    Customer Name, Appointment Booking (slots customer_name,
    preferred_date, preferred_time; the merge adds nothing) and Confirm
    Availability; the catalogue holds two functions, get_appointment_slots
    and check_availability, both with method GET; the flow has the nodes
    node_greet, node_collect_customer_name, node_collect_preferred_date and
    node_api_appointment_booking, and node_confirm leads to node_end. *)
Theorem C5_example_scenario (w : World) :
  let response := fst (MetaOrchestrator.process_request example_request w) in
  Models.success response = true
  /\ domain <$> Models.raw_analysis response = Some "healthcare"
  /\ user_requested_slots <$> Models.raw_analysis response
     = Some ["customer_name"; "preferred_date"]
  /\ (fun a => map (fun t => (task_name t, data_to_collect t, requires_api t)) (tasks a))
       <$> Models.raw_analysis response
     = Some [ ("Greeting", [], false);
              ("Collect Customer Name", ["customer_name"], false);
              ("Appointment Booking",
               ["customer_name"; "preferred_date"; "preferred_time"], true);
              ("Confirm Availability", [], true) ]
  /\ (fun c => map (fun f => (Models.function_name f,
                               Models.method <$> Models.api_endpoint f))
                    (Models.functions c))
       <$> Models.agent_config response
     = Some [ ("get_appointment_slots", Some Models.GET);
              ("check_availability", Some Models.GET) ]
  /\ (fun c => (fun fl => map Models.node_id (Models.nodes fl))
                 <$> Models.conversation_flow c)
       <$> Models.agent_config response
     = Some (Some [ "node_greet"; "node_collect_customer_name";
                    "node_collect_customer_name"; "node_collect_preferred_date";
                    "node_collect_preferred_time"; "node_api_appointment_booking";
                    "node_decision_appointment_booking";
                    "node_success_appointment_booking";
                    "node_failure_appointment_booking";
                    "node_api_confirm_availability";
                    "node_decision_confirm_availability";
                    "node_success_confirm_availability";
                    "node_failure_confirm_availability";
                    "node_confirm"; "node_fallback"; "node_transfer"; "node_end" ])
  /\ Flow.transitions_of (fl_nodes (AgentCreator._build_flow example_brief)) "node_confirm"
     = [[("nothing_else", "node_end"); ("has_more_questions", "node_greet")]].
Proof. cbv zeta. repeat split; vm_compute; reflexivity. Qed.

(** C5, the part that fails: the catalogue of the example holds two
    function definitions, not one. *)
Lemma C5_example_has_two_functions :
  (fun c => map Models.function_name (Models.functions c))
    <$> Models.agent_config (fst (MetaOrchestrator.process_request example_request example_world))
  = Some ["get_appointment_slots"; "check_availability"]
  /\ (fun c => length (Models.functions c))
       <$> Models.agent_config (fst (MetaOrchestrator.process_request example_request example_world))
     <> Some 1%nat.
Proof. split; vm_compute; [reflexivity | discriminate]. Qed.

(** ** Reachability in the synthesized flow (C1, C2, C3) *)

Lemma elem_of_successors (nodes : list NodeDict) (a b : string) :
  Flow.edge nodes a b -> b ∈ Flow.successors nodes a.
Proof.
  intros (n & t & Hn & Ha & Ht & Hb). unfold Flow.successors.
  apply list_elem_of_In, in_concat.
  exists (map tr_target_node_id (nd_transitions n)). split.
  - apply in_map_iff. exists n. split; [|apply list_elem_of_In, Hn].
    subst a. rewrite String.eqb_refl. reflexivity.
  - subst b. apply in_map, list_elem_of_In, Ht.
Qed.

(** A set of ids that is closed under the transitions bounds what is
    reachable from any of its members. *)
Lemma closed_bounds_reachable (nodes : list NodeDict) (ids : list string) (a b : string) :
  Flow.closed nodes ids = true -> a ∈ ids -> Flow.reachable nodes a b -> b ∈ ids.
Proof.
  intros Hclosed Ha Hreach. induction Hreach as [a | a c b Hac _ IH]; [exact Ha|].
  apply IH. unfold Flow.closed in Hclosed. rewrite forallb_forall in Hclosed.
  specialize (Hclosed a (proj1 (list_elem_of_In _ _) Ha)).
  rewrite forallb_forall in Hclosed.
  specialize (Hclosed c (proj1 (list_elem_of_In _ _) (elem_of_successors _ _ _ Hac))).
  apply bool_decide_eq_true in Hclosed. exact Hclosed.
Qed.

(** In the flow of the example brief only the greeting, confirm and end
    nodes can be reached from the entry node. *)
Lemma example_reachable_ids (b : string) :
  Flow.reachable (fl_nodes (AgentCreator._build_flow example_brief)) "node_greet" b ->
  b ∈ ["node_greet"; "node_confirm"; "node_end"].
Proof.
  apply closed_bounds_reachable.
  - vm_compute. reflexivity.
  - apply list_elem_of_here.
Qed.

(** C1 (code defect): the flow synthesized for the example brief has six
    collect_info and api_call nodes created for its tasks, and none of them
    is reachable from the entry node node_greet. *)
Theorem C1_example_task_nodes_unreachable :
  fl_entry_node_id (AgentCreator._build_flow example_brief) = "node_greet"
  /\ Flow.node_ids (List.filter Flow.is_task_node
                                (fl_nodes (AgentCreator._build_flow example_brief)))
     = [ "node_collect_customer_name"; "node_collect_customer_name";
         "node_collect_preferred_date"; "node_collect_preferred_time";
         "node_api_appointment_booking"; "node_api_confirm_availability" ]
  /\ Forall (fun nid => ~ Flow.reachable (fl_nodes (AgentCreator._build_flow example_brief))
                                         "node_greet" nid)
            (Flow.node_ids (List.filter Flow.is_task_node
                                        (fl_nodes (AgentCreator._build_flow example_brief)))).
Proof.
  split; [reflexivity|]. split; [vm_compute; reflexivity|].
  apply Forall_forall. intros nid Hin Hreach.
  apply example_reachable_ids in Hreach.
  assert (Hno : forallb (fun nid => negb (bool_decide
                          (nid ∈ ["node_greet"; "node_confirm"; "node_end"])))
                  (Flow.node_ids (List.filter Flow.is_task_node
                     (fl_nodes (AgentCreator._build_flow example_brief)))) = true)
    by (vm_compute; reflexivity).
  rewrite forallb_forall in Hno.
  specialize (Hno nid (proj1 (list_elem_of_In _ _) Hin)).
  apply negb_true_iff, bool_decide_eq_false in Hno. exact (Hno Hreach).
Qed.

(** C2 (code defect): the tasks of the example brief contribute collect
    and api nodes (the first of them is node_collect_customer_name), yet
    the only transition of the greeting node leads to node_confirm: the
    first task of every rule-based brief is Greeting, whose group is empty. *)
Theorem C2_example_greeting_skips_tasks :
  map (AgentCreator.task_group
         (AgentCreator.node_map_of (AgentCreator.unwired_nodes example_brief)))
      (tasks example_brief)
  = [ [];
      ["node_collect_customer_name"];
      ["node_collect_customer_name"; "node_collect_preferred_date";
       "node_collect_preferred_time"; "node_api_appointment_booking";
       "node_decision_appointment_booking"];
      ["node_api_confirm_availability"; "node_decision_confirm_availability"] ]
  /\ Flow.transitions_of (fl_nodes (AgentCreator._build_flow example_brief)) "node_greet"
     = [[("user_responds", "node_confirm")]].
Proof. split; vm_compute; reflexivity. Qed.

(** C3 (code defect): two tasks of the example brief collect customer_name,
    so two nodes share the id node_collect_customer_name; the wiring reaches
    only the last of them, and the first one, which is not an end node,
    is left without any transition. *)
Theorem C3_example_node_without_transition :
  map (fun n => (nd_node_id n, nd_type n, length (nd_transitions n)))
      (List.filter (fun n => negb (String.eqb (nd_type n) "end")
                             && match nd_transitions n with [] => true | _ => false end)
                   (fl_nodes (AgentCreator._build_flow example_brief)))
  = [("node_collect_customer_name", "collect_info", 0%nat)]
  /\ Flow.transitions_of (fl_nodes (AgentCreator._build_flow example_brief))
                         "node_collect_customer_name"
     = [ [];
         [("slot_filled", "node_confirm");
          ("slot_filled", "node_collect_preferred_date")] ].
Proof. split; vm_compute; reflexivity. Qed.

(** ** Determinism up to the generated identifiers (C7) *)

Section WorldBlind.
Import Blind.

Lemma related_ret {A : Type} (R : A -> A -> Prop) (a b : A) :
  R a b -> related R (mret a) (mret b).
Proof. intros H w1 w2. exact H. Qed.

Lemma related_bind {A B : Type} (R : A -> A -> Prop) (S : B -> B -> Prop)
    (m1 m2 : Run A) (f g : A -> Run B) :
  related R m1 m2 ->
  (forall a b, R a b -> related S (f a) (g b)) ->
  related S (m1 ≫= f) (m2 ≫= g).
Proof.
  intros Hm Hf w1 w2. specialize (Hm w1 w2). unfold mbind, Run_bind.
  destruct (m1 w1) as [[a|e1] w1'], (m2 w2) as [[b|e2] w2']; cbn in Hm |- *;
    try contradiction.
  - apply Hf, Hm.
  - exact Hm.
Qed.

Lemma related_pure_run {A : Type} (o : Outcome A) : related eq (pure_run o) (pure_run o).
Proof. intros w1 w2. destruct o; reflexivity. Qed.

Lemma related_uuid4 : related (fun _ _ => True) uuid4 uuid4.
Proof. intros w1 w2. exact I. Qed.

Lemma related_utcnow : related (fun _ _ => True) utcnow utcnow.
Proof. intros w1 w2. exact I. Qed.

Lemma related_mapM {A B : Type} (R : B -> B -> Prop) (f : A -> Run B) (l : list A) :
  (forall x, related R (f x) (f x)) ->
  related (Forall2 R) (mapM f l) (mapM f l).
Proof.
  intros Hf. induction l as [|x l IH]; cbn [mapM].
  - apply related_ret. constructor.
  - eapply related_bind; [apply Hf|]. intros y1 y2 Hy.
    eapply related_bind; [apply IH|]. intros k1 k2 Hk.
    apply related_ret. constructor; assumption.
Qed.

Lemma Forall2_erase {A : Type} (erase : A -> A) (l1 l2 : list A) :
  Forall2 (fun a b => erase a = erase b) l1 l2 -> map erase l1 = map erase l2.
Proof. induction 1 as [|a b l1 l2 Hab _ IH]; cbn; [reflexivity | rewrite Hab, IH; reflexivity]. Qed.

Lemma related_intent_of_raw (intent_raw : IntentDict) :
  related (fun a b => Erase.intent a = Erase.intent b)
          (MetaOrchestrator.intent_of_raw intent_raw)
          (MetaOrchestrator.intent_of_raw intent_raw).
Proof.
  unfold MetaOrchestrator.intent_of_raw, Models.IntentDefinition_new.
  eapply related_bind; [apply related_pure_run|]. intros phrases ? <-.
  eapply related_bind; [apply related_uuid4|]. intros hex1 hex2 _.
  eapply related_bind; [apply related_pure_run|]. intros prio ? <-.
  apply related_ret. reflexivity.
Qed.

Lemma related_function_of_raw (fn_raw : FnDict) :
  related (fun a b => Erase.function a = Erase.function b)
          (MetaOrchestrator.function_of_raw fn_raw)
          (MetaOrchestrator.function_of_raw fn_raw).
Proof.
  unfold MetaOrchestrator.function_of_raw, Models.FunctionDefinition_new.
  eapply related_bind; [apply related_pure_run|]. intros params ? <-.
  eapply related_bind; [apply related_pure_run|]. intros endpoint ? <-.
  eapply related_bind; [apply related_uuid4|]. intros hex1 hex2 _.
  apply related_ret. reflexivity.
Qed.

Lemma related_flow_of_raw (flow_raw : FlowDict) :
  related (fun a b => Erase.flow a = Erase.flow b)
          (MetaOrchestrator.flow_of_raw flow_raw)
          (MetaOrchestrator.flow_of_raw flow_raw).
Proof.
  unfold MetaOrchestrator.flow_of_raw, Models.ConversationFlow_new.
  eapply related_bind; [apply related_pure_run|]. intros flow_nodes ? <-.
  eapply related_bind; [apply related_uuid4|]. intros hex1 hex2 _.
  apply related_ret. reflexivity.
Qed.

(** [_merge_config] builds the same configuration in every world, up to
    the identifiers and the timestamp its models generate. *)
Lemma related_merge_config analysis agent_config functions platform :
  related (fun a b => Erase.config a = Erase.config b)
          (MetaOrchestrator._merge_config analysis agent_config functions platform)
          (MetaOrchestrator._merge_config analysis agent_config functions platform).
Proof.
  unfold MetaOrchestrator._merge_config, Models.CXAgentConfig_new.
  eapply related_bind; [apply related_pure_run|]. intros persona ? <-.
  eapply related_bind; [apply related_pure_run|]. intros voice ? <-.
  eapply related_bind; [apply related_mapM, related_intent_of_raw|].
  intros intents1 intents2 Hintents.
  eapply related_bind; [apply related_mapM, related_function_of_raw|].
  intros functions1 functions2 Hfunctions.
  eapply related_bind; [apply related_flow_of_raw|]. intros flow1 flow2 Hflow.
  eapply related_bind; [apply related_uuid4|]. intros hex1 hex2 _.
  eapply related_bind; [apply related_utcnow|]. intros now1 now2 _.
  apply related_ret. unfold Erase.config. cbn.
  rewrite (Forall2_erase _ _ _ Hintents), (Forall2_erase _ _ _ Hfunctions), Hflow.
  reflexivity.
Qed.

Lemma related_create_functions functions_needed :
  related eq (FunctionCreator.create_functions functions_needed)
             (FunctionCreator.create_functions functions_needed).
Proof. destruct functions_needed; apply related_ret; reflexivity. Qed.

Lemma erase_config_lengths (c1 c2 : Models.CXAgentConfig) :
  Erase.config c1 = Erase.config c2 ->
  Models.persona c1 = Models.persona c2
  /\ length (Models.functions c1) = length (Models.functions c2)
  /\ length (Models.intents c1) = length (Models.intents c2).
Proof.
  intros H. split; [exact (f_equal Models.persona H)|]. split.
  - pose proof (f_equal (fun c => length (Models.functions c)) H) as Hl. cbn in Hl.
    rewrite !length_map in Hl. exact Hl.
  - pose proof (f_equal (fun c => length (Models.intents c)) H) as Hl. cbn in Hl.
    rewrite !length_map in Hl. exact Hl.
Qed.

End WorldBlind.

(** C7 (as the code has it): two runs of the rule-based pipeline on the
    same request, in whatever worlds, return responses that are equal once
    the generated [agent_id], [created_at], [intent_id]s, [function_id]s and
    [flow_id] are blanked: the same success flag and message, the same
    analysis brief, the same tool schemas and the same configuration in
    every other field. *)
Theorem C7_equal_up_to_generated_ids (request : Models.AgentCreateRequest)
    (w1 w2 : World) :
  Erase.response (fst (MetaOrchestrator.process_request request w1))
  = Erase.response (fst (MetaOrchestrator.process_request request w2)).
Proof.
  unfold MetaOrchestrator.process_request, MetaOrchestrator.process_request_with.
  assert (H : Blind.related (fun r1 r2 => Erase.response r1 = Erase.response r2)
                (MetaOrchestrator.pipeline Orchestrator._analyze_request
                   AgentCreator.create_agent_config FunctionCreator.create_functions
                   MetaOrchestrator._merge_config
                   (fun functions => mret (FunctionCreator.to_openai_tools functions))
                   request)
                (MetaOrchestrator.pipeline Orchestrator._analyze_request
                   AgentCreator.create_agent_config FunctionCreator.create_functions
                   MetaOrchestrator._merge_config
                   (fun functions => mret (FunctionCreator.to_openai_tools functions))
                   request)).
  { unfold MetaOrchestrator.pipeline.
    eapply (related_bind eq); [apply related_ret; reflexivity|]. intros analysis ? <-.
    eapply (related_bind eq); [apply related_ret; reflexivity|]. intros raw ? <-.
    eapply related_bind; [apply related_create_functions|]. intros fns ? <-.
    eapply related_bind; [apply related_merge_config|]. intros c1 c2 Hc.
    eapply (related_bind eq); [apply related_ret; reflexivity|]. intros tools ? <-.
    apply related_ret.
    destruct (erase_config_lengths c1 c2 Hc) as (Hp & Hf & Hi).
    unfold Erase.response, MetaOrchestrator.success_response. cbn.
    rewrite Hp, Hf, Hi, Hc. reflexivity. }
  specialize (H w1 w2).
  destruct (MetaOrchestrator.pipeline _ _ _ _ _ request w1) as [[r1|e1] w1'],
           (MetaOrchestrator.pipeline _ _ _ _ _ request w2) as [[r2|e2] w2'];
    cbn in H |- *; try contradiction.
  - exact H.
  - subst e2. reflexivity.
Qed.

(** C7, the part that fails: run twice in a row on the example request,
    the pipeline returns two different responses; the second
    configuration has another [agent_id] and another [created_at]. *)
Lemma C7_two_runs_differ :
  fst (MetaOrchestrator.process_request example_request example_world)
  <> fst (MetaOrchestrator.process_request example_request
            (snd (MetaOrchestrator.process_request example_request example_world)))
  /\ (fun c => (Models.agent_id c, Models.created_at c))
       <$> Models.agent_config
             (fst (MetaOrchestrator.process_request example_request example_world))
     = Some ("agent_10c0ffee0123", "2026-02-24T10:30:00.000000Z")
  /\ (fun c => (Models.agent_id c, Models.created_at c))
       <$> Models.agent_config
             (fst (MetaOrchestrator.process_request example_request
                     (snd (MetaOrchestrator.process_request example_request
                             example_world))))
     = Some ("agent_21c0ffee0123", "2026-02-24T10:30:01.000000Z").
Proof.
  assert (H1 : (fun c => (Models.agent_id c, Models.created_at c))
       <$> Models.agent_config
             (fst (MetaOrchestrator.process_request example_request example_world))
     = Some ("agent_10c0ffee0123", "2026-02-24T10:30:00.000000Z"))
    by (vm_compute; reflexivity).
  assert (H2 : (fun c => (Models.agent_id c, Models.created_at c))
       <$> Models.agent_config
             (fst (MetaOrchestrator.process_request example_request
                     (snd (MetaOrchestrator.process_request example_request
                             example_world))))
     = Some ("agent_21c0ffee0123", "2026-02-24T10:30:01.000000Z"))
    by (vm_compute; reflexivity).
  split; [|split; assumption].
  intros Heq. rewrite <- Heq, H1 in H2. discriminate H2.
Qed.


(** ** Function references of the API nodes (C4) *)

(** *** Inversion of successful runs *)

Lemma outcome_bind_returns {A B : Type} (m : Outcome A) (f : A -> Outcome B) (b : B) :
  m ≫= f = Returns b -> exists a, m = Returns a /\ f a = Returns b.
Proof. destruct m as [a|e]; cbn; [eauto | discriminate]. Qed.

Lemma run_bind_returns {A B : Type} (m : Run A) (f : A -> Run B) (b : B) (w w' : World) :
  (m ≫= f) w = (Returns b, w') ->
  exists a w1, m w = (Returns a, w1) /\ f a w1 = (Returns b, w').
Proof.
  unfold mbind, Run_bind. destruct (m w) as [[a|e] w1]; [eauto | discriminate].
Qed.

Lemma pure_run_returns {A : Type} (o : Outcome A) (a : A) (w w' : World) :
  pure_run o w = (Returns a, w') -> o = Returns a /\ w' = w.
Proof. unfold pure_run. intros H. inversion H. auto. Qed.

Lemma outcome_mapM_returns {A B : Type} (f : A -> Outcome B) (l : list A) (ys : list B) :
  mapM f l = Returns ys -> Forall2 (fun x y => f x = Returns y) l ys.
Proof.
  revert ys. induction l as [|x l IH]; intros ys H; cbn [mapM] in H.
  - inversion H. constructor.
  - apply outcome_bind_returns in H as (y & Hy & H).
    apply outcome_bind_returns in H as (k & Hk & H).
    inversion H; subst. constructor; [exact Hy | apply IH, Hk].
Qed.

Lemma run_mapM_returns {A B : Type} (f : A -> Run B) (l : list A) (ys : list B)
    (w w' : World) :
  mapM f l w = (Returns ys, w') ->
  Forall2 (fun x y => exists w1 w2, f x w1 = (Returns y, w2)) l ys.
Proof.
  revert ys w. induction l as [|x l IH]; intros ys w H; cbn [mapM] in H.
  - inversion H. constructor.
  - apply run_bind_returns in H as (y & w1 & Hy & H).
    apply run_bind_returns in H as (k & w2 & Hk & H).
    inversion H; subst. constructor; [eauto | eapply IH, Hk].
Qed.

(** *** The models keep the names and references of the raw dicts *)

Lemma function_of_raw_name (fn_raw : FnDict) (f : Models.FunctionDefinition)
    (w w' : World) :
  MetaOrchestrator.function_of_raw fn_raw w = (Returns f, w') ->
  Models.function_name f = fd_name fn_raw.
Proof.
  unfold MetaOrchestrator.function_of_raw, Models.FunctionDefinition_new. intros H.
  apply run_bind_returns in H as (params & w1 & _ & H).
  apply run_bind_returns in H as (endpoint & w2 & _ & H).
  apply run_bind_returns in H as (hex & w3 & _ & H).
  inversion H. reflexivity.
Qed.

Lemma node_type_api_call (ty : string) :
  Py.get Models.NodeType_values ty = Some Models.API_CALL -> ty = "api_call".
Proof.
  unfold Models.NodeType_values. cbn [Py.get].
  repeat match goal with
         | |- context [String.eqb ?k ty] => destruct (String.eqb k ty) eqn:?
         end;
    intros H; try discriminate H.
  symmetry. apply String.eqb_eq. assumption.
Qed.

Lemma node_of_raw_fields (d : NodeDict) (n : Models.FlowNode) :
  MetaOrchestrator.node_of_raw d = Returns n ->
  Models.node_id n = nd_node_id d
  /\ Models.function_call n = nd_function_call d
  /\ (Models.type n = Models.API_CALL -> nd_type d = "api_call").
Proof.
  unfold MetaOrchestrator.node_of_raw, Models.FlowNode_new, Models.enum_field. intros H.
  apply outcome_bind_returns in H as (ty & Hty & H). inversion H; subst; cbn.
  repeat split. intros ->. apply node_type_api_call.
  destruct (Py.get Models.NodeType_values (nd_type d)); inversion Hty; reflexivity.
Qed.

(** *** Wiring only appends transitions *)

Section Frame.

Context {A : Type} (proj : NodeDict -> A).
Hypothesis proj_add_transition :
  forall t n, proj (AgentCreator.add_transition t n) = proj n.

Lemma alter_add_transition_frame (t : TransitionDict) (i : nat) (store : list NodeDict) :
  map proj (alter (AgentCreator.add_transition t) i store) = map proj store.
Proof.
  revert i. induction store as [|n store IH]; intros [|i]; cbn; try reflexivity.
  - rewrite proj_add_transition. reflexivity.
  - rewrite IH. reflexivity.
Qed.

Lemma append_transition_frame node_map nid t store :
  map proj (AgentCreator.append_transition node_map nid t store) = map proj store.
Proof.
  unfold AgentCreator.append_transition.
  destruct (node_map !! nid); [apply alter_add_transition_frame | reflexivity].
Qed.

Lemma wire_decision_frame node_map nid store :
  map proj (AgentCreator.wire_decision node_map nid store) = map proj store.
Proof.
  unfold AgentCreator.wire_decision.
  repeat match goal with
         | |- context [if ?b then _ else _] => destruct b
         end;
    rewrite ?append_transition_frame; reflexivity.
Qed.

Lemma wire_node_frame node_map nid next_nid store :
  map proj (AgentCreator.wire_node node_map nid next_nid store) = map proj store.
Proof.
  unfold AgentCreator.wire_node.
  destruct (AgentCreator.node_at node_map store nid) as [node|]; [|reflexivity].
  repeat match goal with
         | |- context [if ?b then _ else _] => destruct b
         end;
    rewrite ?append_transition_frame, ?wire_decision_frame; reflexivity.
Qed.

Lemma wire_group_frame node_map group store :
  map proj (AgentCreator.wire_group node_map group store) = map proj store.
Proof.
  revert store. induction group as [|nid rest IH]; intros store; cbn; [reflexivity|].
  rewrite IH. apply wire_node_frame.
Qed.

Lemma wire_groups_frame node_map groups store :
  map proj
      (foldl (fun store group => AgentCreator.wire_group node_map group store) store groups)
  = map proj store.
Proof.
  revert store. induction groups as [|group groups IH]; intros store; cbn; [reflexivity|].
  rewrite IH. apply wire_group_frame.
Qed.

(** [_wire_transitions] returns the nodes it was given, in the same
    order, each with the fields it had: only transitions are added. *)
Lemma wire_transitions_frame nodes tasks functions_needed :
  map proj (AgentCreator._wire_transitions nodes tasks functions_needed)
  = map proj nodes.
Proof.
  unfold AgentCreator._wire_transitions, AgentCreator.wire_closing,
    AgentCreator.wire_greeting.
  repeat match goal with
         | |- context [if ?b then _ else _] => destruct b
         end;
    rewrite ?append_transition_frame, wire_groups_frame;
    repeat match goal with
           | |- context [match ?l with [] => _ | _ :: _ => _ end] => destruct l
           end;
    apply append_transition_frame.
Qed.

End Frame.

(** In particular the ids, types and function references stay. *)
Lemma wire_transitions_static nodes tasks functions_needed :
  map Flow.node_static (AgentCreator._wire_transitions nodes tasks functions_needed)
  = map Flow.node_static nodes.
Proof. apply wire_transitions_frame. reflexivity. Qed.

(** *** The function an API node refers to *)

Lemma matching_fn_in_catalogue functions_needed task_name task :
  functions_needed <> [] ->
  exists fn_name,
    AgentCreator.matching_fn functions_needed task_name task = Some fn_name
    /\ In fn_name (map fr_name functions_needed).
Proof.
  intros Hne. unfold AgentCreator.matching_fn.
  destruct (List.find _ functions_needed) as [fn|] eqn:Hfind.
  - exists (fr_name fn). split; [reflexivity|].
    apply in_map. eapply find_some, Hfind.
  - destruct functions_needed as [|fn rest]; [contradiction|].
    exists (fr_name fn). split; [reflexivity | left; reflexivity].
Qed.

(** An api_call node of the unwired list was created for a task that
    requires an API, and carries the function chosen for that task. *)
Lemma unwired_api_node analysis (n : NodeDict) :
  In n (AgentCreator.unwired_nodes analysis) ->
  nd_type n = "api_call" ->
  exists task,
    In task (tasks analysis) /\ requires_api task = true
    /\ nd_function_call n
       = AgentCreator.matching_fn (functions_needed analysis)
           (Py.replace " " "_" (Py.lower (task_name task))) task.
Proof.
  unfold AgentCreator.unwired_nodes. intros [<-|Hin] Hty; [discriminate Hty|].
  apply in_app_or in Hin as [Hin|Hin].
  - apply in_concat in Hin as (group & Hgroup & Hin).
    apply in_map_iff in Hgroup as (task & <- & Htask).
    unfold AgentCreator.task_nodes in Hin. apply in_app_or in Hin as [Hin|Hin].
    + apply in_map_iff in Hin as (slot & <- & _). discriminate Hty.
    + destruct (requires_api task) eqn:Hapi; [|contradiction].
      exists task. split; [exact Htask|]. split; [exact Hapi|].
      unfold AgentCreator.api_nodes in Hin.
      destruct Hin as [<-|[<-|[<-|[<-|[]]]]];
        first [reflexivity | discriminate Hty].
  - unfold AgentCreator.closing_nodes in Hin.
    destruct Hin as [<-|[<-|[<-|[<-|[]]]]]; discriminate Hty.
Qed.

Lemma detect_functions_nonempty tasks text task :
  In task tasks -> requires_api task = true ->
  Orchestrator._detect_functions tasks text <> [].
Proof.
  intros Hin Hapi Hnil. unfold Orchestrator._detect_functions in Hnil.
  apply map_eq_nil in Hnil.
  assert (Hf : In task (List.filter requires_api tasks))
    by (apply filter_In; split; assumption).
  rewrite Hnil in Hf. contradiction.
Qed.

(** The brief's requirements are derived from its own tasks. *)
Lemma analysis_functions_needed user_prompt language platform :
  functions_needed (Orchestrator._analyze_with_rules user_prompt language platform)
  = Orchestrator._detect_functions
      (tasks (Orchestrator._analyze_with_rules user_prompt language platform))
      (Py.lower user_prompt).
Proof.
  cbv beta iota zeta delta [Orchestrator._analyze_with_rules functions_needed tasks].
  reflexivity.
Qed.

Lemma create_with_rules_names functions_needed :
  map fd_name (FunctionCreator._create_with_rules functions_needed)
  = map fr_name functions_needed.
Proof.
  unfold FunctionCreator._create_with_rules. rewrite map_map. reflexivity.
Qed.

Lemma create_functions_returns functions_needed w :
  FunctionCreator.create_functions functions_needed w
  = (Returns (FunctionCreator._create_with_rules functions_needed), w).
Proof. destruct functions_needed; reflexivity. Qed.

(** *** What a successful merge returns *)

Lemma merge_config_returns analysis agent_config functions platform w cfg w' :
  MetaOrchestrator._merge_config analysis agent_config functions platform w
    = (Returns cfg, w') ->
  map Models.function_name (Models.functions cfg) = map fd_name functions
  /\ exists flow,
       Models.conversation_flow cfg = Some flow
       /\ Forall2 (fun d n => MetaOrchestrator.node_of_raw d = Returns n)
                  (fl_nodes (ac_conversation_flow agent_config)) (Models.nodes flow).
Proof.
  unfold MetaOrchestrator._merge_config. intros H.
  apply run_bind_returns in H as (persona & w1 & _ & H).
  apply run_bind_returns in H as (voice & w2 & _ & H).
  apply run_bind_returns in H as (intents & w3 & _ & H).
  apply run_bind_returns in H as (func_defs & w4 & Hfuncs & H).
  apply run_bind_returns in H as (flow & w5 & Hflow & H).
  unfold Models.CXAgentConfig_new in H.
  apply run_bind_returns in H as (hex & w6 & _ & H).
  apply run_bind_returns in H as (now & w7 & _ & H).
  inversion H; subst; cbn [Models.functions Models.conversation_flow]. split.
  - apply run_mapM_returns in Hfuncs. clear -Hfuncs.
    induction Hfuncs as [|fn_raw f l l' (w1 & w2 & Hf) _ IH]; cbn; [reflexivity|].
    rewrite IH, (function_of_raw_name _ _ _ _ Hf). reflexivity.
  - exists flow. split; [reflexivity|].
    unfold MetaOrchestrator.flow_of_raw, Models.ConversationFlow_new in Hflow.
    apply run_bind_returns in Hflow as (flow_nodes & w8 & Hnodes & Hflow).
    apply run_bind_returns in Hflow as (hex' & w9 & _ & Hflow).
    inversion Hflow; subst; cbn [Models.nodes].
    apply pure_run_returns in Hnodes as [Hnodes _].
    apply outcome_mapM_returns, Hnodes.
Qed.

(** What a successful [process_request] ran: the merge of the rule-based
    analysis, agent draft and function catalogue. *)
Lemma process_request_returns request w cfg :
  Models.agent_config (fst (MetaOrchestrator.process_request request w)) = Some cfg ->
  exists w',
    MetaOrchestrator._merge_config
      (Orchestrator._analyze_with_rules (Models.user_prompt request)
         (Models.LanguageCode_value (Models.request_language request))
         (Models.request_platform request))
      (AgentCreator._create_with_rules
         (Orchestrator._analyze_with_rules (Models.user_prompt request)
            (Models.LanguageCode_value (Models.request_language request))
            (Models.request_platform request)))
      (FunctionCreator._create_with_rules
         (functions_needed
            (Orchestrator._analyze_with_rules (Models.user_prompt request)
               (Models.LanguageCode_value (Models.request_language request))
               (Models.request_platform request))))
      (Models.request_platform request) w
    = (Returns cfg, w').
Proof.
  unfold MetaOrchestrator.process_request, MetaOrchestrator.process_request_with,
    MetaOrchestrator.pipeline, Orchestrator._analyze_request,
    AgentCreator.create_agent_config.
  unfold mbind at 1 2 3, Run_bind at 1 2 3, mret at 1 2, Run_ret at 1 2.
  rewrite create_functions_returns.
  unfold mbind, Run_bind.
  destruct (MetaOrchestrator._merge_config _ _ _ _ w) as [[c|e] w1];
    cbn; intros H; inversion H; subst. eauto.
Qed.

Lemma Forall2_In_r {A B : Type} (R : A -> B -> Prop) (l : list A) (l' : list B) (y : B) :
  Forall2 R l l' -> In y l' -> exists x, In x l /\ R x y.
Proof.
  induction 1 as [|x y' l l' Hxy _ IH]; intros Hin; [contradiction|].
  destruct Hin as [<-|Hin].
  - exists x. split; [left; reflexivity | exact Hxy].
  - destruct (IH Hin) as (x' & Hx' & HR). exists x'. split; [right; exact Hx' | exact HR].
Qed.

Lemma create_with_rules_nodes analysis :
  fl_nodes (ac_conversation_flow (AgentCreator._create_with_rules analysis))
  = AgentCreator._wire_transitions (AgentCreator.unwired_nodes analysis)
      (tasks analysis) (functions_needed analysis).
Proof. reflexivity. Qed.

(** C4: in every output of the rule-based pipeline, every api_call node
    of the conversation flow has a function reference, and the reference
    is the name of a function definition of the same output. *)
Theorem C4_api_nodes_reference_catalogue
    (request : Models.AgentCreateRequest) (w : World)
    (cfg : Models.CXAgentConfig) (flow : Models.ConversationFlow) (n : Models.FlowNode) :
  Models.agent_config (fst (MetaOrchestrator.process_request request w)) = Some cfg ->
  Models.conversation_flow cfg = Some flow ->
  In n (Models.nodes flow) ->
  Models.type n = Models.API_CALL ->
  exists fn_name,
    Models.function_call n = Some fn_name
    /\ exists f, In f (Models.functions cfg) /\ Models.function_name f = fn_name.
Proof.
  intros Hcfg Hflow Hn Hty.
  apply process_request_returns in Hcfg as (w' & Hmerge).
  apply merge_config_returns in Hmerge as (Hnames & flow' & Hflow' & Hnodes).
  rewrite Hflow in Hflow'. injection Hflow' as <-.
  destruct (Forall2_In_r _ _ _ _ Hnodes Hn) as (d & Hd & Hraw).
  apply node_of_raw_fields in Hraw as (_ & Hcall & Htype). specialize (Htype Hty).
  remember (Orchestrator._analyze_with_rules (Models.user_prompt request)
              (Models.LanguageCode_value (Models.request_language request))
              (Models.request_platform request)) as analysis eqn:Hanalysis.
  rewrite create_with_rules_nodes in Hd.
  apply (in_map Flow.node_static) in Hd. rewrite wire_transitions_static in Hd.
  apply in_map_iff in Hd as (d0 & Hstatic & Hd0).
  injection Hstatic as Hid0 Hty0 Hcall0.
  rewrite <- Hty0 in Htype.
  destruct (unwired_api_node analysis d0 Hd0 Htype) as (task & Htask & Hapi & Hfn).
  destruct (matching_fn_in_catalogue (functions_needed analysis)
              (Py.replace " " "_" (Py.lower (task_name task))) task)
    as (fn_name & Hmatch & Hin).
  { subst analysis. rewrite analysis_functions_needed.
    eapply detect_functions_nonempty; eassumption. }
  exists fn_name. split; [congruence|].
  rewrite <- create_with_rules_names, <- Hnames in Hin.
  apply in_map_iff in Hin as (f & Hf & Hin). exists f. split; [exact Hin | exact Hf].
Qed.

Lemma C4_witness :
  exists cfg flow n,
    Models.agent_config (fst (MetaOrchestrator.process_request example_request example_world))
      = Some cfg
    /\ Models.conversation_flow cfg = Some flow
    /\ In n (Models.nodes flow)
    /\ Models.type n = Models.API_CALL
    /\ Models.node_id n = "node_api_confirm_availability"
    /\ exists fn_name,
         Models.function_call n = Some fn_name
         /\ exists f, In f (Models.functions cfg) /\ Models.function_name f = fn_name.
Proof.
  assert (Hpath :
    ((Models.agent_config (fst (MetaOrchestrator.process_request example_request example_world))
        ≫= Models.conversation_flow) ≫= (fun fl => Models.nodes fl !! 9%nat))
      ≫= (fun n => Some (Models.type n, Models.node_id n))
    = Some (Models.API_CALL, "node_api_confirm_availability"))
    by (vm_compute; reflexivity).
  destruct (Models.agent_config
              (fst (MetaOrchestrator.process_request example_request example_world)))
    as [cfg|] eqn:Hcfg; [|discriminate Hpath].
  cbn [mbind option_bind] in Hpath.
  destruct (Models.conversation_flow cfg) as [flow|] eqn:Hflow; [|discriminate Hpath].
  cbn [mbind option_bind] in Hpath.
  destruct (Models.nodes flow !! 9%nat) as [n|] eqn:Hn; [|discriminate Hpath].
  cbn [mbind option_bind] in Hpath. injection Hpath as Hty Hid.
  assert (Hin : In n (Models.nodes flow))
    by (apply list_elem_of_In; eapply list_elem_of_lookup_2, Hn).
  exists cfg, flow, n. repeat split; try assumption.
  exact (C4_api_nodes_reference_catalogue example_request example_world cfg flow n
           Hcfg Hflow Hin Hty).
Defined.

(** ** Slot extraction and merging *)

(** *** The extraction loop *)

Lemma extract_loop_keeps (text : string) (table : list (string * list string))
    (found : list string) (slot : string) :
  In slot found ->
  In slot (foldl (fun found_slots '(slot_name, kws) =>
                    if Py.any_in kws text
                    then (if bool_decide (slot_name ∈ found_slots)
                          then found_slots else found_slots ++ [slot_name])
                    else found_slots)
                 found table).
Proof.
  revert found. induction table as [|[name kws] table IH]; intros found Hin; [exact Hin|].
  cbn [foldl]. apply IH.
  destruct (Py.any_in kws text); [|exact Hin].
  destruct (bool_decide (name ∈ found)); [exact Hin|].
  apply in_or_app. left. exact Hin.
Qed.

Lemma extract_loop_finds (text : string) (table : list (string * list string))
    (found : list string) (slot : string) (kws : list string) :
  In (slot, kws) table -> Py.any_in kws text = true ->
  In slot (foldl (fun found_slots '(slot_name, kws) =>
                    if Py.any_in kws text
                    then (if bool_decide (slot_name ∈ found_slots)
                          then found_slots else found_slots ++ [slot_name])
                    else found_slots)
                 found table).
Proof.
  revert found. induction table as [|[name kws'] table IH]; intros found Hin Hany;
    [contradiction|].
  cbn [foldl]. destruct Hin as [Heq|Hin]; [|apply IH; assumption].
  injection Heq as -> ->. apply extract_loop_keeps. rewrite Hany.
  destruct (bool_decide (slot ∈ found)) eqn:Hdec.
  - apply bool_decide_eq_true in Hdec. apply list_elem_of_In, Hdec.
  - apply in_or_app. right. left. reflexivity.
Qed.

(** A slot whose keyword occurs in the text is extracted. *)
Lemma extract_user_slots_finds (text slot : string) (kws : list string) :
  In (slot, kws) Orchestrator.slot_keywords -> Py.any_in kws text = true ->
  In slot (Orchestrator._extract_user_slots text).
Proof. apply extract_loop_finds. Qed.

Lemma any_in_of_isin (kw : string) (kws : list string) (text : string) :
  In kw kws -> Py.isin kw text = true -> Py.any_in kws text = true.
Proof.
  intros Hin Hkw. unfold Py.any_in. apply existsb_exists. exists kw. split; assumption.
Qed.

(** *** Deduplication keeps every name and invents no task *)

Lemma dedup_loop_spec (tasks unique : list Task) (seen : gset string) :
  (forall name, name ∈ seen <-> In name (map task_name unique)) ->
  (forall t,
     In t (fst (foldl (fun '(unique_tasks, seen_names) t =>
                         if bool_decide (task_name t ∈ (seen_names : gset string))
                         then (unique_tasks, seen_names)
                         else (unique_tasks ++ [t], {[task_name t]} ∪ seen_names))
                      (unique, seen) tasks)) ->
     In t unique \/ In t tasks)
  /\ (forall name,
        In name (map task_name unique) \/ In name (map task_name tasks) ->
        In name (map task_name
                   (fst (foldl (fun '(unique_tasks, seen_names) t =>
                                  if bool_decide (task_name t ∈ (seen_names : gset string))
                                  then (unique_tasks, seen_names)
                                  else (unique_tasks ++ [t], {[task_name t]} ∪ seen_names))
                               (unique, seen) tasks)))).
Proof.
  revert unique seen. induction tasks as [|t tasks IH]; intros unique seen Hseen.
  - cbn [foldl fst]. split; [auto | intros name [H|H]; [exact H | destruct H]].
  - cbn [foldl]. destruct (bool_decide (task_name t ∈ seen)) eqn:Hdec.
    + destruct (IH unique seen Hseen) as [IH1 IH2]. split.
      * intros t' Ht'. destruct (IH1 t' Ht'); [left | right; right]; assumption.
      * intros name [H|[<-|H]]; apply IH2; auto.
        left. apply Hseen. apply bool_decide_eq_true in Hdec. exact Hdec.
    + destruct (IH (unique ++ [t]) ({[task_name t]} ∪ seen)) as [IH1 IH2].
      { intros name. rewrite elem_of_union, elem_of_singleton, Hseen, map_app, in_app_iff.
        change (In name (map task_name [t])) with (task_name t = name \/ False).
        split.
        - intros [->|H]; [right; left; reflexivity | left; exact H].
        - intros [H|[<-|[]]]; [right; exact H | left; reflexivity]. }
      split.
      * intros t' Ht'. destruct (IH1 t' Ht') as [H|H]; [|right; right; exact H].
        apply in_app_or in H as [H|[<-|[]]]; [left; exact H | right; left; reflexivity].
      * intros name H. apply IH2. rewrite map_app, in_app_iff. cbn.
        destruct H as [H|[H|H]]; auto.
Qed.

Lemma dedup_tasks_from_input (tasks : list Task) (t : Task) :
  In t (Orchestrator.dedup_tasks tasks) -> In t tasks.
Proof.
  intros H. destruct (dedup_loop_spec tasks [] ∅) as [H1 _].
  - intros name. cbn. rewrite elem_of_empty. tauto.
  - destruct (H1 t H) as [[]|Hin]. exact Hin.
Qed.

Lemma dedup_tasks_keeps_names (tasks : list Task) (name : string) :
  In name (map task_name tasks) -> In name (map task_name (Orchestrator.dedup_tasks tasks)).
Proof.
  intros H. destruct (dedup_loop_spec tasks [] ∅) as [_ H2].
  - intros n. cbn. rewrite elem_of_empty. tauto.
  - apply H2. right. exact H.
Qed.

(** *** What task detection returns *)

Lemma detected_patterns_inv (text : string) (t : Task) :
  In t (Orchestrator.detected_patterns text) ->
  In (task_name t) detectable_names /\ task_name t <> "Greeting".
Proof.
  unfold Orchestrator.detected_patterns. intros H.
  apply list_elem_of_In, list_elem_of_omap in H as ([key pattern] & Hin & Hsome).
  apply list_elem_of_In in Hin. unfold Orchestrator.task_patterns in Hin.
  repeat (destruct Hin as [Heq|Hin];
          [injection Heq as <- <-; cbn in Hsome;
           match type of Hsome with
           | (if ?b then _ else _) = _ => destruct b; [|discriminate Hsome]
           | _ => try discriminate Hsome
           end;
           try (injection Hsome as <-; cbn; split; [tauto | discriminate])|]).
  destruct Hin.
Qed.

Lemma detected_patterns_email (text : string) :
  Py.isin "email" text = true ->
  In "Collect Email" (map task_name (Orchestrator.detected_patterns text)).
Proof.
  intros H. apply in_map_iff.
  exists (mkTask None "Collect Email" "Collect the caller's email address"
                 ["email"] false "").
  split; [reflexivity|].
  apply list_elem_of_In, list_elem_of_omap.
  exists ("collect_email",
          mkTask (Some ["email"; "e-mail"; "mail address"])
                 "Collect Email" "Collect the caller's email address" ["email"] false "").
  split.
  - apply list_elem_of_In. unfold Orchestrator.task_patterns. cbn. tauto.
  - cbn. unfold Py.any_in. cbn [existsb]. rewrite H. reflexivity.
Qed.

Lemma domain_default_tasks_inv (domain : string) :
  Orchestrator._domain_default_tasks domain <> []
  /\ forall t, In t (Orchestrator._domain_default_tasks domain) ->
               In (task_name t) detectable_names /\ task_name t <> "Greeting".
Proof.
  unfold Orchestrator._domain_default_tasks. cbn [Py.get].
  repeat match goal with
         | |- context [String.eqb ?k domain] => destruct (String.eqb k domain)
         end;
    (split; [discriminate|]); cbn [default]; intros t [<-|[]]; cbn;
    (split; [tauto | discriminate]).
Qed.

(** The task list before deduplication. *)
Lemma detect_tasks_unfold (text domain : string) :
  Orchestrator._detect_tasks text domain
  = Orchestrator.dedup_tasks
      (let tasks := Orchestrator.greeting_task :: Orchestrator.detected_patterns text in
       if (length tasks <=? 1)%nat
       then tasks ++ Orchestrator._domain_default_tasks domain else tasks).
Proof.
  unfold Orchestrator._detect_tasks.
  rewrite orb_true_r. reflexivity.
Qed.

Lemma detect_tasks_inv (text domain : string) :
  (forall t, In t (Orchestrator._detect_tasks text domain) ->
             In (task_name t) detectable_names)
  /\ (exists t, In t (Orchestrator._detect_tasks text domain)
                /\ task_name t <> "Greeting")
  /\ (Py.isin "email" text = true ->
      In "Collect Email" (map task_name (Orchestrator._detect_tasks text domain))).
Proof.
  rewrite detect_tasks_unfold. cbv zeta.
  destruct (domain_default_tasks_inv domain) as [Hne Hdefault].
  set (greet := Orchestrator.greeting_task).
  split; [|split].
  - intros t Ht. apply dedup_tasks_from_input in Ht.
    assert (Hin : In t (greet :: Orchestrator.detected_patterns text)
                  \/ In t (Orchestrator._domain_default_tasks domain)).
    { destruct (length _ <=? 1)%nat; [apply in_app_or in Ht|]; tauto. }
    destruct Hin as [[<-|Hin]|Hin].
    + cbn. tauto.
    + apply (detected_patterns_inv text t Hin).
    + apply (Hdefault t Hin).
  - assert (Hex : exists t,
               In t (if (length (greet :: Orchestrator.detected_patterns text) <=? 1)%nat
                     then (greet :: Orchestrator.detected_patterns text)
                          ++ Orchestrator._domain_default_tasks domain
                     else greet :: Orchestrator.detected_patterns text)
               /\ task_name t <> "Greeting").
    { destruct (Orchestrator.detected_patterns text) as [|t rest] eqn:Hdet.
      - cbn [length Nat.leb app].
        destruct (Orchestrator._domain_default_tasks domain) as [|t rest] eqn:Hdef;
          [contradiction|].
        exists t. split; [right; left; reflexivity|].
        apply (Hdefault t). left. reflexivity.
      - cbn [length Nat.leb]. exists t. split; [right; left; reflexivity|].
        apply (detected_patterns_inv text t). rewrite Hdet. left. reflexivity. }
    destruct Hex as (t & Hin & Hname).
    apply (in_map task_name), dedup_tasks_keeps_names, in_map_iff in Hin
      as (t' & Hname' & Hin').
    exists t'. split; [exact Hin' | congruence].
  - intros Hemail. apply dedup_tasks_keeps_names.
    pose proof (detected_patterns_email text Hemail) as Hin.
    destruct (length _ <=? 1)%nat; [rewrite map_app; apply in_or_app; left|];
      right; exact Hin.
Qed.

(** *** The primary task and the merge *)

Lemma find_index_lookup {A : Type} (p : A -> bool) (l : list A) (i : nat) :
  Orchestrator.find_index p l = Some i -> exists x, l !! i = Some x /\ p x = true.
Proof.
  revert i. induction l as [|y l IH]; intros i H; cbn in H; [discriminate|].
  destruct (p y) eqn:Hp.
  - injection H as <-. exists y. split; [reflexivity | exact Hp].
  - destruct (Orchestrator.find_index p l) as [j|]; [|discriminate].
    injection H as <-. apply (IH j). reflexivity.
Qed.

Lemma find_index_exists {A : Type} (p : A -> bool) (l : list A) (x : A) :
  In x l -> p x = true -> exists i, Orchestrator.find_index p l = Some i.
Proof.
  induction l as [|y l IH]; intros Hin Hp; [contradiction|]. cbn.
  destruct (p y) eqn:Hy; [eauto|].
  destruct Hin as [->|Hin]; [congruence|].
  destruct (IH Hin Hp) as [i ->]. eauto.
Qed.

Lemma find_index_alter {A : Type} (p : A -> bool) (f : A -> A) (i : nat) (l : list A) :
  (forall x, p (f x) = p x) ->
  Orchestrator.find_index p (alter f i l) = Orchestrator.find_index p l.
Proof.
  intros Hf. revert i. induction l as [|y l IH]; intros [|i]; cbn; try reflexivity.
  - rewrite Hf. reflexivity.
  - rewrite IH. reflexivity.
Qed.

(** A task list with a task other than the greeting has a primary task. *)
Lemma primary_task_exists (tasks : list Task) (t : Task) :
  In t tasks -> task_name t <> "Greeting" ->
  exists i t0, Orchestrator.primary_task tasks = Some i /\ tasks !! i = Some t0.
Proof.
  intros Hin Hname. unfold Orchestrator.primary_task.
  destruct (Orchestrator.find_index requires_api tasks) as [i|] eqn:Hapi.
  - destruct (find_index_lookup _ _ _ Hapi) as (t0 & Ht0 & _). eauto.
  - destruct (find_index_exists
                (fun t => negb (String.eqb (task_name t) "Greeting")) tasks t Hin)
      as [i Hi].
    { apply negb_true_iff, String.eqb_neq, Hname. }
    destruct (find_index_lookup _ _ _ Hi) as (t0 & Ht0 & _). eauto.
Qed.

Lemma merge_loop_spec (user_slots slots : list string) (existing : gset string) :
  (forall x, x ∈ existing <-> In x slots) ->
  forall x,
    In x slots \/ In x user_slots ->
    In x (fst (foldl (fun '(slots, existing_slots) slot =>
                        if bool_decide (slot ∈ (existing_slots : gset string))
                        then (slots, existing_slots)
                        else (slots ++ [slot], {[slot]} ∪ existing_slots))
                     (slots, existing) user_slots)).
Proof.
  revert slots existing. induction user_slots as [|slot user_slots IH];
    intros slots existing Hinv x Hx.
  - destruct Hx as [Hx|[]]. exact Hx.
  - cbn [foldl]. destruct (bool_decide (slot ∈ existing)) eqn:Hdec.
    + apply (IH slots existing Hinv). destruct Hx as [Hx|[<-|Hx]]; auto.
      left. apply Hinv. apply bool_decide_eq_true in Hdec. exact Hdec.
    + apply (IH (slots ++ [slot]) ({[slot]} ∪ existing)).
      * intros y. rewrite elem_of_union, elem_of_singleton, Hinv, in_app_iff.
        change (In y [slot]) with (slot = y \/ False).
        split.
        -- intros [->|H]; [right; left; reflexivity | left; exact H].
        -- intros [H|[<-|[]]]; [right; exact H | left; reflexivity].
      * rewrite in_app_iff. change (In x [slot]) with (slot = x \/ False).
        destruct Hx as [Hx|[Hx|Hx]]; auto.
Qed.

(** After the merge the task collects its own slots and every found slot. *)
Lemma merge_slots_contains (task : Task) (user_slots : list string) (x : string) :
  In x (data_to_collect task) \/ In x user_slots ->
  In x (data_to_collect (Orchestrator.merge_slots task user_slots)).
Proof.
  intros Hx. unfold Orchestrator.merge_slots.
  pose proof (merge_loop_spec user_slots (data_to_collect task)
                (list_to_set (data_to_collect task))) as H.
  destruct (foldl _ _ user_slots) as [slots existing]. cbn in H |- *.
  apply H; [|exact Hx].
  intros y. rewrite elem_of_list_to_set. apply list_elem_of_In.
Qed.

Lemma merge_slots_name (task : Task) (user_slots : list string) :
  task_name (Orchestrator.merge_slots task user_slots) = task_name task.
Proof. unfold Orchestrator.merge_slots. destruct (foldl _ _ user_slots). reflexivity. Qed.

Lemma merge_slots_requires_api (task : Task) (user_slots : list string) :
  requires_api (Orchestrator.merge_slots task user_slots) = requires_api task.
Proof. unfold Orchestrator.merge_slots. destruct (foldl _ _ user_slots). reflexivity. Qed.

Lemma alter_merge_names (tasks : list Task) (user_slots : list string) (i : nat) :
  map task_name (alter (fun t => Orchestrator.merge_slots t user_slots) i tasks)
  = map task_name tasks.
Proof.
  revert i. induction tasks as [|t tasks IH]; intros [|i]; cbn; try reflexivity.
  - rewrite merge_slots_name. reflexivity.
  - rewrite IH. reflexivity.
Qed.

Lemma primary_task_alter_merge (tasks : list Task) (user_slots : list string) (i : nat) :
  Orchestrator.primary_task (alter (fun t => Orchestrator.merge_slots t user_slots) i tasks)
  = Orchestrator.primary_task tasks.
Proof.
  unfold Orchestrator.primary_task. rewrite !find_index_alter; [reflexivity| |].
  - intros t. rewrite merge_slots_name. reflexivity.
  - intros t. apply merge_slots_requires_api.
Qed.

Lemma analysis_tasks (user_prompt language platform : string) :
  tasks (Orchestrator._analyze_with_rules user_prompt language platform)
  = match Orchestrator._extract_user_slots (Py.lower user_prompt) with
    | [] => Orchestrator._detect_tasks (Py.lower user_prompt)
              (Orchestrator._detect_domain (Py.lower user_prompt))
    | _ :: _ =>
        Orchestrator._merge_user_slots_into_tasks
          (Orchestrator._detect_tasks (Py.lower user_prompt)
             (Orchestrator._detect_domain (Py.lower user_prompt)))
          (Orchestrator._extract_user_slots (Py.lower user_prompt))
    end.
Proof.
  cbv beta iota zeta delta [Orchestrator._analyze_with_rules tasks]. reflexivity.
Qed.

(** Task detection never returns the greeting alone: the domain defaults
    are added whenever no other pattern matched, so the task list always
    has a primary task. *)
Lemma detected_tasks_have_primary (text domain : string) :
  exists i t, Orchestrator.primary_task (Orchestrator._detect_tasks text domain) = Some i
              /\ Orchestrator._detect_tasks text domain !! i = Some t.
Proof.
  destruct (detect_tasks_inv text domain) as (_ & (t & Hin & Hname) & _).
  apply (primary_task_exists _ t Hin Hname).
Qed.

(** What the analysis of a prompt that mentions "email" and "phone
    number" holds: "email" is a keyword of the Collect Email pattern, so
    that task is detected, the found slots go to the primary task, and no
    Collect Customer Information task is synthesized. *)
Lemma email_prompt_analysis (user_prompt language platform : string) :
  Py.isin "email" (Py.lower user_prompt) = true ->
  Py.isin "phone number" (Py.lower user_prompt) = true ->
  In "Collect Email"
     (map task_name (tasks (Orchestrator._analyze_with_rules user_prompt language platform)))
  /\ ~ In "Collect Customer Information"
         (map task_name
              (tasks (Orchestrator._analyze_with_rules user_prompt language platform)))
  /\ (exists i t,
        Orchestrator.primary_task
          (tasks (Orchestrator._analyze_with_rules user_prompt language platform)) = Some i
        /\ tasks (Orchestrator._analyze_with_rules user_prompt language platform) !! i
           = Some t
        /\ In "email" (data_to_collect t) /\ In "phone_number" (data_to_collect t)).
Proof.
  intros Hemail Hphone. rewrite analysis_tasks.
  set (text := Py.lower user_prompt) in *.
  assert (Hslot_email : In "email" (Orchestrator._extract_user_slots text)).
  { apply (extract_user_slots_finds text "email"
             ["email"; "e-mail"; "email address"; "mail"]).
    - unfold Orchestrator.slot_keywords. cbn. tauto.
    - apply (any_in_of_isin "email"); [cbn; tauto | exact Hemail]. }
  assert (Hslot_phone : In "phone_number" (Orchestrator._extract_user_slots text)).
  { apply (extract_user_slots_finds text "phone_number"
             ["phone"; "phone number"; "mobile"; "contact number"; "cell"]).
    - unfold Orchestrator.slot_keywords. cbn. tauto.
    - apply (any_in_of_isin "phone number"); [cbn; tauto | exact Hphone]. }
  destruct (Orchestrator._extract_user_slots text) as [|slot slots] eqn:Hslots;
    [contradiction|].
  destruct (detect_tasks_inv text (Orchestrator._detect_domain text))
    as (Hnames & (t & Hin & Hname) & Hcollect).
  destruct (primary_task_exists _ t Hin Hname) as (i & t0 & Hprimary & Hi).
  unfold Orchestrator._merge_user_slots_into_tasks. rewrite Hprimary.
  split; [|split].
  - rewrite alter_merge_names. apply Hcollect, Hemail.
  - rewrite alter_merge_names. intros Hcci.
    apply in_map_iff in Hcci as (t' & Hname' & Hin').
    specialize (Hnames t' Hin'). rewrite Hname' in Hnames.
    unfold detectable_names in Hnames.
    repeat (destruct Hnames as [Hnames|Hnames]; [discriminate Hnames|]).
    destruct Hnames.
  - exists i, (Orchestrator.merge_slots t0 (slot :: slots)).
    rewrite primary_task_alter_merge, list_lookup_alter_eq, Hi.
    repeat split; try assumption; apply merge_slots_contains; right; assumption.
Qed.

(** ** The greeting is wired past every task *)

(** *** [node_map] points at nodes of the right id *)

Lemma node_map_from_sound (l pre : list NodeDict) (m : gmap string nat) :
  (forall k j, m !! k = Some j ->
               exists n, (pre ++ l) !! j = Some n /\ nd_node_id n = k) ->
  forall k j, AgentCreator.node_map_from (length pre) l m !! k = Some j ->
              exists n, (pre ++ l) !! j = Some n /\ nd_node_id n = k.
Proof.
  revert pre m. induction l as [|n l IH]; intros pre m Hm k j; cbn.
  - apply Hm.
  - replace (S (length pre)) with (length (pre ++ [n])) by (rewrite length_app; cbn; lia).
    replace (pre ++ n :: l) with ((pre ++ [n]) ++ l) by (rewrite <- app_assoc; reflexivity).
    apply IH. intros k' j'. rewrite <- app_assoc. cbn.
    destruct (decide (nd_node_id n = k')) as [<-|Hne].
    + rewrite lookup_insert_eq. intros [= <-]. exists n. split; [|reflexivity].
      rewrite lookup_app_r by lia. rewrite Nat.sub_diag. reflexivity.
    + rewrite lookup_insert_ne by exact Hne. apply Hm.
Qed.

(** An id that [node_map] knows is the id of the node it points at. *)
Lemma node_map_of_sound (nodes : list NodeDict) (k : string) (j : nat) :
  AgentCreator.node_map_of nodes !! k = Some j ->
  exists n, nodes !! j = Some n /\ nd_node_id n = k.
Proof.
  intros H. apply (node_map_from_sound nodes [] ∅); [|exact H].
  intros k' j'. rewrite lookup_empty. discriminate.
Qed.

Lemma node_map_from_other (l : list NodeDict) (i : nat) (m : gmap string nat) (k : string) :
  ~ In k (map nd_node_id l) ->
  AgentCreator.node_map_from i l m !! k = m !! k.
Proof.
  revert i m. induction l as [|n l IH]; intros i m Hk; cbn; [reflexivity|].
  rewrite IH by (intros H; apply Hk; right; exact H).
  apply lookup_insert_ne. intros Heq. apply Hk. left. exact Heq.
Qed.

Lemma node_map_from_app (l1 l2 : list NodeDict) (i : nat) (m : gmap string nat) :
  AgentCreator.node_map_from i (l1 ++ l2) m
  = AgentCreator.node_map_from (i + length l1) l2 (AgentCreator.node_map_from i l1 m).
Proof.
  revert i m. induction l1 as [|n l1 IH]; intros i m; cbn.
  - rewrite Nat.add_0_r. reflexivity.
  - rewrite IH. replace (S i + length l1)%nat with (i + S (length l1))%nat by lia.
    reflexivity.
Qed.

(** An id carried by one node only is mapped to the position of that node. *)
Lemma node_map_of_unique (before after : list NodeDict) (n : NodeDict) :
  ~ In (nd_node_id n) (map nd_node_id after) ->
  AgentCreator.node_map_of (before ++ n :: after) !! nd_node_id n = Some (length before).
Proof.
  intros H. unfold AgentCreator.node_map_of. rewrite node_map_from_app. cbn.
  rewrite node_map_from_other by exact H. apply lookup_insert_eq.
Qed.

(** *** Task nodes never carry the id of the greeting, confirm or end node *)

Lemma collect_id_not_fixed (x : string) : ~ Flow.fixed_id ("node_collect_" +:+ x).
Proof. intros [H|[H|H]]; discriminate H. Qed.

Lemma api_id_not_fixed (x : string) : ~ Flow.fixed_id ("node_api_" +:+ x).
Proof. intros [H|[H|H]]; discriminate H. Qed.

Lemma decision_id_not_fixed (x : string) : ~ Flow.fixed_id ("node_decision_" +:+ x).
Proof. intros [H|[H|H]]; discriminate H. Qed.

Lemma success_id_not_fixed (x : string) : ~ Flow.fixed_id ("node_success_" +:+ x).
Proof. intros [H|[H|H]]; discriminate H. Qed.

Lemma failure_id_not_fixed (x : string) : ~ Flow.fixed_id ("node_failure_" +:+ x).
Proof. intros [H|[H|H]]; discriminate H. Qed.

Lemma task_nodes_not_fixed (analysis : AnalysisBrief) (task : Task) (n : NodeDict) :
  In n (AgentCreator.task_nodes analysis task) -> ~ Flow.fixed_id (nd_node_id n).
Proof.
  unfold AgentCreator.task_nodes. intros Hin. apply in_app_or in Hin as [Hin|Hin].
  - apply in_map_iff in Hin as (slot & <- & _). apply collect_id_not_fixed.
  - destruct (requires_api task); [|contradiction].
    unfold AgentCreator.api_nodes in Hin.
    destruct Hin as [<-|[<-|[<-|[<-|[]]]]].
    + apply api_id_not_fixed.
    + apply decision_id_not_fixed.
    + apply success_id_not_fixed.
    + apply failure_id_not_fixed.
Qed.

Lemma all_task_nodes_not_fixed (analysis : AnalysisBrief) (n : NodeDict) :
  In n (concat (map (AgentCreator.task_nodes analysis) (tasks analysis))) ->
  ~ Flow.fixed_id (nd_node_id n).
Proof.
  intros Hin. apply in_concat in Hin as (group & Hgroup & Hin).
  apply in_map_iff in Hgroup as (task & <- & _).
  eapply task_nodes_not_fixed, Hin.
Qed.

Lemma task_group_not_fixed (node_map : gmap string nat) (task : Task) :
  Forall (fun nid => ~ Flow.fixed_id nid) (AgentCreator.task_group node_map task).
Proof.
  unfold AgentCreator.task_group. apply Forall_app. split.
  - apply Forall_forall. intros nid Hin. apply list_elem_of_In, filter_In in Hin as [Hin _].
    apply in_map_iff in Hin as (slot & <- & _). apply collect_id_not_fixed.
  - destruct (requires_api task); [|constructor].
    apply Forall_forall. intros nid Hin. apply list_elem_of_In, filter_In in Hin as [Hin _].
    destruct Hin as [<-|[<-|[]]]; [apply api_id_not_fixed | apply decision_id_not_fixed].
Qed.

(** *** Wiring a group leaves the three fixed nodes as they are *)

Section FixedNode.

Variable nodes : list NodeDict.
Variable k : nat.
Variable node_k : NodeDict.
Hypothesis Hk : nodes !! k = Some node_k.

(** Appending to the node of another id does not touch position [k]. *)
Lemma append_transition_keeps (nid : string) (t : TransitionDict) (store : list NodeDict) :
  nid <> nd_node_id node_k ->
  AgentCreator.append_transition (AgentCreator.node_map_of nodes) nid t store !! k
  = store !! k.
Proof.
  intros Hne. unfold AgentCreator.append_transition.
  destruct (AgentCreator.node_map_of nodes !! nid) as [j|] eqn:Hj; [|reflexivity].
  apply list_lookup_alter_ne. intros ->.
  destruct (node_map_of_sound nodes nid k Hj) as (n & Hn & Hid).
  rewrite Hk in Hn. injection Hn as <-. apply Hne. symmetry. exact Hid.
Qed.

Hypothesis Hfixed : Flow.fixed_id (nd_node_id node_k).

Lemma not_fixed_other (nid : string) : ~ Flow.fixed_id nid -> nid <> nd_node_id node_k.
Proof. intros Hnid ->. exact (Hnid Hfixed). Qed.

Lemma wire_decision_keeps (nid : string) (store : list NodeDict) :
  ~ Flow.fixed_id nid ->
  AgentCreator.wire_decision (AgentCreator.node_map_of nodes) nid store !! k = store !! k.
Proof.
  intros Hnid. unfold AgentCreator.wire_decision.
  repeat match goal with
         | |- context [if ?b then _ else _] => destruct b
         end;
    rewrite ?append_transition_keeps; try reflexivity;
    first [ apply not_fixed_other, Hnid
          | apply not_fixed_other, success_id_not_fixed
          | apply not_fixed_other, failure_id_not_fixed ].
Qed.

Lemma wire_node_keeps (nid : string) (next_nid : option string) (store : list NodeDict) :
  ~ Flow.fixed_id nid ->
  AgentCreator.wire_node (AgentCreator.node_map_of nodes) nid next_nid store !! k
  = store !! k.
Proof.
  intros Hnid. unfold AgentCreator.wire_node.
  destruct (AgentCreator.node_at _ store nid) as [node|]; [|reflexivity].
  repeat match goal with
         | |- context [if ?b then _ else _] => destruct b
         end;
    rewrite ?append_transition_keeps, ?wire_decision_keeps; try reflexivity;
    first [ apply not_fixed_other, Hnid | exact Hnid ].
Qed.

Lemma wire_group_keeps (group : list string) (store : list NodeDict) :
  Forall (fun nid => ~ Flow.fixed_id nid) group ->
  AgentCreator.wire_group (AgentCreator.node_map_of nodes) group store !! k = store !! k.
Proof.
  intros Hgroup. revert store. induction Hgroup as [|nid rest Hnid _ IH]; intros store.
  - reflexivity.
  - cbn [AgentCreator.wire_group]. rewrite IH. apply wire_node_keeps, Hnid.
Qed.

Lemma wire_groups_keeps (tasks : list Task) (store : list NodeDict) :
  foldl (fun store group =>
           AgentCreator.wire_group (AgentCreator.node_map_of nodes) group store)
        store
        (map (AgentCreator.task_group (AgentCreator.node_map_of nodes)) tasks) !! k
  = store !! k.
Proof.
  revert store. induction tasks as [|task tasks IH]; intros store; cbn [map foldl].
  - reflexivity.
  - rewrite IH. apply wire_group_keeps, task_group_not_fixed.
Qed.

End FixedNode.

(** *** The first task of a rule-based brief is the greeting *)

Lemma dedup_loop_head (tasks : list Task) (first : Task) (unique : list Task)
    (seen : gset string) :
  exists rest,
    fst (foldl (fun '(unique_tasks, seen_names) t =>
                  if bool_decide (task_name t ∈ (seen_names : gset string))
                  then (unique_tasks, seen_names)
                  else (unique_tasks ++ [t], {[task_name t]} ∪ seen_names))
               (first :: unique, seen) tasks)
    = first :: rest.
Proof.
  revert unique seen. induction tasks as [|t tasks IH]; intros unique seen; cbn [foldl].
  - exists unique. reflexivity.
  - destruct (bool_decide (task_name t ∈ seen)); [apply IH|].
    apply (IH (unique ++ [t])).
Qed.

Lemma detect_tasks_head (text domain : string) :
  exists rest, Orchestrator._detect_tasks text domain = Orchestrator.greeting_task :: rest.
Proof.
  rewrite detect_tasks_unfold. cbv zeta. unfold Orchestrator.dedup_tasks.
  destruct (length _ <=? 1)%nat; cbn [app foldl];
    rewrite bool_decide_eq_false_2 by apply not_elem_of_empty;
    apply (dedup_loop_head _ _ []).
Qed.

Lemma primary_task_after_greeting (rest : list Task) :
  Orchestrator.primary_task (Orchestrator.greeting_task :: rest) <> Some 0%nat.
Proof.
  unfold Orchestrator.primary_task. intros H.
  destruct (Orchestrator.find_index requires_api _) as [i|] eqn:Hapi.
  - injection H as ->. apply find_index_lookup in Hapi as (t & [= <-] & Ht).
    discriminate Ht.
  - apply find_index_lookup in H as (t & [= <-] & Ht). discriminate Ht.
Qed.

(** In every rule-based brief the task list starts with the greeting
    task, which collects nothing and requires no API. *)
Lemma analysis_tasks_head (user_prompt language platform : string) :
  exists rest,
    tasks (Orchestrator._analyze_with_rules user_prompt language platform)
    = Orchestrator.greeting_task :: rest.
Proof.
  rewrite analysis_tasks.
  destruct (detect_tasks_head (Py.lower user_prompt)
              (Orchestrator._detect_domain (Py.lower user_prompt))) as [rest ->].
  destruct (Orchestrator._extract_user_slots (Py.lower user_prompt)) as [|slot slots];
    [eauto|].
  unfold Orchestrator._merge_user_slots_into_tasks.
  pose proof (primary_task_after_greeting rest) as Hprimary.
  destruct (Orchestrator.primary_task (Orchestrator.greeting_task :: rest)) as [[|i]|].
  - contradiction.
  - eexists. reflexivity.
  - eexists. reflexivity.
Qed.

(** *** The shape of the wired flow *)

Section WiredFlow.

Variable analysis : AnalysisBrief.
Variable rest : list Task.
Hypothesis Htasks : tasks analysis = Orchestrator.greeting_task :: rest.

Local Abbreviation task_part :=
  (concat (map (AgentCreator.task_nodes analysis) (tasks analysis))).
Local Abbreviation unwired := (AgentCreator.unwired_nodes analysis).
Local Abbreviation wired :=
  (AgentCreator._wire_transitions unwired (tasks analysis) (functions_needed analysis)).

Lemma unwired_shape :
  unwired = (AgentCreator.greeting_node analysis :: task_part)
            ++ AgentCreator.confirm_node :: [AgentCreator.fallback_node; AgentCreator.transfer_node; AgentCreator.end_node].
Proof. reflexivity. Qed.

Lemma closing_ids_not_greet :
  ~ In "node_greet" (map nd_node_id (task_part ++ AgentCreator.closing_nodes)).
Proof.
  rewrite map_app, in_app_iff. intros [H|H].
  - apply in_map_iff in H as (n & Hid & Hin).
    apply (all_task_nodes_not_fixed analysis n Hin). left. exact Hid.
  - unfold AgentCreator.closing_nodes in H.
    destruct H as [H|[H|[H|[H|[]]]]]; discriminate H.
Qed.

Lemma node_map_greet :
  AgentCreator.node_map_of unwired !! "node_greet" = Some 0%nat.
Proof.
  apply (node_map_of_unique [] (task_part ++ AgentCreator.closing_nodes)
           (AgentCreator.greeting_node analysis)).
  exact closing_ids_not_greet.
Qed.

Lemma node_map_confirm :
  AgentCreator.node_map_of unwired !! "node_confirm" = Some (S (length task_part)).
Proof.
  rewrite unwired_shape.
  apply (node_map_of_unique (AgentCreator.greeting_node analysis :: task_part)
           ([AgentCreator.fallback_node; AgentCreator.transfer_node; AgentCreator.end_node]) AgentCreator.confirm_node).
  unfold AgentCreator.closing_nodes. cbn [tail removelast app map nd_node_id].
  intros [H|[H|[H|[]]]]; discriminate H.
Qed.

Lemma unwired_greet : unwired !! 0%nat = Some (AgentCreator.greeting_node analysis).
Proof. reflexivity. Qed.

Lemma unwired_confirm : unwired !! S (length task_part) = Some AgentCreator.confirm_node.
Proof.
  rewrite unwired_shape.
  rewrite lookup_app_r by (cbn [length]; lia).
  cbn [length]. rewrite Nat.sub_diag. reflexivity.
Qed.

Lemma unwired_end : unwired !! (S (length task_part) + 3)%nat = Some AgentCreator.end_node.
Proof.
  rewrite unwired_shape.
  rewrite lookup_app_r by (cbn [length]; lia).
  cbn [length]. replace (S (length task_part) + 3 - S (length task_part))%nat with 3%nat by lia.
  reflexivity.
Qed.

Lemma wire_closing_keeps (k : nat) (node_k : NodeDict) (store : list NodeDict) :
  unwired !! k = Some node_k ->
  nd_node_id node_k <> "node_confirm" ->
  nd_node_id node_k <> "node_fallback" ->
  nd_node_id node_k <> "node_transfer" ->
  AgentCreator.wire_closing (AgentCreator.node_map_of unwired) store !! k = store !! k.
Proof.
  intros Hk Hc Hf Ht. unfold AgentCreator.wire_closing.
  repeat match goal with
         | |- context [if ?b then _ else _] => destruct b
         end;
    rewrite ?(append_transition_keeps unwired k node_k Hk); try reflexivity;
    intros H; symmetry in H; contradiction.
Qed.

Lemma wire_greeting_is_confirm (store : list NodeDict) :
  AgentCreator.wire_greeting (AgentCreator.node_map_of unwired)
    (map (AgentCreator.task_group (AgentCreator.node_map_of unwired)) (tasks analysis))
    store
  = AgentCreator.append_transition (AgentCreator.node_map_of unwired) "node_greet"
      Flow.greeting_transition store.
Proof. rewrite Htasks. reflexivity. Qed.

(** The greeting node ends with the single transition to node_confirm. *)
Lemma wired_greet :
  wired !! 0%nat
  = Some (AgentCreator.add_transition Flow.greeting_transition
            (AgentCreator.greeting_node analysis)).
Proof.
  unfold AgentCreator._wire_transitions. cbv zeta.
  rewrite (wire_closing_keeps 0 _ _ unwired_greet) by discriminate.
  rewrite (wire_groups_keeps unwired 0 _ unwired_greet) by (left; reflexivity).
  rewrite wire_greeting_is_confirm. unfold AgentCreator.append_transition.
  rewrite node_map_greet, list_lookup_alter_eq. reflexivity.
Qed.

(** The confirm node ends with its two transitions, to node_end and node_greet. *)
Lemma wired_confirm : wired !! S (length task_part) = Some Flow.wired_confirm_node.
Proof.
  unfold AgentCreator._wire_transitions. cbv zeta.
  unfold AgentCreator.wire_closing.
  assert (Hhas : AgentCreator.has_node (AgentCreator.node_map_of unwired) "node_confirm"
                 = true)
    by (unfold AgentCreator.has_node; rewrite node_map_confirm; reflexivity).
  rewrite Hhas.
  repeat match goal with
         | |- context [if ?b then _ else _] => destruct b
         end;
    rewrite ?(append_transition_keeps unwired _ _ unwired_confirm) by discriminate;
    unfold AgentCreator.append_transition at 1; rewrite node_map_confirm,
      list_lookup_alter_eq;
    unfold AgentCreator.append_transition at 1; rewrite node_map_confirm,
      list_lookup_alter_eq;
    rewrite (wire_groups_keeps unwired _ _ unwired_confirm)
      by (right; left; reflexivity);
    rewrite wire_greeting_is_confirm,
      (append_transition_keeps unwired _ _ unwired_confirm) by discriminate;
    rewrite unwired_confirm; reflexivity.
Qed.

(** The end node is left without transitions. *)
Lemma wired_end : wired !! (S (length task_part) + 3)%nat = Some AgentCreator.end_node.
Proof.
  unfold AgentCreator._wire_transitions. cbv zeta.
  rewrite (wire_closing_keeps _ _ _ unwired_end) by discriminate.
  rewrite (wire_groups_keeps unwired _ _ unwired_end) by (right; right; reflexivity).
  rewrite wire_greeting_is_confirm,
    (append_transition_keeps unwired _ _ unwired_end) by discriminate.
  exact unwired_end.
Qed.

End WiredFlow.

(** *** From the entry node only the greeting, confirm and end nodes are reached *)

Section Unreachable.

Variable analysis : AnalysisBrief.
Variable rest : list Task.
Hypothesis Htasks : tasks analysis = Orchestrator.greeting_task :: rest.

Local Abbreviation task_part :=
  (concat (map (AgentCreator.task_nodes analysis) (tasks analysis))).
Local Abbreviation unwired := (AgentCreator.unwired_nodes analysis).
Local Abbreviation wired :=
  (AgentCreator._wire_transitions unwired (tasks analysis) (functions_needed analysis)).

(** Where the unwired list has a node of a fixed id. *)
Lemma unwired_fixed_position (j : nat) (n : NodeDict) :
  unwired !! j = Some n -> Flow.fixed_id (nd_node_id n) ->
  (j = 0%nat /\ n = AgentCreator.greeting_node analysis)
  \/ (j = S (length task_part) /\ n = AgentCreator.confirm_node)
  \/ (j = (S (length task_part) + 3)%nat /\ n = AgentCreator.end_node).
Proof.
  unfold AgentCreator.unwired_nodes. intros Hj Hfixed. destruct j as [|j].
  - left. injection Hj as <-. split; reflexivity.
  - right. cbn [lookup list_lookup] in Hj.
    apply lookup_app_Some in Hj as [Hj|[Hlen Hj]].
    + exfalso. apply (all_task_nodes_not_fixed analysis n); [|exact Hfixed].
      apply list_elem_of_In. eapply list_elem_of_lookup_2, Hj.
    + unfold AgentCreator.closing_nodes in Hj.
      destruct (j - length task_part)%nat as [|[|[|[|i]]]] eqn:Hi;
        cbn [lookup list_lookup] in Hj; try discriminate Hj; injection Hj as <-.
      * left. split; [lia | reflexivity].
      * exfalso. destruct Hfixed as [H|[H|H]]; discriminate H.
      * exfalso. destruct Hfixed as [H|[H|H]]; discriminate H.
      * right. split; [lia | reflexivity].
Qed.

(** A wired node and the unwired node at its position share id and type. *)
Lemma wired_position (n : NodeDict) :
  In n wired ->
  exists j n0, wired !! j = Some n /\ unwired !! j = Some n0
               /\ Flow.node_static n0 = Flow.node_static n.
Proof.
  intros Hin. apply list_elem_of_In, list_elem_of_lookup_1 in Hin as [j Hj].
  pose proof (f_equal (fun l => l !! j)
                (wire_transitions_static unwired (tasks analysis)
                   (functions_needed analysis))) as Hstatic.
  cbv beta in Hstatic.
  change (map Flow.node_static wired) with (Flow.node_static <$> wired) in Hstatic.
  change (map Flow.node_static unwired) with (Flow.node_static <$> unwired) in Hstatic.
  rewrite !list_lookup_fmap, Hj in Hstatic.
  destruct (unwired !! j) as [n0|] eqn:Hn0; [|discriminate Hstatic].
  cbn [fmap option_fmap option_map] in Hstatic.
  exists j, n0. split; [exact Hj|]. split; [exact Hn0 | congruence].
Qed.

(** A wired node of a fixed id is one of the three nodes whose
    transitions are known. *)
Lemma wired_fixed_node (n : NodeDict) :
  In n wired -> Flow.fixed_id (nd_node_id n) ->
  n = AgentCreator.add_transition Flow.greeting_transition (AgentCreator.greeting_node analysis)
  \/ n = Flow.wired_confirm_node
  \/ n = AgentCreator.end_node.
Proof.
  intros Hin Hfixed. destruct (wired_position n Hin) as (j & n0 & Hj & Hn0 & Hstatic).
  assert (Hid : nd_node_id n0 = nd_node_id n) by (injection Hstatic; auto).
  rewrite <- Hid in Hfixed.
  destruct (unwired_fixed_position j n0 Hn0 Hfixed) as [[-> _]|[[-> _]|[-> _]]].
  - left. rewrite (wired_greet analysis rest Htasks) in Hj. congruence.
  - right. left. rewrite (wired_confirm analysis rest Htasks) in Hj. congruence.
  - right. right. rewrite (wired_end analysis rest Htasks) in Hj. congruence.
Qed.

Lemma fixed_edge (a b : string) :
  Flow.edge wired a b -> Flow.fixed_id a -> Flow.fixed_id b.
Proof.
  intros (n & t & Hn & <- & Ht & <-) Hfixed.
  apply list_elem_of_In in Hn, Ht.
  destruct (wired_fixed_node n Hn Hfixed) as [->|[->| ->]].
  - destruct Ht as [<-|[]]. right. left. reflexivity.
  - destruct Ht as [<-|[<-|[]]]; [right; right; reflexivity | left; reflexivity].
  - destruct Ht.
Qed.

Lemma reachable_fixed (a b : string) :
  Flow.reachable wired a b -> Flow.fixed_id a -> Flow.fixed_id b.
Proof.
  induction 1 as [a | a c b Hac _ IH]; intros Hfixed; [exact Hfixed|].
  apply IH. eapply fixed_edge; eassumption.
Qed.

Lemma task_node_not_fixed (n : NodeDict) :
  In n wired -> Flow.is_task_node n = true -> ~ Flow.fixed_id (nd_node_id n).
Proof.
  intros Hin Htask Hfixed.
  destruct (wired_fixed_node n Hin Hfixed) as [->|[->| ->]]; discriminate Htask.
Qed.

(** The greeting node leads to the confirm node and the confirm node to
    the end node, so each of the three is reached from the entry node. *)
Lemma fixed_reachable (b : string) :
  Flow.fixed_id b -> Flow.reachable wired "node_greet" b.
Proof.
  assert (Hgc : Flow.edge wired "node_greet" "node_confirm").
  { exists (AgentCreator.add_transition Flow.greeting_transition
              (AgentCreator.greeting_node analysis)), Flow.greeting_transition.
    split; [eapply list_elem_of_lookup_2, (wired_greet analysis rest Htasks)|].
    split; [reflexivity|]. split; [|reflexivity].
    apply list_elem_of_In. left. reflexivity. }
  assert (Hce : Flow.edge wired "node_confirm" "node_end").
  { exists Flow.wired_confirm_node, (mkTransition "nothing_else" "node_end").
    split; [eapply list_elem_of_lookup_2, (wired_confirm analysis rest Htasks)|].
    split; [reflexivity|]. split; [|reflexivity].
    apply list_elem_of_In. left. reflexivity. }
  intros [->|[->| ->]].
  - apply rtc_refl.
  - apply rtc_once, Hgc.
  - eapply rtc_l; [exact Hgc|]. apply rtc_once, Hce.
Qed.

End Unreachable.

Lemma build_flow_nodes (analysis : AnalysisBrief) :
  fl_nodes (AgentCreator._build_flow analysis)
  = AgentCreator._wire_transitions (AgentCreator.unwired_nodes analysis)
      (tasks analysis) (functions_needed analysis).
Proof. reflexivity. Qed.

(** In the flow of every rule-based brief, each node of id node_greet has
    the single transition user_responds to node_confirm. *)
Theorem greeting_always_leads_to_confirm (user_prompt language platform : string) :
  Forall (fun n => nd_node_id n = "node_greet" ->
                   nd_transitions n = [mkTransition "user_responds" "node_confirm"])
         (fl_nodes (AgentCreator._build_flow
                      (Orchestrator._analyze_with_rules user_prompt language platform))).
Proof.
  destruct (analysis_tasks_head user_prompt language platform) as [rest Htasks].
  rewrite build_flow_nodes. apply Forall_forall. intros n Hin Hid.
  apply list_elem_of_In in Hin.
  assert (Hfixed : Flow.fixed_id (nd_node_id n)) by (left; exact Hid).
  destruct (wired_fixed_node _ rest Htasks n Hin Hfixed) as [->|[->| ->]];
    [reflexivity | discriminate Hid | discriminate Hid].
Qed.

(** In the flow of every rule-based brief, the ids reached from the entry
    node node_greet by following transitions are exactly node_greet,
    node_confirm and node_end, so no collect_info and no api_call node is
    reachable. *)
Theorem task_nodes_never_reachable (user_prompt language platform : string) :
  (forall b : string,
     Flow.reachable
       (fl_nodes (AgentCreator._build_flow
          (Orchestrator._analyze_with_rules user_prompt language platform)))
       "node_greet" b
     <-> b = "node_greet" \/ b = "node_confirm" \/ b = "node_end")
  /\ Forall (fun n => Flow.is_task_node n = true ->
                      ~ Flow.reachable
                          (fl_nodes (AgentCreator._build_flow
                             (Orchestrator._analyze_with_rules user_prompt language platform)))
                          "node_greet" (nd_node_id n))
            (fl_nodes (AgentCreator._build_flow
                         (Orchestrator._analyze_with_rules user_prompt language platform))).
Proof.
  destruct (analysis_tasks_head user_prompt language platform) as [rest Htasks].
  rewrite build_flow_nodes. split.
  - intros b. split.
    + intros Hreach. apply (reachable_fixed _ rest Htasks _ _ Hreach). left. reflexivity.
    + apply (fixed_reachable _ rest Htasks).
  - apply Forall_forall. intros n Hin Htask Hreach.
    apply list_elem_of_In in Hin.
    apply (task_node_not_fixed _ rest Htasks n Hin Htask).
    apply (reachable_fixed _ rest Htasks _ _ Hreach). left. reflexivity.
Qed.

(** ** The rule-based pipeline never fails *)

(** *** Runs that return *)

Lemma run_bind_total {A B : Type} (m : Run A) (f : A -> Run B) (w : World) :
  (exists a w1, m w = (Returns a, w1) /\ exists b w', f a w1 = (Returns b, w')) ->
  exists b w', (m ≫= f) w = (Returns b, w').
Proof.
  intros (a & w1 & Hm & b & w' & Hf). exists b, w'.
  unfold mbind, Run_bind. rewrite Hm. exact Hf.
Qed.

Lemma outcome_mapM_total {A B : Type} (f : A -> Outcome B) (l : list A) :
  (forall x, In x l -> exists y, f x = Returns y) ->
  exists ys, mapM f l = Returns ys.
Proof.
  induction l as [|x l IH]; intros Hf; cbn [mapM].
  - exists []. reflexivity.
  - destruct (Hf x) as [y Hy]; [left; reflexivity|].
    destruct IH as [ys Hys]; [intros x' Hx'; apply Hf; right; exact Hx'|].
    exists (y :: ys). rewrite Hy. cbn. rewrite Hys. reflexivity.
Qed.

Lemma run_mapM_total {A B : Type} (f : A -> Run B) (l : list A) :
  (forall x, In x l -> forall w, exists y w', f x w = (Returns y, w')) ->
  forall w, exists ys w', mapM f l w = (Returns ys, w').
Proof.
  induction l as [|x l IH]; intros Hf w; cbn [mapM].
  - exists [], w. reflexivity.
  - apply run_bind_total. destruct (Hf x (or_introl eq_refl) w) as (y & w1 & Hy).
    exists y, w1. split; [exact Hy|].
    apply run_bind_total.
    destruct (IH (fun x' Hx' => Hf x' (or_intror Hx')) w1) as (ys & w2 & Hys).
    exists ys, w2. split; [exact Hys|]. exists (y :: ys), w2. reflexivity.
Qed.

(** *** Every value the rule-based creators write is one the models admit *)

Lemma language_value_valid (l : Models.LanguageCode) :
  Py.get Models.LanguageCode_values (Models.LanguageCode_value l) = Some l.
Proof. destruct l; reflexivity. Qed.

Lemma voice_gender_valid (text : string) :
  exists g, Py.get Models.VoiceGender_values (Orchestrator._detect_voice_gender text)
            = Some g.
Proof.
  rewrite detect_voice_gender_spec.
  destruct (Py.isin "male voice" text || Py.isin "male agent" text); eexists; reflexivity.
Qed.

Lemma http_method_valid (name purpose : string) :
  exists m, Py.get Models.HTTPMethod_values
              (FunctionCreator._infer_http_method name purpose) = Some m.
Proof.
  unfold FunctionCreator._infer_http_method. cbv zeta.
  repeat match goal with
         | |- context [if ?b then _ else _] => destruct b
         end;
    eexists; reflexivity.
Qed.

Lemma param_type_valid (task : Task) (text : string) (p : ParamDict) :
  In p (Orchestrator._task_to_function_params task text) ->
  exists t, Py.get Models.ParamType_values (default "string" (pd_type p)) = Some t.
Proof.
  unfold Orchestrator._task_to_function_params. intros Hin.
  apply in_map_iff in Hin as (slot & <- & _). cbv zeta. cbn [pd_type default].
  repeat match goal with
         | |- context [if ?b then _ else _] => destruct b
         end;
    eexists; reflexivity.
Qed.

Lemma unwired_type_valid (analysis : AnalysisBrief) (n : NodeDict) :
  In n (AgentCreator.unwired_nodes analysis) ->
  exists ty, Py.get Models.NodeType_values (nd_type n) = Some ty.
Proof.
  unfold AgentCreator.unwired_nodes. intros [<-|Hin]; [eexists; reflexivity|].
  apply in_app_or in Hin as [Hin|Hin].
  - apply in_concat in Hin as (group & Hgroup & Hin).
    apply in_map_iff in Hgroup as (task & <- & _).
    unfold AgentCreator.task_nodes in Hin. apply in_app_or in Hin as [Hin|Hin].
    + apply in_map_iff in Hin as (slot & <- & _). eexists; reflexivity.
    + destruct (requires_api task); [|contradiction].
      unfold AgentCreator.api_nodes in Hin.
      destruct Hin as [<-|[<-|[<-|[<-|[]]]]]; eexists; reflexivity.
  - unfold AgentCreator.closing_nodes in Hin.
    destruct Hin as [<-|[<-|[<-|[<-|[]]]]]; eexists; reflexivity.
Qed.

(** Every wired node converts to a [FlowNode]. *)
Lemma wired_node_valid (analysis : AnalysisBrief) (n : NodeDict) :
  In n (fl_nodes (AgentCreator._build_flow analysis)) ->
  exists node, MetaOrchestrator.node_of_raw n = Returns node.
Proof.
  rewrite build_flow_nodes. intros Hin.
  apply (in_map Flow.node_static) in Hin. rewrite wire_transitions_static in Hin.
  apply in_map_iff in Hin as (n0 & Hstatic & Hin).
  destruct (unwired_type_valid analysis n0 Hin) as [ty Hty].
  assert (Htype : nd_type n0 = nd_type n) by (injection Hstatic; auto).
  rewrite Htype in Hty.
  unfold MetaOrchestrator.node_of_raw, Models.FlowNode_new, Models.enum_field.
  rewrite Hty. eexists. reflexivity.
Qed.

(** *** Intents *)

Lemma phrases_valid (l : Models.LanguageCode) (phrases : list PhraseDict) :
  Forall (fun p => ph_language p = Models.LanguageCode_value l) phrases ->
  exists ps,
    mapM (fun p => Models.TrainingPhrase_new (ph_text p) (ph_language p)) phrases
    = Returns ps.
Proof.
  intros Hlang. apply outcome_mapM_total. intros p Hp.
  rewrite Forall_forall in Hlang. rewrite (Hlang p (proj2 (list_elem_of_In _ _) Hp)).
  unfold Models.TrainingPhrase_new, Models.enum_field.
  rewrite language_value_valid. eexists. reflexivity.
Qed.

Lemma intent_of_raw_total (l : Models.LanguageCode) (intent_raw : IntentDict) (w : World) :
  Forall (fun p => ph_language p = Models.LanguageCode_value l)
         (ir_training_phrases intent_raw) ->
  (0 <=? ir_priority intent_raw)%Z && (ir_priority intent_raw <=? 10)%Z = true ->
  exists intent w', MetaOrchestrator.intent_of_raw intent_raw w = (Returns intent, w').
Proof.
  intros Hlang Hprio. destruct (phrases_valid l _ Hlang) as [ps Hps].
  unfold MetaOrchestrator.intent_of_raw, Models.IntentDefinition_new, Models.int_field.
  rewrite Hps, Hprio. eexists _, _. reflexivity.
Qed.

Lemma build_intents_valid (analysis : AnalysisBrief) (l : Models.LanguageCode)
    (intent_raw : IntentDict) :
  language analysis = Models.LanguageCode_value l ->
  In intent_raw (AgentCreator._build_intents analysis) ->
  Forall (fun p => ph_language p = Models.LanguageCode_value l)
         (ir_training_phrases intent_raw)
  /\ (0 <=? ir_priority intent_raw)%Z && (ir_priority intent_raw <=? 10)%Z = true.
Proof.
  intros Hlang. unfold AgentCreator._build_intents. cbv zeta. rewrite Hlang.
  intros Hin. apply in_app_or in Hin as [[<-|[]]|Hin].
  - split; [|reflexivity]. repeat constructor.
  - apply in_app_or in Hin as [Hin|[<-|[<-|[]]]].
    + apply in_map_iff in Hin as (task & <- & _).
      split; [|reflexivity]. repeat constructor.
    + split; [|reflexivity]. constructor.
    + split; [|reflexivity]. repeat constructor.
Qed.

(** *** Function definitions *)

Lemma function_of_raw_total (fn_raw : FnDict) (w : World) :
  (forall p, In p (default [] (fd_parameters fn_raw)) ->
             exists t, Py.get Models.ParamType_values (default "string" (pd_type p))
                       = Some t) ->
  (forall ep, fd_api_endpoint fn_raw = Some ep ->
              (exists m, Py.get Models.HTTPMethod_values (ep_method ep) = Some m)
              /\ (1 <=? ep_timeout_seconds ep)%Z && (ep_timeout_seconds ep <=? 60)%Z
                 = true) ->
  exists f w', MetaOrchestrator.function_of_raw fn_raw w = (Returns f, w').
Proof.
  intros Hparams Hendpoint.
  destruct (outcome_mapM_total MetaOrchestrator.parameter_of_raw
              (default [] (fd_parameters fn_raw))) as [params Hps].
  { intros p Hp. destruct (Hparams p Hp) as [t Ht].
    unfold MetaOrchestrator.parameter_of_raw, Models.FunctionParameter_new,
      Models.enum_field.
    rewrite Ht. eexists. reflexivity. }
  unfold MetaOrchestrator.function_of_raw, Models.FunctionDefinition_new.
  rewrite Hps.
  destruct (fd_api_endpoint fn_raw) as [ep|].
  - destruct (Hendpoint ep eq_refl) as ([m Hm] & Htimeout).
    unfold MetaOrchestrator.endpoint_of_raw, Models.APIEndpoint_new, Models.enum_field,
      Models.int_field.
    rewrite Hm, Htimeout. eexists _, _. reflexivity.
  - eexists _, _. reflexivity.
Qed.

Lemma rule_function_valid (tasks : list Task) (text : string) (fn_raw : FnDict)
    (w : World) :
  In fn_raw (FunctionCreator._create_with_rules
               (Orchestrator._detect_functions tasks text)) ->
  exists f w', MetaOrchestrator.function_of_raw fn_raw w = (Returns f, w').
Proof.
  unfold FunctionCreator._create_with_rules, Orchestrator._detect_functions.
  rewrite map_map. intros Hin. apply in_map_iff in Hin as (task & <- & _).
  apply function_of_raw_total.
  - unfold FunctionCreator._build_function, Orchestrator.function_for_task.
    cbv zeta. cbn [fd_parameters fr_input_params default].
    intros p Hp. apply in_map_iff in Hp as (p0 & <- & Hp0).
    unfold FunctionCreator.build_parameter. cbn [pd_type default].
    apply (param_type_valid task text p0 Hp0).
  - unfold FunctionCreator._build_function. cbv zeta. cbn [fd_api_endpoint].
    intros ep [= <-]. unfold FunctionCreator._build_endpoint. cbv zeta.
    cbn [ep_method ep_timeout_seconds]. split; [apply http_method_valid | reflexivity].
Qed.

(** *** The merge and the whole pipeline *)

Lemma analysis_language (user_prompt lang target : string) :
  language (Orchestrator._analyze_with_rules user_prompt lang target) = lang.
Proof.
  cbv beta iota zeta delta [Orchestrator._analyze_with_rules language]. reflexivity.
Qed.

Lemma analysis_voice_gender (user_prompt lang target : string) :
  voice_gender (Orchestrator._analyze_with_rules user_prompt lang target)
  = Orchestrator._detect_voice_gender (Py.lower user_prompt).
Proof.
  cbv beta iota zeta delta [Orchestrator._analyze_with_rules voice_gender]. reflexivity.
Qed.

Lemma create_with_rules_voice (analysis : AnalysisBrief) :
  ac_voice (AgentCreator._create_with_rules analysis)
  = mkVoiceDict "google" (vr_voice_id (AgentCreator._build_voice analysis))
                (voice_gender analysis) (language analysis) 1 0.
Proof. reflexivity. Qed.

Lemma create_with_rules_max_retries (analysis : AnalysisBrief) :
  pr_max_retries (ac_persona (AgentCreator._create_with_rules analysis)) = 3%Z.
Proof. reflexivity. Qed.

Lemma create_with_rules_intents (analysis : AnalysisBrief) :
  ac_intents (AgentCreator._create_with_rules analysis)
  = AgentCreator._build_intents analysis.
Proof. reflexivity. Qed.

Lemma create_with_rules_flow (analysis : AnalysisBrief) :
  ac_conversation_flow (AgentCreator._create_with_rules analysis)
  = AgentCreator._build_flow analysis.
Proof. reflexivity. Qed.

(** The merge of what the rule-based creators return never raises. *)
Lemma merge_config_total (user_prompt target : string) (l : Models.LanguageCode)
    (w : World) :
  exists cfg w',
    MetaOrchestrator._merge_config
      (Orchestrator._analyze_with_rules user_prompt (Models.LanguageCode_value l) target)
      (AgentCreator._create_with_rules
         (Orchestrator._analyze_with_rules user_prompt (Models.LanguageCode_value l)
            target))
      (FunctionCreator._create_with_rules
         (functions_needed
            (Orchestrator._analyze_with_rules user_prompt (Models.LanguageCode_value l)
               target)))
      target w
    = (Returns cfg, w').
Proof.
  pose proof (analysis_language user_prompt (Models.LanguageCode_value l) target) as Hlang.
  pose proof (analysis_voice_gender user_prompt (Models.LanguageCode_value l) target)
    as Hgender.
  pose proof (analysis_functions_needed user_prompt (Models.LanguageCode_value l) target)
    as Hfns.
  remember (Orchestrator._analyze_with_rules user_prompt (Models.LanguageCode_value l)
              target) as analysis eqn:Hanalysis.
  clear Hanalysis.
  unfold MetaOrchestrator._merge_config.
  (* persona *)
  apply run_bind_total.
  unfold Models.PersonaConfig_new, Models.int_field.
  rewrite create_with_rules_max_retries. eexists _, w. split; [reflexivity|].
  (* voice *)
  apply run_bind_total. rewrite create_with_rules_voice.
  cbn [vr_provider vr_voice_id vr_gender vr_language vr_speaking_rate vr_pitch].
  destruct (voice_gender_valid (Py.lower user_prompt)) as [g Hg].
  unfold Models.VoiceConfig_new, Models.enum_field, Models.float_field.
  rewrite Hgender, Hg, Hlang, language_value_valid.
  eexists _, w. split; [reflexivity|].
  (* intents *)
  apply run_bind_total. rewrite create_with_rules_intents.
  destruct (run_mapM_total MetaOrchestrator.intent_of_raw
              (AgentCreator._build_intents analysis)) with (w := w)
    as (intents & w1 & Hintents).
  { intros i Hi w0. destruct (build_intents_valid analysis l i Hlang Hi) as [Hp Hprio].
    apply (intent_of_raw_total l i w0 Hp Hprio). }
  exists intents, w1. split; [exact Hintents|].
  (* functions *)
  apply run_bind_total.
  destruct (run_mapM_total MetaOrchestrator.function_of_raw
              (FunctionCreator._create_with_rules (functions_needed analysis)))
    with (w := w1) as (func_defs & w2 & Hfuncs).
  { intros fn_raw Hfn w0. rewrite Hfns in Hfn.
    apply (rule_function_valid _ _ fn_raw w0 Hfn). }
  exists func_defs, w2. split; [exact Hfuncs|].
  (* flow *)
  apply run_bind_total. rewrite create_with_rules_flow.
  destruct (outcome_mapM_total MetaOrchestrator.node_of_raw
              (fl_nodes (AgentCreator._build_flow analysis))) as [flow_nodes Hnodes].
  { intros n Hn. apply (wired_node_valid analysis n Hn). }
  unfold MetaOrchestrator.flow_of_raw, Models.ConversationFlow_new.
  rewrite Hnodes. eexists _, _. split; [reflexivity|].
  unfold Models.CXAgentConfig_new. eexists _, _. reflexivity.
Qed.

(** What the rule-based [process_request] returns. *)
Lemma process_request_success (request : Models.AgentCreateRequest) (w : World) :
  exists cfg w',
    MetaOrchestrator.process_request request w
    = (MetaOrchestrator.success_response
         (Orchestrator._analyze_with_rules (Models.user_prompt request)
            (Models.LanguageCode_value (Models.request_language request))
            (Models.request_platform request))
         cfg
         (FunctionCreator.to_openai_tools
            (FunctionCreator._create_with_rules
               (functions_needed
                  (Orchestrator._analyze_with_rules (Models.user_prompt request)
                     (Models.LanguageCode_value (Models.request_language request))
                     (Models.request_platform request))))),
       w').
Proof.
  destruct (merge_config_total (Models.user_prompt request) (Models.request_platform request)
              (Models.request_language request) w) as (cfg & w' & Hmerge).
  exists cfg, w'.
  unfold MetaOrchestrator.process_request, MetaOrchestrator.process_request_with,
    MetaOrchestrator.pipeline, Orchestrator._analyze_request,
    AgentCreator.create_agent_config.
  unfold mbind at 1 2 3, Run_bind at 1 2 3, mret at 1 2, Run_ret at 1 2.
  rewrite create_functions_returns.
  unfold mbind, Run_bind. rewrite Hmerge. reflexivity.
Qed.

(** For every request and in every world, the rule-based
    [process_request] returns a success response that carries a
    configuration, the tool schemas and the analysis. *)
Theorem rule_pipeline_always_succeeds (request : Models.AgentCreateRequest) (w : World) :
  Models.success (fst (MetaOrchestrator.process_request request w)) = true
  /\ is_Some (Models.agent_config (fst (MetaOrchestrator.process_request request w)))
  /\ is_Some (Models.openai_tools_schema (fst (MetaOrchestrator.process_request request w)))
  /\ Models.raw_analysis (fst (MetaOrchestrator.process_request request w))
     = Some (Orchestrator._analyze_with_rules (Models.user_prompt request)
               (Models.LanguageCode_value (Models.request_language request))
               (Models.request_platform request)).
Proof.
  destruct (process_request_success request w) as (cfg & w' & ->).
  unfold MetaOrchestrator.success_response.
  cbn [fst Models.success Models.agent_config Models.openai_tools_schema
       Models.raw_analysis].
  split; [reflexivity|]. split; [eexists; reflexivity|].
  split; [eexists; reflexivity | reflexivity].
Qed.

(** ** The node list of a flow *)

Lemma build_flow_static (analysis : AnalysisBrief) :
  map Flow.node_static (fl_nodes (AgentCreator._build_flow analysis))
  = map Flow.node_static (AgentCreator.unwired_nodes analysis).
Proof. rewrite build_flow_nodes. apply wire_transitions_static. Qed.

(** [_build_flow] wires the nodes in place: the flow has the nodes that
    were created, in the order of creation, each with the id, type, label,
    prompt text, slot and function reference it was created with; only
    transitions are added. *)
Theorem build_flow_keeps_nodes (analysis : AnalysisBrief) :
  map Flow.node_frame (fl_nodes (AgentCreator._build_flow analysis))
  = map Flow.node_frame (AgentCreator.unwired_nodes analysis).
Proof. rewrite build_flow_nodes. apply wire_transitions_frame. reflexivity. Qed.

Lemma task_nodes_type (analysis : AnalysisBrief) (task : Task) (n : NodeDict) :
  In n (AgentCreator.task_nodes analysis task) ->
  nd_type n = "collect_info" \/ nd_type n = "api_call"
  \/ nd_type n = "decision" \/ nd_type n = "response".
Proof.
  unfold AgentCreator.task_nodes. intros Hin. apply in_app_or in Hin as [Hin|Hin].
  - apply in_map_iff in Hin as (slot & <- & _). left. reflexivity.
  - destruct (requires_api task); [|contradiction].
    unfold AgentCreator.api_nodes in Hin.
    destruct Hin as [<-|[<-|[<-|[<-|[]]]]]; cbn [nd_type]; tauto.
Qed.

Lemma count_type_static (ty : string) (l l' : list NodeDict) :
  map Flow.node_static l = map Flow.node_static l' ->
  length (List.filter (fun n => String.eqb (nd_type n) ty) l)
  = length (List.filter (fun n => String.eqb (nd_type n) ty) l').
Proof.
  revert l'. induction l as [|n l IH]; intros [|n' l'] H; try discriminate H.
  - reflexivity.
  - cbn [map] in H. apply (f_equal tail) in H as Hl. cbn [tail] in Hl.
    assert (Hty : nd_type n = nd_type n').
    { apply (f_equal head) in H. cbn [head] in H. unfold Flow.node_static in H.
      congruence. }
    cbn [List.filter]. rewrite Hty.
    destruct (String.eqb (nd_type n') ty); cbn [length]; rewrite (IH l' Hl); reflexivity.
Qed.

Lemma count_type_none (ty : string) (l : list NodeDict) :
  (forall n, In n l -> nd_type n <> ty) ->
  List.filter (fun n => String.eqb (nd_type n) ty) l = [].
Proof.
  induction l as [|n l IH]; intros H; [reflexivity|].
  cbn [List.filter].
  destruct (String.eqb_spec (nd_type n) ty) as [Heq|_].
  - exfalso. apply (H n); [left; reflexivity | exact Heq].
  - apply IH. intros m Hm. apply H. right. exact Hm.
Qed.

(** Every flow [_build_flow] returns, whatever the brief, enters at
    node_greet, has exactly one node of type greeting and exactly one of
    type end. *)
Theorem flow_has_one_greeting_and_one_end (analysis : AnalysisBrief) :
  fl_entry_node_id (AgentCreator._build_flow analysis) = "node_greet"
  /\ length (List.filter (fun n => String.eqb (nd_type n) "greeting")
               (fl_nodes (AgentCreator._build_flow analysis))) = 1%nat
  /\ length (List.filter (fun n => String.eqb (nd_type n) "end")
               (fl_nodes (AgentCreator._build_flow analysis))) = 1%nat.
Proof.
  split; [reflexivity|].
  assert (Htasks : forall ty, ty <> "collect_info" -> ty <> "api_call" ->
            ty <> "decision" -> ty <> "response" ->
            List.filter (fun n => String.eqb (nd_type n) ty)
              (concat (map (AgentCreator.task_nodes analysis) (tasks analysis))) = []).
  { intros ty H1 H2 H3 H4. apply count_type_none. intros n Hin Hty.
    apply in_concat in Hin as (group & Hgroup & Hin).
    apply in_map_iff in Hgroup as (task & <- & _).
    destruct (task_nodes_type analysis task n Hin) as [H|[H|[H|H]]];
      rewrite H in Hty; subst ty; contradiction. }
  split.
  - rewrite (count_type_static "greeting" _ _ (build_flow_static analysis)).
    unfold AgentCreator.unwired_nodes. cbn [List.filter].
    change (String.eqb (nd_type (AgentCreator.greeting_node analysis)) "greeting") with true.
    cbn [length]. rewrite List.filter_app, Htasks by discriminate. reflexivity.
  - rewrite (count_type_static "end" _ _ (build_flow_static analysis)).
    unfold AgentCreator.unwired_nodes. cbn [List.filter].
    change (String.eqb (nd_type (AgentCreator.greeting_node analysis)) "end") with false.
    rewrite List.filter_app, Htasks by discriminate. reflexivity.
Qed.

(** ** The slot extractor *)

Lemma extract_loop_filter (text : string) (table : list (string * list string))
    (found : list string) :
  NoDup (map fst table) ->
  (forall k, In k (map fst table) -> ~ In k found) ->
  foldl (fun found_slots '(slot_name, kws) =>
           if Py.any_in kws text
           then (if bool_decide (slot_name ∈ found_slots)
                 then found_slots else found_slots ++ [slot_name])
           else found_slots)
        found table
  = found ++ map fst (List.filter (fun entry => Py.any_in (snd entry) text) table).
Proof.
  revert found. induction table as [|[name kws] table IH]; intros found Hnodup Hfresh.
  - cbn. rewrite app_nil_r. reflexivity.
  - cbn [map fst] in Hnodup. apply NoDup_cons in Hnodup as [Hname Hnodup].
    cbn [foldl List.filter snd]. destruct (Py.any_in kws text).
    + rewrite bool_decide_eq_false_2.
      2:{ intros Hin. apply (Hfresh name); [left; reflexivity | apply list_elem_of_In, Hin]. }
      rewrite IH; [cbn [map fst]; rewrite <- app_assoc; reflexivity | exact Hnodup |].
      intros k Hk Hin. apply in_app_or in Hin as [Hin|[<-|[]]].
      * apply (Hfresh k); [right; exact Hk | exact Hin].
      * apply Hname, list_elem_of_In, Hk.
    + apply IH; [exact Hnodup|]. intros k Hk. apply Hfresh. right. exact Hk.
Qed.

Lemma NoDup_map_filter {A B : Type} (f : A -> B) (p : A -> bool) (l : list A) :
  NoDup (map f l) -> NoDup (map f (List.filter p l)).
Proof.
  induction l as [|x l IH]; intros H; [exact H|].
  cbn [map] in H. apply NoDup_cons in H as [Hx H]. cbn [List.filter].
  destruct (p x); [|apply IH, H].
  cbn [map]. apply NoDup_cons. split; [|apply IH, H].
  intros Hin. apply Hx. apply list_elem_of_In in Hin. apply list_elem_of_In.
  apply in_map_iff in Hin as (y & Hy & Hin). apply in_map_iff.
  exists y. split; [exact Hy|]. apply filter_In in Hin. tauto.
Qed.

Lemma slot_keywords_nodup : NoDup (map fst Orchestrator.slot_keywords).
Proof. apply (bool_decide_unpack _). vm_compute. exact I. Qed.

(** [_extract_user_slots] returns, in the order of the slot table, the
    names of the slots one of whose keywords occurs in the text, each
    name once. *)
Theorem extract_user_slots_spec (text : string) :
  Orchestrator._extract_user_slots text
  = map fst (List.filter (fun entry => Py.any_in (snd entry) text)
                         Orchestrator.slot_keywords)
  /\ NoDup (Orchestrator._extract_user_slots text).
Proof.
  assert (H : Orchestrator._extract_user_slots text
              = map fst (List.filter (fun entry => Py.any_in (snd entry) text)
                                     Orchestrator.slot_keywords)).
  { unfold Orchestrator._extract_user_slots.
    rewrite (extract_loop_filter text Orchestrator.slot_keywords []);
      [reflexivity | apply slot_keywords_nodup | intros k _ []]. }
  split; [exact H|]. rewrite H. apply NoDup_map_filter, slot_keywords_nodup.
Qed.

(** ** Names in a brief *)

Lemma dedup_loop_nodup (tasks unique : list Task) (seen : gset string) :
  (forall name, name ∈ seen <-> In name (map task_name unique)) ->
  NoDup (map task_name unique) ->
  NoDup (map task_name
           (fst (foldl (fun '(unique_tasks, seen_names) t =>
                          if bool_decide (task_name t ∈ (seen_names : gset string))
                          then (unique_tasks, seen_names)
                          else (unique_tasks ++ [t], {[task_name t]} ∪ seen_names))
                       (unique, seen) tasks))).
Proof.
  revert unique seen. induction tasks as [|t tasks IH]; intros unique seen Hseen Hnodup.
  - exact Hnodup.
  - cbn [foldl]. destruct (bool_decide (task_name t ∈ seen)) eqn:Hdec.
    + apply IH; assumption.
    + apply bool_decide_eq_false in Hdec. apply IH.
      * intros name. rewrite elem_of_union, elem_of_singleton, Hseen, map_app, in_app_iff.
        change (In name (map task_name [t])) with (task_name t = name \/ False).
        split.
        -- intros [->|H]; [right; left; reflexivity | left; exact H].
        -- intros [H|[<-|[]]]; [right; exact H | left; reflexivity].
      * rewrite map_app. apply NoDup_app. split; [exact Hnodup|]. split.
        -- intros name Hin Hin'. apply list_elem_of_In in Hin' as [Heq|[]].
           subst name. apply Hdec, Hseen, list_elem_of_In, Hin.
        -- cbn. apply NoDup_singleton.
Qed.

Lemma detect_tasks_nodup (text domain : string) :
  NoDup (map task_name (Orchestrator._detect_tasks text domain)).
Proof.
  rewrite detect_tasks_unfold. unfold Orchestrator.dedup_tasks.
  apply dedup_loop_nodup; [|constructor].
  intros name. cbn. rewrite elem_of_empty. tauto.
Qed.

(** The merge of the found slots changes no task name. *)
Lemma analysis_task_names (user_prompt language platform : string) :
  map task_name (tasks (Orchestrator._analyze_with_rules user_prompt language platform))
  = map task_name (Orchestrator._detect_tasks (Py.lower user_prompt)
                     (Orchestrator._detect_domain (Py.lower user_prompt))).
Proof.
  rewrite analysis_tasks.
  destruct (Orchestrator._extract_user_slots (Py.lower user_prompt)) as [|slot slots];
    [reflexivity|].
  unfold Orchestrator._merge_user_slots_into_tasks.
  destruct (detect_tasks_inv (Py.lower user_prompt)
              (Orchestrator._detect_domain (Py.lower user_prompt)))
    as (_ & (t & Hin & Hname) & _).
  destruct (primary_task_exists _ t Hin Hname) as (i & t0 & -> & _).
  apply alter_merge_names.
Qed.

Lemma brief_names_facts (user_prompt language platform : string) :
  NoDup (map task_name
           (tasks (Orchestrator._analyze_with_rules user_prompt language platform)))
  /\ Forall (fun name => In name detectable_names)
       (map task_name
          (tasks (Orchestrator._analyze_with_rules user_prompt language platform))).
Proof.
  rewrite analysis_task_names. split; [apply detect_tasks_nodup|].
  apply Forall_forall. intros name Hin. apply list_elem_of_In, in_map_iff in Hin
    as (t & <- & Hin).
  apply (detect_tasks_inv (Py.lower user_prompt)
           (Orchestrator._detect_domain (Py.lower user_prompt))), Hin.
Qed.

(** The tasks of a rule-based brief have pairwise different names, all
    of them names of the task tables. *)
Theorem brief_task_names_unique (user_prompt language platform : string) :
  NoDup (map task_name
           (tasks (Orchestrator._analyze_with_rules user_prompt language platform)))
  /\ Forall (fun name => In name detectable_names)
       (map task_name
          (tasks (Orchestrator._analyze_with_rules user_prompt language platform))).
Proof. exact (brief_names_facts user_prompt language platform). Qed.

(** The name of the function inferred for a task of the given name. *)
Lemma function_for_task_name (text : string) (task : Task) :
  fr_name (Orchestrator.function_for_task text task)
  = Orchestrator._task_to_function_name
      (Py.replace " " "_" (Py.lower (task_name task))) Orchestrator.greeting_task.
Proof. reflexivity. Qed.

Lemma function_names_of_table :
  NoDup (map (fun name => Orchestrator._task_to_function_name
                            (Py.replace " " "_" (Py.lower name))
                            Orchestrator.greeting_task)
             detectable_names).
Proof. apply (bool_decide_unpack _). vm_compute. exact I. Qed.

Lemma NoDup_map_inj_on {A B : Type} (f : A -> B) (D l : list A) :
  NoDup (map f D) -> (forall x, In x l -> In x D) -> NoDup l -> NoDup (map f l).
Proof.
  intros HD Hsub Hl. apply NoDup_fmap_2_strong; [|exact Hl].
  intros x y Hx Hy Heq. apply list_elem_of_In, Hsub in Hx. apply list_elem_of_In, Hsub in Hy.
  clear Hsub Hl l. induction D as [|d D IH]; [destruct Hx|].
  cbn [map] in HD. apply NoDup_cons in HD as [Hd HD].
  destruct Hx as [->|Hx], Hy as [->|Hy].
  - reflexivity.
  - exfalso. apply Hd. rewrite Heq. apply list_elem_of_In, in_map, Hy.
  - exfalso. apply Hd. rewrite <- Heq. apply list_elem_of_In, in_map, Hx.
  - apply IH; assumption.
Qed.

(** The function requirements of a rule-based brief have pairwise
    different names. *)
Theorem brief_function_names_unique (user_prompt language platform : string) :
  NoDup (map fr_name
           (functions_needed
              (Orchestrator._analyze_with_rules user_prompt language platform))).
Proof.
  rewrite analysis_functions_needed. unfold Orchestrator._detect_functions.
  assert (Hnames_of : forall l,
            map fr_name (map (Orchestrator.function_for_task (Py.lower user_prompt)) l)
            = map (fun name => Orchestrator._task_to_function_name
                                 (Py.replace " " "_" (Py.lower name))
                                 Orchestrator.greeting_task)
                  (map task_name l)).
  { intros l. rewrite !map_map. apply map_ext. intros t. apply function_for_task_name. }
  rewrite Hnames_of. clear Hnames_of.
  destruct (brief_names_facts user_prompt language platform) as [Hnodup Hnames].
  apply (NoDup_map_inj_on _ detectable_names); [apply function_names_of_table | |].
  - intros name Hin. apply in_map_iff in Hin as (t & <- & Hin).
    apply filter_In in Hin as [Hin _].
    rewrite Forall_forall in Hnames. apply Hnames, list_elem_of_In, in_map, Hin.
  - apply NoDup_map_filter, Hnodup.
Qed.

(** ** Transitions lead to nodes of the flow *)

Lemma node_map_from_complete (l : list NodeDict) (i : nat) (m : gmap string nat)
    (k : string) :
  In k (map nd_node_id l) \/ is_Some (m !! k) ->
  is_Some (AgentCreator.node_map_from i l m !! k).
Proof.
  revert i m. induction l as [|n l IH]; intros i m H; cbn.
  - destruct H as [[]|H]. exact H.
  - apply IH. destruct H as [[Heq|H]|H].
    + right. rewrite <- Heq, lookup_insert_eq. eexists. reflexivity.
    + left. exact H.
    + right. destruct (decide (nd_node_id n = k)) as [<-|Hne].
      * rewrite lookup_insert_eq. eexists. reflexivity.
      * rewrite lookup_insert_ne by exact Hne. exact H.
Qed.

(** [nid in node_map] holds exactly for the ids of the nodes. *)
Lemma has_node_spec (nodes : list NodeDict) (nid : string) :
  AgentCreator.has_node (AgentCreator.node_map_of nodes) nid = true
  <-> In nid (map nd_node_id nodes).
Proof.
  unfold AgentCreator.has_node. split.
  - destruct (AgentCreator.node_map_of nodes !! nid) as [j|] eqn:Hj; [|discriminate].
    intros _. destruct (node_map_of_sound nodes nid j Hj) as (n & Hn & <-).
    apply in_map, list_elem_of_In. eapply list_elem_of_lookup_2, Hn.
  - intros Hin.
    destruct (node_map_from_complete nodes 0 ∅ nid (or_introl Hin)) as [j Hj].
    unfold AgentCreator.node_map_of. rewrite Hj. reflexivity.
Qed.

Section KnownTargets.

Variable node_map : gmap string nat.

Local Abbreviation known := (AgentCreator.has_node node_map).
Local Abbreviation ok := (Flow.targets_known (AgentCreator.has_node node_map)).

Hypothesis Hgreet : known "node_greet" = true.
Hypothesis Hconfirm : known "node_confirm" = true.
Hypothesis Htransfer : known "node_transfer" = true.
Hypothesis Hend : known "node_end" = true.

Lemma append_transition_known (nid : string) (t : TransitionDict) (store : list NodeDict) :
  known (tr_target_node_id t) = true -> ok store ->
  ok (AgentCreator.append_transition node_map nid t store).
Proof.
  intros Ht Hok. unfold AgentCreator.append_transition.
  destruct (node_map !! nid) as [i|]; [|exact Hok].
  apply Forall_alter; [exact Hok|].
  intros n _ Hn. cbn [AgentCreator.add_transition nd_transitions].
  apply Forall_app. split; [exact Hn|]. constructor; [exact Ht | constructor].
Qed.

Lemma wire_decision_known (nid : string) (store : list NodeDict) :
  ok store -> ok (AgentCreator.wire_decision node_map nid store).
Proof.
  intros Hok. unfold AgentCreator.wire_decision. cbv zeta.
  destruct (known ("node_success_" +:+ Py.replace "node_decision_" "" nid)) eqn:Hs;
    destruct (known ("node_failure_" +:+ Py.replace "node_decision_" "" nid)) eqn:Hf;
    repeat (apply append_transition_known; [assumption|]); exact Hok.
Qed.

Lemma next_or_confirm_known (next_nid : option string) :
  (forall n, next_nid = Some n -> known n = true) ->
  known (AgentCreator.next_or_confirm next_nid) = true.
Proof.
  intros H. unfold AgentCreator.next_or_confirm.
  destruct next_nid as [n|]; [|exact Hconfirm].
  destruct (Orchestrator.truthy n); [apply H; reflexivity | exact Hconfirm].
Qed.

Lemma wire_node_known (nid : string) (next_nid : option string) (store : list NodeDict) :
  (forall n, next_nid = Some n -> known n = true) ->
  ok store -> ok (AgentCreator.wire_node node_map nid next_nid store).
Proof.
  intros Hnext Hok. unfold AgentCreator.wire_node.
  destruct (AgentCreator.node_at node_map store nid) as [node|]; [|exact Hok].
  destruct (String.eqb (nd_type node) "collect_info").
  { apply append_transition_known; [apply next_or_confirm_known, Hnext | exact Hok]. }
  destruct (String.eqb (nd_type node) "api_call").
  { apply append_transition_known; [apply next_or_confirm_known, Hnext | exact Hok]. }
  destruct (String.eqb (nd_type node) "decision"); [|exact Hok].
  apply wire_decision_known, Hok.
Qed.

Lemma wire_group_known (group : list string) (store : list NodeDict) :
  Forall (fun nid => known nid = true) group ->
  ok store -> ok (AgentCreator.wire_group node_map group store).
Proof.
  revert store. induction group as [|nid rest IH]; intros store Hgroup Hok; [exact Hok|].
  cbn [AgentCreator.wire_group]. apply Forall_cons in Hgroup as [_ Hrest].
  apply IH; [exact Hrest|]. apply wire_node_known; [|exact Hok].
  intros n Hn. destruct rest as [|r rest]; [discriminate Hn|].
  cbn in Hn. injection Hn as <-. apply Forall_cons in Hrest as [Hr _]. exact Hr.
Qed.

Lemma task_group_known (task : Task) :
  Forall (fun nid => known nid = true) (AgentCreator.task_group node_map task).
Proof.
  unfold AgentCreator.task_group. apply Forall_app. split.
  - apply Forall_forall. intros nid Hin. apply list_elem_of_In, filter_In in Hin. tauto.
  - destruct (requires_api task); [|constructor].
    apply Forall_forall. intros nid Hin. apply list_elem_of_In, filter_In in Hin. tauto.
Qed.

Lemma wire_groups_known (tasks : list Task) (store : list NodeDict) :
  ok store ->
  ok (foldl (fun store group => AgentCreator.wire_group node_map group store) store
            (map (AgentCreator.task_group node_map) tasks)).
Proof.
  revert store. induction tasks as [|task tasks IH]; intros store Hok; [exact Hok|].
  cbn [map foldl]. apply IH, wire_group_known; [apply task_group_known | exact Hok].
Qed.

Lemma wire_greeting_known (tasks : list Task) (store : list NodeDict) :
  ok store ->
  ok (AgentCreator.wire_greeting node_map (map (AgentCreator.task_group node_map) tasks)
        store).
Proof.
  intros Hok. unfold AgentCreator.wire_greeting.
  destruct tasks as [|task tasks]; cbn [map].
  { apply append_transition_known; [exact Hconfirm | exact Hok]. }
  pose proof (task_group_known task) as Hgroup.
  destruct (AgentCreator.task_group node_map task) as [|first group].
  { apply append_transition_known; [exact Hconfirm | exact Hok]. }
  apply Forall_cons in Hgroup as [Hfirst _].
  apply append_transition_known; [exact Hfirst | exact Hok].
Qed.

Lemma wire_closing_known (store : list NodeDict) :
  ok store -> ok (AgentCreator.wire_closing node_map store).
Proof.
  intros Hok. unfold AgentCreator.wire_closing. cbv zeta.
  rewrite Hconfirm, Htransfer.
  destruct (known "node_fallback");
    repeat (apply append_transition_known; [assumption|]); exact Hok.
Qed.

End KnownTargets.

Lemma unwired_no_transitions (analysis : AnalysisBrief) :
  Forall (fun n => nd_transitions n = []) (AgentCreator.unwired_nodes analysis).
Proof.
  apply Forall_forall. intros n Hin. apply list_elem_of_In in Hin.
  unfold AgentCreator.unwired_nodes in Hin. destruct Hin as [<-|Hin]; [reflexivity|].
  apply in_app_or in Hin as [Hin|Hin].
  - apply in_concat in Hin as (group & Hgroup & Hin).
    apply in_map_iff in Hgroup as (task & <- & _).
    unfold AgentCreator.task_nodes in Hin. apply in_app_or in Hin as [Hin|Hin].
    + apply in_map_iff in Hin as (slot & <- & _). reflexivity.
    + destruct (requires_api task); [|contradiction].
      unfold AgentCreator.api_nodes in Hin.
      destruct Hin as [<-|[<-|[<-|[<-|[]]]]]; reflexivity.
  - unfold AgentCreator.closing_nodes in Hin.
    destruct Hin as [<-|[<-|[<-|[<-|[]]]]]; reflexivity.
Qed.

Lemma unwired_has_fixed (analysis : AnalysisBrief) (nid : string) :
  In nid ["node_greet"; "node_confirm"; "node_fallback"; "node_transfer"; "node_end"] ->
  In nid (map nd_node_id (AgentCreator.unwired_nodes analysis)).
Proof.
  intros Hin. unfold AgentCreator.unwired_nodes. cbn [map].
  destruct Hin as [<-|Hin]; [left; reflexivity|]. right.
  rewrite map_app. apply in_or_app. right. exact Hin.
Qed.

(** In the flow of every brief, each transition leads to the id of a node
    of the flow, and so does the entry id. *)
Theorem flow_targets_exist (analysis : AnalysisBrief) :
  Forall (fun n =>
            Forall (fun t => In (tr_target_node_id t)
                               (map nd_node_id (fl_nodes (AgentCreator._build_flow analysis))))
                   (nd_transitions n))
         (fl_nodes (AgentCreator._build_flow analysis))
  /\ In (fl_entry_node_id (AgentCreator._build_flow analysis))
        (map nd_node_id (fl_nodes (AgentCreator._build_flow analysis))).
Proof.
  assert (Hids : map nd_node_id (fl_nodes (AgentCreator._build_flow analysis))
                 = map nd_node_id (AgentCreator.unwired_nodes analysis)).
  { rewrite build_flow_nodes. apply wire_transitions_frame. reflexivity. }
  rewrite Hids. split; [|apply unwired_has_fixed; left; reflexivity].
  assert (Hfixed : forall nid,
            In nid ["node_greet"; "node_confirm"; "node_fallback"; "node_transfer";
                    "node_end"] ->
            AgentCreator.has_node
              (AgentCreator.node_map_of (AgentCreator.unwired_nodes analysis)) nid = true).
  { intros nid Hin. apply has_node_spec, unwired_has_fixed, Hin. }
  assert (Hok : Flow.targets_known
                  (AgentCreator.has_node
                     (AgentCreator.node_map_of (AgentCreator.unwired_nodes analysis)))
                  (fl_nodes (AgentCreator._build_flow analysis))).
  { rewrite build_flow_nodes. unfold AgentCreator._wire_transitions. cbv zeta.
    apply wire_closing_known; [apply Hfixed; cbn; tauto ..|].
    apply wire_groups_known; [apply Hfixed; cbn; tauto ..|].
    apply wire_greeting_known; [apply Hfixed; cbn; tauto ..|].
    eapply Forall_impl; [apply unwired_no_transitions|].
    intros n ->. constructor. }
  eapply Forall_impl; [exact Hok|]. intros n Hn. cbn beta in Hn.
  eapply Forall_impl; [exact Hn|]. intros t Ht. apply has_node_spec, Ht.
Qed.

(** ** Slots and function references of the nodes *)

Lemma unwired_fields (analysis : AnalysisBrief) (n : NodeDict) :
  In n (AgentCreator.unwired_nodes analysis) ->
  (nd_type n = "collect_info" <-> is_Some (nd_collect_slot n))
  /\ (is_Some (nd_function_call n) -> nd_type n = "api_call")
  /\ (nd_type n = "api_call" \/ nd_type n = "decision" ->
      exists task, In task (tasks analysis) /\ requires_api task = true).
Proof.
  assert (Hplain : forall m : NodeDict,
            nd_collect_slot m = None -> nd_function_call m = None ->
            nd_type m <> "collect_info" -> nd_type m <> "api_call" ->
            nd_type m <> "decision" ->
            (nd_type m = "collect_info" <-> is_Some (nd_collect_slot m))
            /\ (is_Some (nd_function_call m) -> nd_type m = "api_call")
            /\ (nd_type m = "api_call" \/ nd_type m = "decision" ->
                exists task, In task (tasks analysis) /\ requires_api task = true)).
  { intros m Hslot Hcall H1 H2 H3. rewrite Hslot, Hcall. split; [|split].
    - split; [contradiction | intros [x Hx]; discriminate Hx].
    - intros [x Hx]. discriminate Hx.
    - intros [H|H]; contradiction. }
  unfold AgentCreator.unwired_nodes.
  intros [<-|Hin]; [apply Hplain; first [reflexivity | discriminate]|].
  apply in_app_or in Hin as [Hin|Hin].
  - apply in_concat in Hin as (group & Hgroup & Hin).
    apply in_map_iff in Hgroup as (task & <- & Htask).
    unfold AgentCreator.task_nodes in Hin. apply in_app_or in Hin as [Hin|Hin].
    + apply in_map_iff in Hin as (slot & <- & _).
      unfold AgentCreator.collect_node.
      cbn [nd_type nd_collect_slot nd_function_call]. split; [|split].
      * split; [intros _; eexists; reflexivity | reflexivity].
      * intros [x Hx]. discriminate Hx.
      * intros [H|H]; discriminate H.
    + destruct (requires_api task) eqn:Hapi; [|contradiction].
      unfold AgentCreator.api_nodes in Hin.
      destruct Hin as [<-|[<-|[<-|[<-|[]]]]].
      * cbn [nd_type nd_collect_slot nd_function_call]. split; [|split].
        -- split; [discriminate | intros [x Hx]; discriminate Hx].
        -- reflexivity.
        -- intros _. exists task. split; assumption.
      * cbn [nd_type nd_collect_slot nd_function_call]. split; [|split].
        -- split; [discriminate | intros [x Hx]; discriminate Hx].
        -- intros [x Hx]. discriminate Hx.
        -- intros _. exists task. split; assumption.
      * apply Hplain; first [reflexivity | discriminate].
      * apply Hplain; first [reflexivity | discriminate].
  - unfold AgentCreator.closing_nodes in Hin.
    destruct Hin as [<-|[<-|[<-|[<-|[]]]]];
      apply Hplain; first [reflexivity | discriminate].
Qed.

(** Every node of the flow keeps the fields of the node it was created as. *)
Lemma wired_from_unwired (analysis : AnalysisBrief) (n : NodeDict) :
  In n (fl_nodes (AgentCreator._build_flow analysis)) ->
  exists n0, In n0 (AgentCreator.unwired_nodes analysis)
             /\ nd_node_id n0 = nd_node_id n /\ nd_type n0 = nd_type n
             /\ nd_collect_slot n0 = nd_collect_slot n
             /\ nd_function_call n0 = nd_function_call n.
Proof.
  rewrite build_flow_nodes. intros Hin.
  apply (in_map Flow.node_frame) in Hin.
  rewrite (wire_transitions_frame Flow.node_frame) in Hin by reflexivity.
  apply in_map_iff in Hin as (n0 & Hframe & Hin).
  exists n0. split; [exact Hin|].
  unfold Flow.node_frame in Hframe. repeat split; congruence.
Qed.

(** In the flow of every rule-based brief, a node has a slot to collect
    exactly when it is a collect_info node, and a function reference
    exactly when it is an api_call node. *)
Theorem node_fields_by_type (user_prompt language platform : string) :
  Forall (fun n =>
            (nd_type n = "collect_info" <-> is_Some (nd_collect_slot n))
            /\ (nd_type n = "api_call" <-> is_Some (nd_function_call n)))
         (fl_nodes (AgentCreator._build_flow
                      (Orchestrator._analyze_with_rules user_prompt language platform))).
Proof.
  apply Forall_forall. intros n Hin. apply list_elem_of_In in Hin.
  remember (Orchestrator._analyze_with_rules user_prompt language platform)
    as analysis eqn:Hanalysis.
  destruct (wired_from_unwired analysis n Hin) as (n0 & Hin0 & _ & Hty & Hslot & Hcall).
  destruct (unwired_fields analysis n0 Hin0) as (Hcollect & Hfn & _).
  rewrite Hty, Hslot in Hcollect. rewrite Hty, Hcall in Hfn.
  split; [exact Hcollect|]. split; [|exact Hfn].
  intros Hapi. rewrite <- Hty in Hapi. rewrite <- Hcall.
  destruct (unwired_api_node analysis n0 Hin0 Hapi) as (task & Htask & Hreq & ->).
  destruct (matching_fn_in_catalogue (functions_needed analysis)
              (Py.replace " " "_" (Py.lower (task_name task))) task)
    as (fn_name & -> & _); [|eexists; reflexivity].
  subst analysis. rewrite analysis_functions_needed.
  eapply detect_functions_nonempty; eassumption.
Qed.

(** ** A prompt without keywords *)

Lemma analysis_domain (user_prompt language platform : string) :
  domain (Orchestrator._analyze_with_rules user_prompt language platform)
  = Orchestrator._detect_domain (Py.lower user_prompt).
Proof.
  cbv beta iota zeta delta [Orchestrator._analyze_with_rules domain]. reflexivity.
Qed.

Lemma filter_none {A : Type} (p : A -> bool) (l : list A) :
  Forall (fun x => p x = false) l -> List.filter p l = [].
Proof.
  induction 1 as [|x l Hx _ IH]; [reflexivity|]. cbn [List.filter]. rewrite Hx. exact IH.
Qed.

(** When the prompt matches no domain keyword and no task keyword, the
    brief has the domain general_support and the tasks Greeting and General
    Inquiry, none of which requires an API; no function is needed or
    defined, and the flow has no api_call and no decision node. *)
Theorem no_keyword_prompt_gets_general_inquiry (user_prompt language platform : string) :
  Orchestrator._detect_domain (Py.lower user_prompt) = "general_support" ->
  Orchestrator.detected_patterns (Py.lower user_prompt) = [] ->
  domain (Orchestrator._analyze_with_rules user_prompt language platform)
  = "general_support"
  /\ map task_name (tasks (Orchestrator._analyze_with_rules user_prompt language platform))
     = ["Greeting"; "General Inquiry"]
  /\ Forall (fun t => requires_api t = false)
       (tasks (Orchestrator._analyze_with_rules user_prompt language platform))
  /\ FunctionCreator._create_with_rules
       (functions_needed (Orchestrator._analyze_with_rules user_prompt language platform))
     = []
  /\ Forall (fun n => nd_type n <> "api_call" /\ nd_type n <> "decision")
       (fl_nodes (AgentCreator._build_flow
                    (Orchestrator._analyze_with_rules user_prompt language platform))).
Proof.
  intros Hdomain Hpatterns.
  assert (Hdetect : Orchestrator._detect_tasks (Py.lower user_prompt) "general_support"
                    = [ Orchestrator.greeting_task;
                        mkTask None "General Inquiry" "Handle general customer inquiries"
                          ["customer_name"; "inquiry_details"] false "" ]).
  { rewrite detect_tasks_unfold, Hpatterns. reflexivity. }
  assert (Hapi : Forall (fun t => requires_api t = false)
                   (tasks (Orchestrator._analyze_with_rules user_prompt language platform))).
  { rewrite analysis_tasks, Hdomain, Hdetect.
    destruct (Orchestrator._extract_user_slots (Py.lower user_prompt)) as [|slot slots].
    - repeat constructor.
    - unfold Orchestrator._merge_user_slots_into_tasks.
      change (Orchestrator.primary_task _) with (Some 1%nat).
      cbn [alter list_alter]. constructor; [reflexivity|]. constructor; [|constructor].
      apply merge_slots_requires_api. }
  split; [rewrite analysis_domain; exact Hdomain|].
  split; [rewrite analysis_task_names, Hdomain, Hdetect; reflexivity|].
  split; [exact Hapi|].
  remember (Orchestrator._analyze_with_rules user_prompt language platform)
    as analysis eqn:Hanalysis.
  split.
  - subst analysis. rewrite analysis_functions_needed.
    unfold Orchestrator._detect_functions. rewrite (filter_none _ _ Hapi). reflexivity.
  - apply Forall_forall. intros n Hin. apply list_elem_of_In in Hin.
    destruct (wired_from_unwired analysis n Hin) as (n0 & Hin0 & _ & Hty & _).
    destruct (unwired_fields analysis n0 Hin0) as (_ & _ & Htask).
    rewrite Hty in Htask.
    assert (Hno : ~ (nd_type n = "api_call" \/ nd_type n = "decision")).
    { intros H. destruct (Htask H) as (task & Hin_task & Hreq).
      rewrite Forall_forall in Hapi. apply list_elem_of_In in Hin_task.
      rewrite (Hapi task Hin_task) in Hreq. discriminate Hreq. }
    tauto.
Qed.

Lemma no_keyword_prompt_witness :
  domain (Orchestrator._analyze_with_rules "a bot that says hi to everyone" "en-US" "voiceowl")
  = "general_support"
  /\ map task_name
       (tasks (Orchestrator._analyze_with_rules "a bot that says hi to everyone"
                 "en-US" "voiceowl"))
     = ["Greeting"; "General Inquiry"].
Proof.
  destruct (no_keyword_prompt_gets_general_inquiry
              "a bot that says hi to everyone" "en-US" "voiceowl")
    as (Hdomain & Hnames & _).
  - vm_compute. reflexivity.
  - vm_compute. reflexivity.
  - split; [exact Hdomain | exact Hnames].
Defined.

(** ** Which nodes the wiring reaches *)

Lemma lookup_map_eq {A B : Type} (f : A -> B) (l l' : list A) (i : nat) (x : A) :
  map f l = map f l' -> l !! i = Some x -> exists y, l' !! i = Some y /\ f y = f x.
Proof.
  intros Hmap Hx. apply (f_equal (fun k => k !! i)) in Hmap. cbv beta in Hmap.
  change (map f l) with (f <$> l) in Hmap. change (map f l') with (f <$> l') in Hmap.
  rewrite !list_lookup_fmap, Hx in Hmap.
  destruct (l' !! i) as [y|]; [|discriminate Hmap].
  exists y. split; [reflexivity|]. cbn in Hmap. congruence.
Qed.

(** *** [node_map] keeps the last node of an id *)

Lemma node_map_from_ge (l : list NodeDict) (s : nat) (m : gmap string nat)
    (k : string) (p : nat) :
  In k (map nd_node_id l) ->
  AgentCreator.node_map_from s l m !! k = Some p -> (s <= p)%nat.
Proof.
  revert s m. induction l as [|x l IH]; intros s m Hin Hp; [destruct Hin|].
  cbn [AgentCreator.node_map_from] in Hp.
  destruct (decide (k ∈ map nd_node_id l)) as [Hl|Hl].
  - apply list_elem_of_In in Hl. apply (IH _ _ Hl) in Hp. lia.
  - rewrite node_map_from_other in Hp by (intros H; apply Hl, list_elem_of_In, H).
    destruct Hin as [Heq|Hin]; [|exfalso; apply Hl, list_elem_of_In, Hin].
    rewrite <- Heq, lookup_insert_eq in Hp. injection Hp as <-. lia.
Qed.

(** A position whose id comes again later is not the one [node_map] keeps. *)
Lemma node_map_last (nodes : list NodeDict) (i j : nat) (n m : NodeDict) :
  (i < j)%nat -> nodes !! i = Some n -> nodes !! j = Some m ->
  nd_node_id n = nd_node_id m ->
  AgentCreator.node_map_of nodes !! nd_node_id n <> Some i.
Proof.
  intros Hij Hi Hj Hid Hmap.
  rewrite <- (take_drop (S i) nodes) in Hmap.
  unfold AgentCreator.node_map_of in Hmap. rewrite node_map_from_app in Hmap.
  apply node_map_from_ge in Hmap.
  - apply lookup_lt_Some in Hi. rewrite length_take in Hmap. lia.
  - rewrite Hid. apply in_map, list_elem_of_In.
    apply (list_elem_of_lookup_2 _ (j - S i)). rewrite lookup_drop.
    replace (S i + (j - S i))%nat with j by lia. exact Hj.
Qed.

(** *** A position [node_map] does not point at is never written *)

Section Untouched.

Variable node_map : gmap string nat.
Variable i : nat.
Hypothesis Hfree : forall nid, node_map !! nid <> Some i.

Lemma append_transition_untouched (nid : string) (t : TransitionDict)
    (store : list NodeDict) :
  AgentCreator.append_transition node_map nid t store !! i = store !! i.
Proof.
  unfold AgentCreator.append_transition.
  destruct (node_map !! nid) as [j|] eqn:Hj; [|reflexivity].
  apply list_lookup_alter_ne. intros ->. exact (Hfree nid Hj).
Qed.

Lemma wire_decision_untouched (nid : string) (store : list NodeDict) :
  AgentCreator.wire_decision node_map nid store !! i = store !! i.
Proof.
  unfold AgentCreator.wire_decision.
  repeat match goal with
         | |- context [if ?b then _ else _] => destruct b
         end;
    rewrite ?append_transition_untouched; reflexivity.
Qed.

Lemma wire_node_untouched (nid : string) (next_nid : option string)
    (store : list NodeDict) :
  AgentCreator.wire_node node_map nid next_nid store !! i = store !! i.
Proof.
  unfold AgentCreator.wire_node.
  destruct (AgentCreator.node_at node_map store nid) as [node|]; [|reflexivity].
  repeat match goal with
         | |- context [if ?b then _ else _] => destruct b
         end;
    rewrite ?append_transition_untouched, ?wire_decision_untouched; reflexivity.
Qed.

Lemma wire_group_untouched (group : list string) (store : list NodeDict) :
  AgentCreator.wire_group node_map group store !! i = store !! i.
Proof.
  revert store. induction group as [|nid rest IH]; intros store; [reflexivity|].
  cbn [AgentCreator.wire_group]. rewrite IH. apply wire_node_untouched.
Qed.

Lemma wire_groups_untouched (groups : list (list string)) (store : list NodeDict) :
  foldl (fun store group => AgentCreator.wire_group node_map group store) store groups !! i
  = store !! i.
Proof.
  revert store. induction groups as [|group groups IH]; intros store; [reflexivity|].
  cbn [foldl]. rewrite IH. apply wire_group_untouched.
Qed.

Lemma wire_greeting_untouched (groups : list (list string)) (store : list NodeDict) :
  AgentCreator.wire_greeting node_map groups store !! i = store !! i.
Proof.
  unfold AgentCreator.wire_greeting.
  destruct groups as [|[|first group] groups]; apply append_transition_untouched.
Qed.

Lemma wire_closing_untouched (store : list NodeDict) :
  AgentCreator.wire_closing node_map store !! i = store !! i.
Proof.
  unfold AgentCreator.wire_closing.
  repeat match goal with
         | |- context [if ?b then _ else _] => destruct b
         end;
    rewrite ?append_transition_untouched; reflexivity.
Qed.

End Untouched.

(** A node whose id is carried again by a later node of the flow has no
    transition: [node_map] keeps the later node, and every transition is
    appended through [node_map]. *)
Theorem shadowed_node_stays_unwired (analysis : AnalysisBrief) (i j : nat)
    (n m : NodeDict) :
  (i < j)%nat ->
  fl_nodes (AgentCreator._build_flow analysis) !! i = Some n ->
  fl_nodes (AgentCreator._build_flow analysis) !! j = Some m ->
  nd_node_id n = nd_node_id m ->
  nd_transitions n = [].
Proof.
  intros Hij Hi Hj Hid. rewrite build_flow_nodes in Hi, Hj.
  pose proof (wire_transitions_frame nd_node_id (fun _ _ => eq_refl)
                (AgentCreator.unwired_nodes analysis) (tasks analysis)
                (functions_needed analysis)) as Hids.
  destruct (lookup_map_eq _ _ _ i n Hids Hi) as (n0 & Hn0 & Hid0).
  destruct (lookup_map_eq _ _ _ j m Hids Hj) as (m0 & Hm0 & Hidm).
  assert (Hfree : forall nid,
            AgentCreator.node_map_of (AgentCreator.unwired_nodes analysis) !! nid
            <> Some i).
  { intros nid Hnid.
    destruct (node_map_of_sound _ nid i Hnid) as (n1 & Hn1 & <-).
    rewrite Hn0 in Hn1. injection Hn1 as <-.
    apply (node_map_last _ i j n0 m0 Hij Hn0 Hm0); [congruence | exact Hnid]. }
  unfold AgentCreator._wire_transitions in Hi. cbv zeta in Hi.
  rewrite (wire_closing_untouched _ i Hfree), (wire_groups_untouched _ i Hfree),
    (wire_greeting_untouched _ i Hfree), Hn0 in Hi.
  injection Hi as <-.
  pose proof (unwired_no_transitions analysis) as Hnone.
  rewrite Forall_forall in Hnone. apply Hnone.
  eapply list_elem_of_lookup_2, Hn0.
Qed.

Lemma shadowed_node_witness :
  exists n,
    fl_nodes (AgentCreator._build_flow example_brief) !! 1%nat = Some n
    /\ nd_node_id n = "node_collect_customer_name"
    /\ nd_transitions n = [].
Proof.
  destruct (fl_nodes (AgentCreator._build_flow example_brief) !! 1%nat) as [n|] eqn:Hn;
    [|vm_compute in Hn; discriminate Hn].
  destruct (fl_nodes (AgentCreator._build_flow example_brief) !! 2%nat) as [m|] eqn:Hm;
    [|vm_compute in Hm; discriminate Hm].
  assert (Hid : nd_node_id n = "node_collect_customer_name"
                /\ nd_node_id m = "node_collect_customer_name").
  { vm_compute in Hn, Hm. injection Hn as <-. injection Hm as <-. split; reflexivity. }
  exists n. split; [reflexivity|]. split; [apply Hid|].
  apply (shadowed_node_stays_unwired example_brief 1 2 n m);
    [lia | exact Hn | exact Hm | destruct Hid; congruence].
Defined.

(** *** With pairwise different ids every node but the end node is wired *)

Lemma node_map_of_nodup (nodes : list NodeDict) (i : nat) (n : NodeDict) :
  NoDup (map nd_node_id nodes) -> nodes !! i = Some n ->
  AgentCreator.node_map_of nodes !! nd_node_id n = Some i.
Proof.
  intros Hnodup Hi.
  rewrite <- (take_drop_middle nodes i n Hi) in Hnodup |- *.
  rewrite map_app in Hnodup. cbn [map] in Hnodup.
  apply NoDup_app in Hnodup as (_ & _ & Hnodup). apply NoDup_cons in Hnodup as [Hnot _].
  rewrite node_map_of_unique by (intros H; apply Hnot, list_elem_of_In, H).
  rewrite length_take. apply lookup_lt_Some in Hi. f_equal. lia.
Qed.

Lemma add_transition_wired (t : TransitionDict) (n : NodeDict) :
  nd_transitions (AgentCreator.add_transition t n) <> [].
Proof. cbn. destruct (nd_transitions n); discriminate. Qed.

(** Transitions are only ever added. *)
Section Monotone.

Variable node_map : gmap string nat.

Lemma append_transition_mono (nid : string) (t : TransitionDict) (store : list NodeDict)
    (i : nat) :
  Flow.wired_at store i ->
  Flow.wired_at (AgentCreator.append_transition node_map nid t store) i.
Proof.
  intros (n & Hn & Hout). unfold AgentCreator.append_transition.
  destruct (node_map !! nid) as [j|]; [|exists n; split; assumption].
  destruct (decide (j = i)) as [->|Hne].
  - exists (AgentCreator.add_transition t n).
    rewrite list_lookup_alter_eq, Hn. split; [reflexivity | apply add_transition_wired].
  - exists n. rewrite list_lookup_alter_ne by exact Hne. split; assumption.
Qed.

Lemma append_transition_hit (nid : string) (t : TransitionDict) (store : list NodeDict)
    (i : nat) :
  node_map !! nid = Some i -> is_Some (store !! i) ->
  Flow.wired_at (AgentCreator.append_transition node_map nid t store) i.
Proof.
  intros Hnid [n Hn]. unfold AgentCreator.append_transition. rewrite Hnid.
  exists (AgentCreator.add_transition t n).
  rewrite list_lookup_alter_eq, Hn. split; [reflexivity | apply add_transition_wired].
Qed.

Lemma wire_decision_mono (nid : string) (store : list NodeDict) (i : nat) :
  Flow.wired_at store i -> Flow.wired_at (AgentCreator.wire_decision node_map nid store) i.
Proof.
  intros H. unfold AgentCreator.wire_decision.
  repeat match goal with
         | |- context [if ?b then _ else _] => destruct b
         end;
    repeat apply append_transition_mono; exact H.
Qed.

Lemma wire_node_mono (nid : string) (next_nid : option string) (store : list NodeDict)
    (i : nat) :
  Flow.wired_at store i ->
  Flow.wired_at (AgentCreator.wire_node node_map nid next_nid store) i.
Proof.
  intros H. unfold AgentCreator.wire_node.
  destruct (AgentCreator.node_at node_map store nid) as [node|]; [|exact H].
  repeat match goal with
         | |- context [if ?b then _ else _] => destruct b
         end;
    first [ apply append_transition_mono, H | apply wire_decision_mono, H | exact H ].
Qed.

Lemma wire_group_mono (group : list string) (store : list NodeDict) (i : nat) :
  Flow.wired_at store i -> Flow.wired_at (AgentCreator.wire_group node_map group store) i.
Proof.
  revert store. induction group as [|nid rest IH]; intros store H; [exact H|].
  cbn [AgentCreator.wire_group]. apply IH, wire_node_mono, H.
Qed.

Lemma wire_groups_mono (groups : list (list string)) (store : list NodeDict) (i : nat) :
  Flow.wired_at store i ->
  Flow.wired_at
    (foldl (fun store group => AgentCreator.wire_group node_map group store) store groups) i.
Proof.
  revert store. induction groups as [|group groups IH]; intros store H; [exact H|].
  cbn [foldl]. apply IH, wire_group_mono, H.
Qed.

Lemma wire_closing_mono (store : list NodeDict) (i : nat) :
  Flow.wired_at store i -> Flow.wired_at (AgentCreator.wire_closing node_map store) i.
Proof.
  intros H. unfold AgentCreator.wire_closing.
  repeat match goal with
         | |- context [if ?b then _ else _] => destruct b
         end;
    repeat apply append_transition_mono; exact H.
Qed.

End Monotone.

Section DistinctIds.

Variable nodes : list NodeDict.
Hypothesis Hnodup : NoDup (map nd_node_id nodes).

Local Abbreviation node_map := (AgentCreator.node_map_of nodes).
Local Abbreviation same_types store := (map nd_type store = map nd_type nodes).

Lemma same_types_lookup (store : list NodeDict) (i : nat) (n0 : NodeDict) :
  same_types store -> nodes !! i = Some n0 ->
  exists node, store !! i = Some node /\ nd_type node = nd_type n0.
Proof.
  intros Hty Hi. symmetry in Hty. exact (lookup_map_eq nd_type _ _ i n0 Hty Hi).
Qed.

Lemma node_at_nodup (store : list NodeDict) (i : nat) (n0 : NodeDict) :
  same_types store -> nodes !! i = Some n0 ->
  exists node, AgentCreator.node_at node_map store (nd_node_id n0) = Some node
               /\ store !! i = Some node /\ nd_type node = nd_type n0.
Proof.
  intros Hty Hi. destruct (same_types_lookup store i n0 Hty Hi) as (node & Hnode & Htype).
  exists node. unfold AgentCreator.node_at.
  rewrite (node_map_of_nodup nodes i n0 Hnodup Hi). cbn. rewrite Hnode. auto.
Qed.

Lemma wire_node_types (nid : string) (next_nid : option string) (store : list NodeDict) :
  same_types store -> same_types (AgentCreator.wire_node node_map nid next_nid store).
Proof. intros H. rewrite (wire_node_frame nd_type); [exact H | reflexivity]. Qed.

Lemma wire_group_types (group : list string) (store : list NodeDict) :
  same_types store -> same_types (AgentCreator.wire_group node_map group store).
Proof. intros H. rewrite (wire_group_frame nd_type); [exact H | reflexivity]. Qed.

(** A collect_info or api_call node is wired when its id is processed. *)
Lemma wire_node_chained (i : nat) (n0 : NodeDict) (next_nid : option string)
    (store : list NodeDict) :
  nodes !! i = Some n0 ->
  nd_type n0 = "collect_info" \/ nd_type n0 = "api_call" ->
  same_types store ->
  Flow.wired_at (AgentCreator.wire_node node_map (nd_node_id n0) next_nid store) i.
Proof.
  intros Hi Hkind Hty.
  destruct (node_at_nodup store i n0 Hty Hi) as (node & Hat & Hnode & Htype).
  unfold AgentCreator.wire_node. rewrite Hat, Htype.
  destruct Hkind as [-> | ->]; cbn [String.eqb Ascii.eqb Bool.eqb];
    (apply append_transition_hit;
     [apply (node_map_of_nodup nodes i n0 Hnodup Hi) | rewrite Hnode; eexists; reflexivity]).
Qed.

(** A decision node is wired when its id is processed, together with the
    success or failure node of its task. *)
Lemma wire_node_decision (i j : nat) (n0 s0 : NodeDict) (next_nid : option string)
    (store : list NodeDict) :
  nodes !! i = Some n0 -> nd_type n0 = "decision" ->
  nodes !! j = Some s0 ->
  nd_node_id s0 = "node_success_" +:+ Py.replace "node_decision_" "" (nd_node_id n0)
  \/ nd_node_id s0 = "node_failure_" +:+ Py.replace "node_decision_" "" (nd_node_id n0) ->
  same_types store ->
  Flow.wired_at (AgentCreator.wire_node node_map (nd_node_id n0) next_nid store) i
  /\ Flow.wired_at (AgentCreator.wire_node node_map (nd_node_id n0) next_nid store) j.
Proof.
  intros Hi Hdec Hj Hid Hty.
  destruct (node_at_nodup store i n0 Hty Hi) as (node & Hat & Hnode & Htype).
  destruct (same_types_lookup store j s0 Hty Hj) as (snode & Hsnode & _).
  pose proof (node_map_of_nodup nodes i n0 Hnodup Hi) as Hmi.
  pose proof (node_map_of_nodup nodes j s0 Hnodup Hj) as Hmj.
  unfold AgentCreator.wire_node. rewrite Hat, Htype, Hdec.
  cbn [String.eqb Ascii.eqb Bool.eqb].
  unfold AgentCreator.wire_decision. cbv zeta.
  remember (Py.replace "node_decision_" "" (nd_node_id n0)) as tn eqn:Htn.
  destruct Hid as [Hid|Hid]; rewrite Hid in Hmj.
  - assert (Hhas : AgentCreator.has_node node_map ("node_success_" +:+ tn) = true)
      by (unfold AgentCreator.has_node; rewrite Hmj; reflexivity).
    rewrite Hhas.
    assert (Hboth :
      Flow.wired_at
        (AgentCreator.append_transition node_map ("node_success_" +:+ tn)
           (mkTransition "continue" "node_confirm")
           (AgentCreator.append_transition node_map (nd_node_id n0)
              (mkTransition "success" ("node_success_" +:+ tn)) store)) i
      /\ Flow.wired_at
        (AgentCreator.append_transition node_map ("node_success_" +:+ tn)
           (mkTransition "continue" "node_confirm")
           (AgentCreator.append_transition node_map (nd_node_id n0)
              (mkTransition "success" ("node_success_" +:+ tn)) store)) j).
    { split.
      - apply append_transition_mono, append_transition_hit;
          [exact Hmi | rewrite Hnode; eexists; reflexivity].
      - apply append_transition_hit; [exact Hmj|].
        unfold AgentCreator.append_transition. rewrite Hmi.
        destruct (decide (i = j)) as [->|Hne].
        + rewrite list_lookup_alter_eq, Hsnode. eexists; reflexivity.
        + rewrite list_lookup_alter_ne by exact Hne. rewrite Hsnode. eexists; reflexivity. }
    destruct (AgentCreator.has_node node_map ("node_failure_" +:+ tn)).
    + split; do 3 apply append_transition_mono; apply Hboth.
    + exact Hboth.
  - assert (Hhas : AgentCreator.has_node node_map ("node_failure_" +:+ tn) = true)
      by (unfold AgentCreator.has_node; rewrite Hmj; reflexivity).
    rewrite Hhas.
    set (store1 := if AgentCreator.has_node node_map ("node_success_" +:+ tn)
                   then _ else store).
    assert (Hlen : forall k, is_Some (store !! k) -> is_Some (store1 !! k)).
    { intros k Hk. subst store1.
      destruct (AgentCreator.has_node node_map ("node_success_" +:+ tn)); [|exact Hk].
      apply lookup_lt_is_Some. apply lookup_lt_is_Some in Hk.
      assert (Hl : forall nid t st, length (AgentCreator.append_transition node_map nid t st)
                                    = length st).
      { intros nid t st. unfold AgentCreator.append_transition.
        destruct (node_map !! nid); [apply length_alter | reflexivity]. }
      rewrite !Hl. exact Hk. }
    split.
    + do 2 apply append_transition_mono. apply append_transition_hit; [exact Hmi|].
      apply Hlen. rewrite Hnode. eexists; reflexivity.
    + apply append_transition_mono. apply append_transition_hit; [exact Hmj|].
      unfold AgentCreator.append_transition at 1. rewrite Hmi.
      apply lookup_lt_is_Some. rewrite length_alter. apply lookup_lt_is_Some.
      apply Hlen. rewrite Hsnode. eexists; reflexivity.
Qed.

(** What one step of the chaining loop achieves for an id is achieved by
    the loop over a group that holds the id, and by the loop over groups. *)
Lemma wire_group_via (nid : string) (k : nat) (group : list string)
    (store : list NodeDict) :
  (forall next_nid store, same_types store ->
     Flow.wired_at (AgentCreator.wire_node node_map nid next_nid store) k) ->
  In nid group -> same_types store ->
  Flow.wired_at (AgentCreator.wire_group node_map group store) k.
Proof.
  intros Hstep. revert store. induction group as [|x rest IH]; intros store Hin Hty;
    [destruct Hin|].
  cbn [AgentCreator.wire_group]. destruct Hin as [->|Hin].
  - apply wire_group_mono, Hstep, Hty.
  - apply IH; [exact Hin | apply wire_node_types, Hty].
Qed.

Lemma wire_groups_via (nid : string) (k : nat) (groups : list (list string))
    (group : list string) (store : list NodeDict) :
  (forall next_nid store, same_types store ->
     Flow.wired_at (AgentCreator.wire_node node_map nid next_nid store) k) ->
  In group groups -> In nid group -> same_types store ->
  Flow.wired_at
    (foldl (fun store group => AgentCreator.wire_group node_map group store) store groups) k.
Proof.
  intros Hstep. revert store. induction groups as [|g groups IH];
    intros store Hgroup Hin Hty; [destruct Hgroup|].
  cbn [foldl]. destruct Hgroup as [->|Hgroup].
  - apply wire_groups_mono, (wire_group_via nid); assumption.
  - apply IH; [exact Hgroup | exact Hin | apply wire_group_types, Hty].
Qed.

End DistinctIds.

Lemma task_nodes_unwired (analysis : AnalysisBrief) (task : Task) (n : NodeDict) :
  In task (tasks analysis) -> In n (AgentCreator.task_nodes analysis task) ->
  In n (AgentCreator.unwired_nodes analysis).
Proof.
  intros Htask Hn. unfold AgentCreator.unwired_nodes. right. apply in_or_app. left.
  apply in_concat. exists (AgentCreator.task_nodes analysis task).
  split; [apply in_map, Htask | exact Hn].
Qed.

Lemma unwired_kinds (analysis : AnalysisBrief) (n : NodeDict) :
  In n (AgentCreator.unwired_nodes analysis) ->
  n = AgentCreator.greeting_node analysis
  \/ (exists task, In task (tasks analysis)
                   /\ In n (AgentCreator.task_nodes analysis task))
  \/ In n AgentCreator.closing_nodes.
Proof.
  unfold AgentCreator.unwired_nodes. intros [<-|Hin]; [left; reflexivity|]. right.
  apply in_app_or in Hin as [Hin|Hin]; [left | right; exact Hin].
  apply in_concat in Hin as (group & Hgroup & Hin).
  apply in_map_iff in Hgroup as (task & <- & Htask). exists task. split; assumption.
Qed.

Section NoDeadEnd.

Variable analysis : AnalysisBrief.

Local Abbreviation unwired := (AgentCreator.unwired_nodes analysis).
Local Abbreviation node_map := (AgentCreator.node_map_of (AgentCreator.unwired_nodes analysis)).
Local Abbreviation groups :=
  (map (AgentCreator.task_group
          (AgentCreator.node_map_of (AgentCreator.unwired_nodes analysis)))
       (tasks analysis)).
Local Abbreviation greeted :=
  (AgentCreator.wire_greeting
     (AgentCreator.node_map_of (AgentCreator.unwired_nodes analysis))
     (map (AgentCreator.task_group
             (AgentCreator.node_map_of (AgentCreator.unwired_nodes analysis)))
          (tasks analysis))
     (AgentCreator.unwired_nodes analysis)).
Local Abbreviation chained :=
  (foldl (fun store group =>
            AgentCreator.wire_group
              (AgentCreator.node_map_of (AgentCreator.unwired_nodes analysis)) group store)
         greeted groups).
Local Abbreviation wired :=
  (AgentCreator._wire_transitions (AgentCreator.unwired_nodes analysis)
     (tasks analysis) (functions_needed analysis)).
Local Abbreviation task_id task := (Py.replace " " "_" (Py.lower (task_name task))).

Hypothesis Hnodup : NoDup (map nd_node_id unwired).
Hypothesis Hreplace :
  forall task, In task (tasks analysis) -> requires_api task = true ->
    Py.replace "node_decision_" "" ("node_decision_" +:+ task_id task) = task_id task.

Lemma wired_stages : wired = AgentCreator.wire_closing node_map chained.
Proof. reflexivity. Qed.

Lemma greeted_types : map nd_type greeted = map nd_type unwired.
Proof.
  unfold AgentCreator.wire_greeting.
  destruct groups as [|[|first group] rest];
    apply (append_transition_frame nd_type); reflexivity.
Qed.

Lemma chained_types : map nd_type chained = map nd_type unwired.
Proof. rewrite (wire_groups_frame nd_type) by reflexivity. apply greeted_types. Qed.

Lemma has_unwired (n : NodeDict) :
  In n unwired -> AgentCreator.has_node node_map (nd_node_id n) = true.
Proof. intros Hin. apply has_node_spec, in_map, Hin. Qed.

(** The greeting node. *)
Lemma greeting_wired (i : nat) (n0 : NodeDict) :
  unwired !! i = Some n0 -> nd_node_id n0 = "node_greet" -> Flow.wired_at wired i.
Proof.
  intros Hi Hid. rewrite wired_stages.
  apply wire_closing_mono, wire_groups_mono.
  pose proof (node_map_of_nodup unwired i n0 Hnodup Hi) as Hmap. rewrite Hid in Hmap.
  unfold AgentCreator.wire_greeting.
  destruct groups as [|[|first group] rest];
    (apply append_transition_hit; [exact Hmap | rewrite Hi; eexists; reflexivity]).
Qed.

(** The confirm, fallback and transfer nodes. *)
Lemma closing_wired (i : nat) (n0 : NodeDict) :
  unwired !! i = Some n0 ->
  nd_node_id n0 = "node_confirm" \/ nd_node_id n0 = "node_fallback"
  \/ nd_node_id n0 = "node_transfer" ->
  Flow.wired_at wired i.
Proof.
  intros Hi Hid. rewrite wired_stages.
  pose proof (node_map_of_nodup unwired i n0 Hnodup Hi) as Hmap.
  assert (Hhas : AgentCreator.has_node node_map (nd_node_id n0) = true)
    by (unfold AgentCreator.has_node; rewrite Hmap; reflexivity).
  assert (Hsome : is_Some (chained !! i)).
  { destruct (same_types_lookup unwired chained i n0 chained_types Hi) as (node & -> & _).
    eexists; reflexivity. }
  unfold AgentCreator.wire_closing. cbv zeta.
  destruct Hid as [Hid|[Hid|Hid]]; rewrite Hid in Hmap, Hhas; rewrite Hhas.
  - assert (Hconfirm :
      Flow.wired_at
        (AgentCreator.append_transition node_map "node_confirm"
           (mkTransition "has_more_questions" "node_greet")
           (AgentCreator.append_transition node_map "node_confirm"
              (mkTransition "nothing_else" "node_end") chained)) i)
      by (apply append_transition_mono, append_transition_hit; assumption).
    destruct (AgentCreator.has_node node_map "node_fallback");
      destruct (AgentCreator.has_node node_map "node_transfer");
      first [ exact Hconfirm
            | apply append_transition_mono; exact Hconfirm
            | do 2 apply append_transition_mono; exact Hconfirm ].
  - set (store1 := if AgentCreator.has_node node_map "node_confirm" then _ else chained).
    assert (Hsome1 : is_Some (store1 !! i)).
    { subst store1. destruct (AgentCreator.has_node node_map "node_confirm"); [|exact Hsome].
      apply lookup_lt_is_Some.
      assert (Hlen : length (AgentCreator.append_transition node_map "node_confirm"
                               (mkTransition "has_more_questions" "node_greet")
                               (AgentCreator.append_transition node_map "node_confirm"
                                  (mkTransition "nothing_else" "node_end") chained))
                     = length chained).
      { rewrite <- (length_map nd_type), !(append_transition_frame nd_type), length_map
          by reflexivity. reflexivity. }
      rewrite Hlen. apply lookup_lt_is_Some, Hsome. }
    destruct (AgentCreator.has_node node_map "node_transfer");
      [apply append_transition_mono|]; apply append_transition_hit; assumption.
  - apply append_transition_hit; [exact Hmap|].
    apply lookup_lt_is_Some.
    match goal with
    | |- (_ < length ?s)%nat =>
        assert (Hlen : length s = length chained)
    end.
    { destruct (AgentCreator.has_node node_map "node_confirm");
        destruct (AgentCreator.has_node node_map "node_fallback");
        rewrite <- (length_map nd_type), ?(append_transition_frame nd_type), ?length_map
          by reflexivity; reflexivity. }
    rewrite Hlen. apply lookup_lt_is_Some, Hsome.
Qed.

(** The nodes created for a task. *)
Lemma chained_via (nid : string) (k : nat) (task : Task) :
  (forall next_nid store, map nd_type store = map nd_type unwired ->
     Flow.wired_at (AgentCreator.wire_node node_map nid next_nid store) k) ->
  In task (tasks analysis) -> In nid (AgentCreator.task_group node_map task) ->
  Flow.wired_at wired k.
Proof.
  intros Hstep Htask Hin. rewrite wired_stages. apply wire_closing_mono.
  apply (wire_groups_via unwired nid k groups (AgentCreator.task_group node_map task));
    [exact Hstep | apply in_map, Htask | exact Hin | apply greeted_types].
Qed.

Lemma task_node_wired (i : nat) (n0 : NodeDict) (task : Task) :
  unwired !! i = Some n0 -> In task (tasks analysis) ->
  In n0 (AgentCreator.task_nodes analysis task) ->
  Flow.wired_at wired i.
Proof.
  intros Hi Htask Hin.
  assert (Hunwired : In n0 unwired) by (eapply task_nodes_unwired; eassumption).
  pose proof (has_unwired n0 Hunwired) as Hhas.
  unfold AgentCreator.task_nodes in Hin. apply in_app_or in Hin as [Hin|Hin].
  - (* a collect_info node *)
    apply in_map_iff in Hin as (slot & Hn0 & Hslot).
    apply (chained_via (nd_node_id n0) i task); [| exact Htask |].
    + intros next_nid store Hty.
      apply (wire_node_chained unwired Hnodup i n0 next_nid store Hi); [|exact Hty].
      left. rewrite <- Hn0. reflexivity.
    + unfold AgentCreator.task_group. apply in_or_app. left.
      apply filter_In. split; [|exact Hhas].
      apply in_map_iff. exists slot. split; [|exact Hslot]. rewrite <- Hn0. reflexivity.
  - destruct (requires_api task) eqn:Hapi; [|contradiction].
    pose proof (Hreplace task Htask Hapi) as Hrep.
    assert (Hnodes : forall n, In n (AgentCreator.api_nodes (functions_needed analysis)
                                       (task_id task) task) -> In n unwired).
    { intros n Hn. apply (task_nodes_unwired analysis task n Htask).
      unfold AgentCreator.task_nodes. apply in_or_app. right. rewrite Hapi. exact Hn. }
    assert (Hgroup : forall n, In n unwired ->
              nd_node_id n = "node_api_" +:+ task_id task
              \/ nd_node_id n = "node_decision_" +:+ task_id task ->
              In (nd_node_id n) (AgentCreator.task_group node_map task)).
    { intros n Hn Hid. unfold AgentCreator.task_group. apply in_or_app. right.
      rewrite Hapi. apply filter_In. split; [|apply has_unwired, Hn].
      destruct Hid as [-> | ->]; cbn; tauto. }
    unfold AgentCreator.api_nodes in Hin, Hnodes. cbv zeta in Hin, Hnodes.
    match type of Hin with
    | In n0 [?a; ?d; ?s; ?f] =>
        pose proof (Hnodes d (or_intror (or_introl eq_refl))) as Hdec;
        pose proof (Hnodes s (or_intror (or_intror (or_introl eq_refl)))) as Hsucc;
        remember d as dnode eqn:Hd; remember s as snode eqn:Hs;
        remember a as anode eqn:Ha; remember f as fnode eqn:Hf
    end.
    apply list_elem_of_In, list_elem_of_lookup_1 in Hdec as [di Hdi].
    apply list_elem_of_In, list_elem_of_lookup_1 in Hsucc as [si Hsi].
    assert (Hdid : nd_node_id dnode = "node_decision_" +:+ task_id task)
      by (rewrite Hd; reflexivity).
    assert (Hdty : nd_type dnode = "decision") by (rewrite Hd; reflexivity).
    assert (Hdin : In (nd_node_id dnode) (AgentCreator.task_group node_map task)).
    { apply Hgroup; [|right; exact Hdid].
      apply list_elem_of_In. eapply list_elem_of_lookup_2, Hdi. }
    destruct Hin as [Hn0|[Hn0|[Hn0|[Hn0|[]]]]].
    + (* the api_call node *)
      apply (chained_via (nd_node_id n0) i task); [| exact Htask |].
      * intros next_nid store Hty.
        apply (wire_node_chained unwired Hnodup i n0 next_nid store Hi); [|exact Hty].
        right. rewrite <- Hn0, Ha. reflexivity.
      * apply Hgroup; [exact Hunwired|]. left. rewrite <- Hn0, Ha. reflexivity.
    + (* the decision node, wired with its success node *)
      subst n0. assert (i = di) as -> by (eapply NoDup_lookup;
        [exact Hnodup | | ];
        [change (map nd_node_id unwired) with (nd_node_id <$> unwired);
         rewrite list_lookup_fmap, Hi; reflexivity
        |change (map nd_node_id unwired) with (nd_node_id <$> unwired);
         rewrite list_lookup_fmap, Hdi; reflexivity]).
      apply (chained_via (nd_node_id dnode) di task); [| exact Htask | exact Hdin].
      intros next_nid store Hty.
      apply (wire_node_decision unwired Hnodup di si dnode snode next_nid store
               Hdi Hdty Hsi); [|exact Hty].
      left. rewrite Hdid, Hrep, Hs. reflexivity.
    + (* the success node, wired with the decision node *)
      apply (chained_via (nd_node_id dnode) i task); [| exact Htask | exact Hdin].
      intros next_nid store Hty.
      apply (wire_node_decision unwired Hnodup di i dnode n0 next_nid store
               Hdi Hdty Hi); [|exact Hty].
      left. rewrite Hdid, Hrep, <- Hn0, Hs. reflexivity.
    + (* the failure node, wired with the decision node *)
      apply (chained_via (nd_node_id dnode) i task); [| exact Htask | exact Hdin].
      intros next_nid store Hty.
      apply (wire_node_decision unwired Hnodup di i dnode n0 next_nid store
               Hdi Hdty Hi); [|exact Hty].
      right. rewrite Hdid, Hrep, <- Hn0, Hf. reflexivity.
Qed.

Lemma not_end_wired (i : nat) (n0 : NodeDict) :
  unwired !! i = Some n0 -> nd_type n0 <> "end" -> Flow.wired_at wired i.
Proof.
  intros Hi Hty.
  assert (Hin : In n0 unwired) by (apply list_elem_of_In; eapply list_elem_of_lookup_2, Hi).
  destruct (unwired_kinds analysis n0 Hin) as [Hn0|[(task & Htask & Hn0)|Hn0]].
  - apply (greeting_wired i n0 Hi). rewrite Hn0. reflexivity.
  - apply (task_node_wired i n0 task Hi Htask Hn0).
  - unfold AgentCreator.closing_nodes in Hn0.
    destruct Hn0 as [Hn0|[Hn0|[Hn0|[Hn0|[]]]]];
      [apply (closing_wired i n0 Hi); rewrite <- Hn0; cbn; tauto ..|].
    exfalso. apply Hty. rewrite <- Hn0. reflexivity.
Qed.

End NoDeadEnd.

(** An end node is never given a transition. *)
Lemma end_node_unwired (analysis : AnalysisBrief) (i : nat) (n : NodeDict) :
  fl_nodes (AgentCreator._build_flow analysis) !! i = Some n ->
  nd_type n = "end" -> nd_transitions n = [].
Proof.
  intros Hi Hty. rewrite build_flow_nodes in Hi.
  pose proof (wire_transitions_frame nd_type (fun _ _ => eq_refl)
                (AgentCreator.unwired_nodes analysis) (tasks analysis)
                (functions_needed analysis)) as Htypes.
  destruct (lookup_map_eq _ _ _ i n Htypes Hi) as (n0 & Hn0 & Hty0).
  assert (Hin : In n0 (AgentCreator.unwired_nodes analysis))
    by (apply list_elem_of_In; eapply list_elem_of_lookup_2, Hn0).
  assert (Hend : n0 = AgentCreator.end_node).
  { rewrite Hty in Hty0.
    destruct (unwired_kinds analysis n0 Hin) as [Hk|[(task & _ & Hk)|Hk]].
    - rewrite Hk in Hty0. discriminate Hty0.
    - destruct (task_nodes_type analysis task n0 Hk) as [H|[H|[H|H]]];
        rewrite H in Hty0; discriminate Hty0.
    - unfold AgentCreator.closing_nodes in Hk.
      destruct Hk as [Hk|[Hk|[Hk|[Hk|[]]]]]; rewrite <- Hk in Hty0;
        first [discriminate Hty0 | symmetry; exact Hk]. }
  unfold AgentCreator._wire_transitions in Hi. cbv zeta in Hi.
  rewrite (wire_closing_keeps analysis i n0) in Hi
    by (first [exact Hn0 | rewrite Hend; discriminate]).
  rewrite (wire_groups_keeps _ i n0 Hn0) in Hi by (rewrite Hend; right; right; reflexivity).
  assert (Hgreet : forall groups store,
            AgentCreator.wire_greeting
              (AgentCreator.node_map_of (AgentCreator.unwired_nodes analysis)) groups store
            !! i = store !! i).
  { intros groups store. unfold AgentCreator.wire_greeting.
    destruct groups as [|[|first group] rest];
      apply (append_transition_keeps _ i n0 Hn0); rewrite Hend; discriminate. }
  rewrite Hgreet, Hn0 in Hi. injection Hi as <-. rewrite Hend. reflexivity.
Qed.

Lemma rule_task_ids_replace (name : string) :
  In name detectable_names ->
  Py.replace "node_decision_" ""
    ("node_decision_" +:+ Py.replace " " "_" (Py.lower name))
  = Py.replace " " "_" (Py.lower name).
Proof.
  unfold detectable_names. intros Hin.
  repeat (destruct Hin as [<-|Hin]; [vm_compute; reflexivity|]). destruct Hin.
Qed.

(** In the flow of a rule-based brief whose node ids are pairwise
    different, a node has no transition exactly when it is the end node. *)
Theorem distinct_ids_no_dead_end (user_prompt language platform : string) :
  NoDup (map nd_node_id
           (fl_nodes (AgentCreator._build_flow
                        (Orchestrator._analyze_with_rules user_prompt language platform)))) ->
  Forall (fun n => nd_transitions n = [] <-> nd_type n = "end")
         (fl_nodes (AgentCreator._build_flow
                      (Orchestrator._analyze_with_rules user_prompt language platform))).
Proof.
  remember (Orchestrator._analyze_with_rules user_prompt language platform)
    as analysis eqn:Hanalysis.
  intros Hnodup. apply Forall_forall. intros n Hin.
  apply list_elem_of_lookup_1 in Hin as [i Hi]. split; [|apply (end_node_unwired _ i n Hi)].
  intros Hnone. destruct (decide (nd_type n = "end")) as [Hty|Hty]; [exact Hty|]. exfalso.
  rewrite build_flow_nodes in Hi, Hnodup.
  rewrite (wire_transitions_frame nd_node_id) in Hnodup by reflexivity.
  pose proof (wire_transitions_frame nd_type (fun _ _ => eq_refl)
                (AgentCreator.unwired_nodes analysis) (tasks analysis)
                (functions_needed analysis)) as Htypes.
  destruct (lookup_map_eq _ _ _ i n Htypes Hi) as (n0 & Hn0 & Hty0).
  destruct (not_end_wired analysis Hnodup) with (i := i) (n0 := n0) as (n' & Hn' & Hout).
  - intros task Htask _. apply rule_task_ids_replace.
    destruct (brief_names_facts user_prompt language platform) as [_ Hnames].
    rewrite Forall_forall in Hnames. apply Hnames.
    rewrite <- Hanalysis. apply list_elem_of_In, in_map, Htask.
  - exact Hn0.
  - rewrite Hty0. exact Hty.
  - rewrite Hi in Hn'. injection Hn' as <-. exact (Hout Hnone).
Qed.

Lemma distinct_ids_witness :
  Forall (fun n => nd_transitions n = [] <-> nd_type n = "end")
         (fl_nodes (AgentCreator._build_flow
                      (Orchestrator._analyze_with_rules
                         "a bot that says hi to everyone" "en-US" "voiceowl"))).
Proof.
  apply distinct_ids_no_dead_end.
  apply (bool_decide_unpack _). vm_compute. exact I.
Defined.

(** ** Merging the found slots into the tasks *)

Lemma merge_loop_skip (user_slots slots : list string) (existing : gset string) :
  (forall x, In x user_slots -> x ∈ existing) ->
  foldl (fun '(slots, existing_slots) slot =>
           if bool_decide (slot ∈ (existing_slots : gset string))
           then (slots, existing_slots)
           else (slots ++ [slot], {[slot]} ∪ existing_slots))
        (slots, existing) user_slots
  = (slots, existing).
Proof.
  induction user_slots as [|slot user_slots IH]; intros Hall; [reflexivity|].
  cbn [foldl]. rewrite bool_decide_eq_true_2 by (apply Hall; left; reflexivity).
  apply IH. intros x Hx. apply Hall. right. exact Hx.
Qed.

Lemma merge_loop_exact (user_slots slots : list string) (existing : gset string) :
  (forall x, x ∈ existing <-> In x slots) ->
  exists added,
    fst (foldl (fun '(slots, existing_slots) slot =>
                  if bool_decide (slot ∈ (existing_slots : gset string))
                  then (slots, existing_slots)
                  else (slots ++ [slot], {[slot]} ∪ existing_slots))
               (slots, existing) user_slots)
    = slots ++ added
    /\ NoDup added
    /\ sublist added user_slots
    /\ (forall x, In x added <-> In x user_slots /\ ~ In x slots).
Proof.
  revert slots existing. induction user_slots as [|slot user_slots IH];
    intros slots existing Hinv.
  - exists []. cbn. rewrite app_nil_r. repeat split; try constructor; try tauto.
  - cbn [foldl]. destruct (bool_decide (slot ∈ existing)) eqn:Hdec.
    + apply bool_decide_eq_true in Hdec. apply Hinv in Hdec.
      destruct (IH slots existing Hinv) as (added & Heq & Hnodup & Hsub & Hmem).
      exists added. split; [exact Heq|]. split; [exact Hnodup|].
      split; [apply sublist_cons, Hsub|].
      intros x. rewrite Hmem. cbn [In]. split; [tauto|].
      intros [[<-|Hx] Hnot]; [contradiction | tauto].
    + apply bool_decide_eq_false in Hdec.
      assert (Hnot : ~ In slot slots) by (intros H; apply Hdec, Hinv, H).
      destruct (IH (slots ++ [slot]) ({[slot]} ∪ existing))
        as (added & Heq & Hnodup & Hsub & Hmem).
      { intros y. rewrite elem_of_union, elem_of_singleton, Hinv, in_app_iff.
        cbn [In]. split; [intros [->|H]; tauto | intros [H|[<-|[]]]; tauto]. }
      exists (slot :: added). split; [rewrite Heq, <- app_assoc; reflexivity|].
      split.
      { apply NoDup_cons. split; [|exact Hnodup].
        intros Hin. apply list_elem_of_In, Hmem in Hin as [_ Hin].
        apply Hin, in_or_app. right. left. reflexivity. }
      split; [apply sublist_skip, Hsub|].
      intros x. cbn [In]. rewrite Hmem, in_app_iff. cbn [In]. split.
      * intros [<-|[Hx Hn]]; [tauto|]. split; [tauto|]. intros H. apply Hn. tauto.
      * intros [[<-|Hx] Hn]; [tauto|].
        destruct (decide (slot = x)) as [->|Hne]; [tauto|]. right. split; [exact Hx|].
        intros [H|[H|[]]]; tauto.
Qed.

(** A task that already collects every found slot is left as it is. *)
Lemma merge_slots_full (task : Task) (user_slots : list string) :
  (forall x, In x user_slots -> In x (data_to_collect task)) ->
  Orchestrator.merge_slots task user_slots = task.
Proof.
  intros Hall. unfold Orchestrator.merge_slots.
  rewrite merge_loop_skip; [destruct task; reflexivity|].
  intros x Hx. apply elem_of_list_to_set, list_elem_of_In, Hall, Hx.
Qed.

Lemma merge_slots_again (task : Task) (user_slots : list string) :
  Orchestrator.merge_slots (Orchestrator.merge_slots task user_slots) user_slots
  = Orchestrator.merge_slots task user_slots.
Proof.
  apply merge_slots_full. intros x Hx. apply merge_slots_contains. right. exact Hx.
Qed.

Lemma find_index_app_none {A : Type} (p : A -> bool) (l l' : list A) :
  Orchestrator.find_index p l = None ->
  Orchestrator.find_index p (l ++ l')
  = (fun i => (length l + i)%nat) <$> Orchestrator.find_index p l'.
Proof.
  induction l as [|x l IH]; intros Hnone; cbn.
  - destruct (Orchestrator.find_index p l'); reflexivity.
  - cbn in Hnone. destruct (p x); [discriminate Hnone|].
    destruct (Orchestrator.find_index p l) as [i|] eqn:Hl; [discriminate Hnone|].
    rewrite IH by reflexivity. destruct (Orchestrator.find_index p l'); reflexivity.
Qed.

Lemma merge_with_primary (tasks : list Task) (user_slots : list string) (i : nat) :
  Orchestrator.primary_task tasks = Some i ->
  Orchestrator._merge_user_slots_into_tasks tasks user_slots
  = alter (fun t => Orchestrator.merge_slots t user_slots) i tasks.
Proof. intros H. unfold Orchestrator._merge_user_slots_into_tasks. rewrite H. reflexivity. Qed.

Lemma merge_without_primary (tasks : list Task) (user_slots : list string) :
  Orchestrator.primary_task tasks = None ->
  Orchestrator._merge_user_slots_into_tasks tasks user_slots
  = tasks ++ [Orchestrator.collect_customer_information user_slots].
Proof. intros H. unfold Orchestrator._merge_user_slots_into_tasks. rewrite H. reflexivity. Qed.

(** Merging the same slots a second time changes nothing: the first merge
    either extended the primary task or made the synthesized task the
    primary one, and either way every slot is then present. *)
Theorem merge_user_slots_idempotent (tasks : list Task) (user_slots : list string) :
  Orchestrator._merge_user_slots_into_tasks
    (Orchestrator._merge_user_slots_into_tasks tasks user_slots) user_slots
  = Orchestrator._merge_user_slots_into_tasks tasks user_slots.
Proof.
  destruct (Orchestrator.primary_task tasks) as [i|] eqn:Hprimary.
  - rewrite (merge_with_primary tasks user_slots i Hprimary).
    rewrite (merge_with_primary _ user_slots i)
      by (rewrite primary_task_alter_merge; exact Hprimary).
    rewrite list_alter_alter_eq. apply list_alter_ext; [|reflexivity].
    intros t _. apply merge_slots_again.
  - rewrite (merge_without_primary tasks user_slots Hprimary).
    assert (Hapi : Orchestrator.find_index requires_api tasks = None).
    { unfold Orchestrator.primary_task in Hprimary.
      destruct (Orchestrator.find_index requires_api tasks); [discriminate|reflexivity]. }
    rewrite (merge_with_primary _ user_slots (length tasks + 0)).
    + rewrite alter_app_r. cbn [alter list_alter]. f_equal. f_equal.
      apply merge_slots_full. intros x Hx. exact Hx.
    + unfold Orchestrator.primary_task.
      rewrite (find_index_app_none requires_api _ _ Hapi). reflexivity.
Qed.

Lemma alter_as_insert {A : Type} (f : A -> A) (l : list A) (i : nat) (x : A) :
  l !! i = Some x -> alter f i l = <[i := f x]> l.
Proof.
  revert i. induction l as [|y l IH]; intros [|i] H; try discriminate H; cbn.
  - injection H as ->. reflexivity.
  - f_equal. apply IH, H.
Qed.

(** When there is a primary task, the merge leaves every other task as
    it is and extends the slot list of the primary task at its end: the
    slots it had stay in place, and each found slot it lacked is added
    once, in the order found. *)
Theorem merge_extends_primary_task (tasks : list Task) (user_slots : list string)
    (i : nat) (t : Task) :
  Orchestrator.primary_task tasks = Some i -> tasks !! i = Some t ->
  exists added,
    Orchestrator._merge_user_slots_into_tasks tasks user_slots
    = <[i := mkTask (task_keywords t) (task_name t) (task_description t)
                    (data_to_collect t ++ added) (requires_api t) (api_description t)]>
        tasks
    /\ NoDup added
    /\ sublist added user_slots
    /\ (forall x, In x added <-> In x user_slots /\ ~ In x (data_to_collect t)).
Proof.
  intros Hprimary Ht. unfold Orchestrator._merge_user_slots_into_tasks.
  rewrite Hprimary.
  destruct (merge_loop_exact user_slots (data_to_collect t)
              (list_to_set (data_to_collect t)))
    as (added & Heq & Hrest).
  { intros y. rewrite elem_of_list_to_set. apply list_elem_of_In. }
  exists added. split; [|exact Hrest].
  rewrite (alter_as_insert _ tasks i t Ht). f_equal.
  unfold Orchestrator.merge_slots.
  destruct (foldl _ _ user_slots) as [slots existing]. cbn [fst] in Heq.
  rewrite Heq. reflexivity.
Qed.

Lemma merge_extends_witness :
  exists added,
    Orchestrator._merge_user_slots_into_tasks
      (Orchestrator._detect_tasks (Py.lower contact_prompt) "general_support")
      ["email"; "phone_number"]
    = <[1%nat := mkTask None "Collect Email" "Collect the caller's email address"
                   (["email"] ++ added) false ""]>
        (Orchestrator._detect_tasks (Py.lower contact_prompt) "general_support")
    /\ NoDup added.
Proof.
  destruct (merge_extends_primary_task
              (Orchestrator._detect_tasks (Py.lower contact_prompt) "general_support")
              ["email"; "phone_number"] 1
              (mkTask None "Collect Email" "Collect the caller's email address"
                 ["email"] false ""))
    as (added & Heq & Hnodup & _).
  - vm_compute. reflexivity.
  - vm_compute. reflexivity.
  - exists added. split; [exact Heq | exact Hnodup].
Defined.

(** ** The synthesized task (C8) *)







(** ** The flow summary *)

(** The entry at position [k] is numbered [k + 1]. *)
Local Abbreviation numbered steps :=
  (forall (k : nat) (s : string), steps !! k = Some s ->
     exists body, s = "Step " +:+ pretty (S k) +:+ ": " +:+ body).

Lemma numbered_snoc (steps : list string) (body : string) :
  numbered steps ->
  numbered (steps ++ ["Step " +:+ pretty (S (length steps)) +:+ ": " +:+ body]).
Proof.
  intros Hnum k s Hk. apply lookup_app_Some in Hk as [Hk|[Hlen Hk]]; [apply Hnum, Hk|].
  destruct (k - length steps)%nat as [|d] eqn:Hd; [|discriminate Hk].
  injection Hk as <-. replace k with (length steps) by lia. exists body. reflexivity.
Qed.

Lemma slot_steps_numbered (slots : list string) (steps : list string) :
  numbered steps ->
  exists steps',
    foldl (fun '(steps, step_num) slot =>
             (steps ++ ["Step " +:+ pretty step_num +:+ ": Ask for the customer's "
                        +:+ Py.replace "_" " " slot],
              S step_num))
          (steps, S (length steps)) slots
    = (steps', S (length steps'))
    /\ numbered steps'
    /\ length steps' = (length steps + length slots)%nat.
Proof.
  revert steps. induction slots as [|slot slots IH]; intros steps Hnum.
  - exists steps. cbn. repeat split; [exact Hnum | lia].
  - cbn [foldl].
    destruct (IH (steps ++ ["Step " +:+ pretty (S (length steps))
                            +:+ ": Ask for the customer's " +:+ Py.replace "_" " " slot]))
      as (steps' & Heq & Hnum' & Hlen).
    { apply (numbered_snoc steps ("Ask for the customer's " +:+ Py.replace "_" " " slot)),
        Hnum. }
    rewrite length_app in Heq, Hlen. cbn [length] in Heq, Hlen.
    rewrite Nat.add_1_r in Heq.
    exists steps'. split; [exact Heq|]. split; [exact Hnum'|]. cbn [length]. lia.
Qed.

Lemma task_steps_numbered (task : Task) (steps : list string) :
  numbered steps ->
  exists steps',
    Orchestrator.task_steps (steps, S (length steps)) task = (steps', S (length steps'))
    /\ numbered steps'
    /\ length steps'
       = (length steps
          + (if String.eqb (task_name task) "Greeting" then 0
             else length (data_to_collect task) + (if requires_api task then 2 else 0)))%nat.
Proof.
  intros Hnum. unfold Orchestrator.task_steps.
  destruct (String.eqb (task_name task) "Greeting").
  { exists steps. repeat split; [exact Hnum | lia]. }
  destruct (slot_steps_numbered (data_to_collect task) steps Hnum)
    as (steps1 & -> & Hnum1 & Hlen1).
  destruct (requires_api task).
  - exists (steps1 ++ ["Step " +:+ pretty (S (length steps1)) +:+ ": "
                       +:+ api_description task;
                       "Step " +:+ pretty (S (S (length steps1)))
                       +:+ ": Communicate the result to the caller"]).
    split; [rewrite length_app; cbn [length]; do 2 f_equal; lia|]. split.
    + change (steps1 ++ [?a; ?b]) with (steps1 ++ [a] ++ [b]). rewrite app_assoc.
      pose proof (numbered_snoc _ "Communicate the result to the caller"
                    (numbered_snoc steps1 (api_description task) Hnum1)) as H.
      rewrite length_app in H. cbn [length] in H. rewrite Nat.add_1_r in H. exact H.
    + rewrite length_app. cbn [length]. lia.
  - exists steps1. repeat split; [exact Hnum1 | lia].
Qed.

Lemma tasks_steps_numbered (tasks : list Task) (steps : list string) :
  numbered steps ->
  exists steps',
    foldl Orchestrator.task_steps (steps, S (length steps)) tasks
    = (steps', S (length steps'))
    /\ numbered steps'
    /\ length steps'
       = (length steps
          + sum_list_with
              (fun task =>
                 if String.eqb (task_name task) "Greeting" then 0
                 else length (data_to_collect task) + (if requires_api task then 2 else 0))
              tasks)%nat.
Proof.
  revert steps. induction tasks as [|task tasks IH]; intros steps Hnum.
  - exists steps. cbn. repeat split; [exact Hnum | lia].
  - cbn [foldl].
    destruct (task_steps_numbered task steps Hnum) as (steps1 & -> & Hnum1 & Hlen1).
    destruct (IH steps1 Hnum1) as (steps' & Heq & Hnum' & Hlen).
    exists steps'. split; [exact Heq|]. split; [exact Hnum'|].
    cbn [sum_list_with]. lia.
Qed.

(** The steps of the flow summary are numbered 1, 2, 3, ... without a
    gap; there are three fixed steps, one step per slot of each task other
    than the greeting, and two more for each such task that requires an
    API. *)
Theorem flow_summary_numbered (tasks : list Task) :
  (forall (k : nat) (s : string),
     Orchestrator._build_flow_summary tasks !! k = Some s ->
     exists body, s = "Step " +:+ pretty (S k) +:+ ": " +:+ body)
  /\ length (Orchestrator._build_flow_summary tasks)
     = (3 + sum_list_with
              (fun task =>
                 if String.eqb (task_name task) "Greeting" then 0
                 else length (data_to_collect task) + (if requires_api task then 2 else 0))
              tasks)%nat
  /\ last (Orchestrator._build_flow_summary tasks)
     = Some ("Step " +:+ pretty (length (Orchestrator._build_flow_summary tasks))
             +:+ ": End the call politely").
Proof.
  unfold Orchestrator._build_flow_summary.
  destruct (tasks_steps_numbered tasks
              ["Step 1: Greet the caller and introduce the service"])
    as (steps & Heq & Hnum & Hlen).
  { intros [|k] s Hk; [|discriminate Hk]. injection Hk as <-.
    exists "Greet the caller and introduce the service". reflexivity. }
  cbn [length] in Heq. rewrite Heq. cbn [length] in Hlen.
  split; [|split].
  - change (steps ++ [?a; ?b]) with (steps ++ [a] ++ [b]). rewrite app_assoc.
    pose proof (numbered_snoc _ "End the call politely"
                  (numbered_snoc steps "Ask if there's anything else" Hnum)) as H.
    rewrite length_app in H. cbn [length] in H.
    replace (S (length steps + 1)) with (S (length steps) + 1)%nat in H by lia. exact H.
  - rewrite length_app. cbn [length]. lia.
  - change (steps ++ [?a; ?b]) with (steps ++ [a] ++ [b]).
    rewrite app_assoc, last_snoc, !length_app. cbn [length].
    replace (length steps + 1 + 1)%nat with (S (length steps) + 1)%nat by lia.
    reflexivity.
Qed.

(** ** What the merge step returns *)

Lemma int_field_returns (lo hi : Z) (model field : string) (v r : Z) :
  Models.int_field lo hi model field v = Returns r -> r = v /\ (lo <= v <= hi)%Z.
Proof.
  unfold Models.int_field. destruct (_ && _) eqn:Hb; [|discriminate].
  intros [= <-]. apply andb_true_iff in Hb as [H1 H2]. split; [reflexivity | lia].
Qed.

Lemma float_field_returns (lo hi : Q) (model field : string) (v r : Q) :
  Models.float_field lo hi model field v = Returns r ->
  r = v /\ (lo <= v)%Q /\ (v <= hi)%Q.
Proof.
  unfold Models.float_field. destruct (_ && _) eqn:Hb; [|discriminate].
  intros [= <-]. apply andb_true_iff in Hb as [H1 H2].
  split; [reflexivity|]. split; apply Qle_bool_iff; assumption.
Qed.

Lemma enum_field_returns {E : Type} (values : list (string * E))
    (model field value : string) (e : E) :
  Models.enum_field values model field value = Returns e -> Py.get values value = Some e.
Proof.
  unfold Models.enum_field. destruct (Py.get values value); [|discriminate].
  intros [= <-]. reflexivity.
Qed.

Lemma persona_new_returns name role traits style prompt fallback escalation retries p :
  Models.PersonaConfig_new name role traits style prompt fallback escalation retries
  = Returns p ->
  p = Models.mkPersonaConfig name role traits style prompt fallback escalation retries
  /\ (1 <= retries <= 5)%Z.
Proof.
  unfold Models.PersonaConfig_new. intros H.
  apply outcome_bind_returns in H as (r & Hr & H).
  apply int_field_returns in Hr as [-> Hbounds]. inversion H. auto.
Qed.

Lemma voice_new_returns provider voice_id gender lang rate pitch v :
  Models.VoiceConfig_new provider voice_id gender lang rate pitch = Returns v ->
  Py.get Models.VoiceProvider_values provider = Some (Models.provider v)
  /\ Models.voice_id v = voice_id
  /\ Py.get Models.VoiceGender_values gender = Some (Models.gender v)
  /\ Py.get Models.LanguageCode_values lang = Some (Models.voice_language v)
  /\ Models.speaking_rate v = rate /\ Models.pitch v = pitch
  /\ (1 # 2 <= rate)%Q /\ (rate <= 2)%Q /\ (-10 <= pitch)%Q /\ (pitch <= 10)%Q.
Proof.
  unfold Models.VoiceConfig_new. intros H.
  apply outcome_bind_returns in H as (p & Hp & H). apply enum_field_returns in Hp.
  apply outcome_bind_returns in H as (g & Hg & H). apply enum_field_returns in Hg.
  apply outcome_bind_returns in H as (l & Hl & H). apply enum_field_returns in Hl.
  apply outcome_bind_returns in H as (r & Hr & H).
  apply float_field_returns in Hr as (-> & Hr1 & Hr2).
  apply outcome_bind_returns in H as (q & Hq & H).
  apply float_field_returns in Hq as (-> & Hq1 & Hq2).
  inversion H; subst; cbn. repeat split; assumption.
Qed.

Lemma intent_of_raw_returns (intent_raw : IntentDict) (i : Models.IntentDefinition)
    (w w' : World) :
  MetaOrchestrator.intent_of_raw intent_raw w = (Returns i, w') ->
  Models.intent_name i = ir_name intent_raw
  /\ Models.intent_description i = ir_description intent_raw
  /\ Models.priority i = ir_priority intent_raw
  /\ (0 <= Models.priority i <= 10)%Z
  /\ length (Models.training_phrases i) = length (ir_training_phrases intent_raw).
Proof.
  unfold MetaOrchestrator.intent_of_raw, Models.IntentDefinition_new. intros H.
  apply run_bind_returns in H as (phrases & w1 & Hphrases & H).
  apply run_bind_returns in H as (hex & w2 & _ & H).
  apply run_bind_returns in H as (prio & w3 & Hprio & H).
  apply pure_run_returns in Hprio as [Hprio _].
  apply int_field_returns in Hprio as [-> Hbounds].
  apply pure_run_returns in Hphrases as [Hphrases _].
  apply outcome_mapM_returns, Forall2_length in Hphrases.
  inversion H; subst; cbn. repeat split; first [lia | congruence].
Qed.

Lemma endpoint_of_raw_returns (ep_raw : EndpointDict) (ep : Models.APIEndpoint) :
  MetaOrchestrator.endpoint_of_raw ep_raw = Returns ep ->
  Models.url ep = ep_url ep_raw
  /\ Py.get Models.HTTPMethod_values (ep_method ep_raw) = Some (Models.method ep)
  /\ Models.timeout_seconds ep = ep_timeout_seconds ep_raw
  /\ (1 <= Models.timeout_seconds ep <= 60)%Z.
Proof.
  unfold MetaOrchestrator.endpoint_of_raw, Models.APIEndpoint_new. intros H.
  apply outcome_bind_returns in H as (m & Hm & H). apply enum_field_returns in Hm.
  apply outcome_bind_returns in H as (t & Ht & H).
  apply int_field_returns in Ht as [-> Hbounds].
  inversion H; subst; cbn. repeat split; first [assumption | lia].
Qed.

Lemma function_of_raw_returns (fn_raw : FnDict) (f : Models.FunctionDefinition)
    (w w' : World) :
  MetaOrchestrator.function_of_raw fn_raw w = (Returns f, w') ->
  Models.function_name f = fd_name fn_raw
  /\ Models.function_description f = default "" (fd_description fn_raw)
  /\ Forall2 (fun p fp => MetaOrchestrator.parameter_of_raw p = Returns fp)
             (default [] (fd_parameters fn_raw)) (Models.parameters f)
  /\ match fd_api_endpoint fn_raw with
     | Some ep_raw => exists ep, Models.api_endpoint f = Some ep
                                 /\ MetaOrchestrator.endpoint_of_raw ep_raw = Returns ep
     | None => Models.api_endpoint f = None
     end.
Proof.
  unfold MetaOrchestrator.function_of_raw, Models.FunctionDefinition_new. intros H.
  apply run_bind_returns in H as (params & w1 & Hparams & H).
  apply run_bind_returns in H as (endpoint & w2 & Hendpoint & H).
  apply run_bind_returns in H as (hex & w3 & _ & H).
  apply pure_run_returns in Hparams as [Hparams _].
  apply outcome_mapM_returns in Hparams.
  apply pure_run_returns in Hendpoint as [Hendpoint _].
  inversion H; subst; cbn. repeat split; [exact Hparams|].
  destruct (fd_api_endpoint fn_raw) as [ep_raw|].
  - apply outcome_bind_returns in Hendpoint as (ep & Hep & Hret).
    inversion Hret; subst. exists ep. split; [reflexivity | exact Hep].
  - inversion Hendpoint. reflexivity.
Qed.

Lemma merge_config_inv analysis agent_config functions platform w cfg w' :
  MetaOrchestrator._merge_config analysis agent_config functions platform w
    = (Returns cfg, w') ->
  Models.PersonaConfig_new
    (pr_name (ac_persona agent_config)) (pr_role (ac_persona agent_config))
    (pr_personality_traits (ac_persona agent_config))
    (pr_greeting_style (ac_persona agent_config))
    (pr_system_prompt (ac_persona agent_config))
    (pr_fallback_message (ac_persona agent_config))
    (pr_escalation_message (ac_persona agent_config))
    (pr_max_retries (ac_persona agent_config))
  = Returns (Models.persona cfg)
  /\ Models.VoiceConfig_new
       (vr_provider (ac_voice agent_config)) (vr_voice_id (ac_voice agent_config))
       (vr_gender (ac_voice agent_config)) (vr_language (ac_voice agent_config))
       (vr_speaking_rate (ac_voice agent_config)) (vr_pitch (ac_voice agent_config))
     = Returns (Models.voice cfg)
  /\ Forall2 (fun raw i => exists w1 w2,
                MetaOrchestrator.intent_of_raw raw w1 = (Returns i, w2))
             (ac_intents agent_config) (Models.intents cfg)
  /\ Forall2 (fun raw f => exists w1 w2,
                MetaOrchestrator.function_of_raw raw w1 = (Returns f, w2))
             functions (Models.functions cfg)
  /\ Models.deployment cfg = Models.DeploymentConfig_new platform
  /\ Models.metadata cfg
     = [("source_prompt", domain analysis); ("generation_mode", "rule_based")]
  /\ Models.version cfg = "1.0.0" /\ Models.status cfg = Models.DRAFT.
Proof.
  unfold MetaOrchestrator._merge_config. intros H.
  apply run_bind_returns in H as (persona & w1 & Hpersona & H).
  apply run_bind_returns in H as (voice & w2 & Hvoice & H).
  apply run_bind_returns in H as (intents & w3 & Hintents & H).
  apply run_bind_returns in H as (func_defs & w4 & Hfuncs & H).
  apply run_bind_returns in H as (flow & w5 & Hflow & H).
  unfold Models.CXAgentConfig_new in H.
  apply run_bind_returns in H as (hex & w6 & _ & H).
  apply run_bind_returns in H as (now & w7 & _ & H).
  apply pure_run_returns in Hpersona as [Hpersona _].
  apply pure_run_returns in Hvoice as [Hvoice _].
  apply run_mapM_returns in Hintents. apply run_mapM_returns in Hfuncs.
  inversion H; subst; cbn. repeat split; assumption.
Qed.

(** Whatever the raw configuration and the function dicts, a
    configuration the merge step returns has every bounded field within
    its bounds. *)
Theorem merged_config_within_bounds analysis agent_config functions platform w cfg w' :
  MetaOrchestrator._merge_config analysis agent_config functions platform w
    = (Returns cfg, w') ->
  (1 <= Models.max_retries (Models.persona cfg) <= 5)%Z
  /\ (1 # 2 <= Models.speaking_rate (Models.voice cfg))%Q
  /\ (Models.speaking_rate (Models.voice cfg) <= 2)%Q
  /\ (-10 <= Models.pitch (Models.voice cfg))%Q
  /\ (Models.pitch (Models.voice cfg) <= 10)%Q
  /\ Forall (fun i => (0 <= Models.priority i <= 10)%Z) (Models.intents cfg)
  /\ Forall (fun f => forall ep, Models.api_endpoint f = Some ep ->
                                 (1 <= Models.timeout_seconds ep <= 60)%Z)
            (Models.functions cfg)
  /\ (1 <= Models.max_concurrent_calls (Models.deployment cfg))%Z.
Proof.
  intros H. apply merge_config_inv in H
    as (Hpersona & Hvoice & Hintents & Hfuncs & Hdeploy & _).
  apply persona_new_returns in Hpersona as [Hp Hretries].
  apply voice_new_returns in Hvoice as (_ & _ & _ & _ & Hrate & Hpitch & Hbounds).
  rewrite Hp, Hrate, Hpitch, Hdeploy. cbn [Models.max_retries].
  split; [exact Hretries|].
  destruct Hbounds as (H1 & H2 & H3 & H4). repeat (split; [assumption|]).
  split; [|split; [|cbn; lia]].
  - clear -Hintents. induction Hintents as [|raw i l l' (w1 & w2 & Hi) _ IH];
      constructor; [|exact IH].
    apply intent_of_raw_returns in Hi. tauto.
  - clear -Hfuncs. induction Hfuncs as [|raw f l l' (w1 & w2 & Hf) _ IH];
      constructor; [|exact IH].
    intros ep Hep. apply function_of_raw_returns in Hf as (_ & _ & _ & Hraw).
    destruct (fd_api_endpoint raw) as [ep_raw|]; [|congruence].
    destruct Hraw as (ep' & Hep' & Hconv). rewrite Hep in Hep'. injection Hep' as <-.
    apply endpoint_of_raw_returns in Hconv. tauto.
Qed.

Lemma merged_bounds_witness :
  match MetaOrchestrator._merge_config example_brief
          (AgentCreator._create_with_rules example_brief)
          (FunctionCreator._create_with_rules (functions_needed example_brief))
          "voiceowl" example_world with
  | (Returns cfg, _) =>
      (1 <= Models.max_retries (Models.persona cfg) <= 5)%Z
      /\ Forall (fun i => (0 <= Models.priority i <= 10)%Z) (Models.intents cfg)
  | (Raises _, _) => False
  end.
Proof.
  destruct (MetaOrchestrator._merge_config example_brief
              (AgentCreator._create_with_rules example_brief)
              (FunctionCreator._create_with_rules (functions_needed example_brief))
              "voiceowl" example_world) as [[cfg|e] w'] eqn:H.
  - pose proof (merged_config_within_bounds _ _ _ _ _ _ _ H) as Hb. tauto.
  - vm_compute in H. discriminate H.
Defined.

(** ** The two tool schema generators agree *)

Lemma param_type_round_trip (s : string) (t : Models.ParamType) :
  Py.get Models.ParamType_values s = Some t -> Models.ParamType_value t = s.
Proof.
  unfold Models.ParamType_values. cbn [Py.get].
  repeat match goal with
         | |- context [String.eqb ?k s] => destruct (String.eqb_spec k s) as [<-|_]
         end;
    intros H; first [discriminate H | injection H as <-; reflexivity].
Qed.

Lemma parameter_of_raw_step (p : ParamDict) (fp : Models.FunctionParameter)
    (acc : gmap string PropSchema * list string) :
  MetaOrchestrator.parameter_of_raw p = Returns fp ->
  Models.schema_param_step acc fp = FunctionCreator.tool_param_step acc p.
Proof.
  unfold MetaOrchestrator.parameter_of_raw, Models.FunctionParameter_new. intros H.
  apply outcome_bind_returns in H as (t & Ht & H). apply enum_field_returns in Ht.
  apply param_type_round_trip in Ht. inversion H; subst.
  unfold Models.schema_param_step, FunctionCreator.tool_param_step,
    FunctionCreator.tool_property.
  destruct acc as [properties req].
  cbn [Models.param_name Models.param_type Models.param_description Models.required
       Models.param_default Models.enum].
  rewrite Ht. reflexivity.
Qed.

Lemma parameters_of_raw_loop (ps : list ParamDict) (fps : list Models.FunctionParameter)
    (acc : gmap string PropSchema * list string) :
  Forall2 (fun p fp => MetaOrchestrator.parameter_of_raw p = Returns fp) ps fps ->
  foldl Models.schema_param_step acc fps = foldl FunctionCreator.tool_param_step acc ps.
Proof.
  intros H. revert acc. induction H as [|p fp ps fps Hp _ IH]; intros acc; [reflexivity|].
  cbn [foldl]. rewrite (parameter_of_raw_step p fp acc Hp). apply IH.
Qed.

Lemma function_of_raw_schema (fn_raw : FnDict) (f : Models.FunctionDefinition)
    (w w' : World) :
  MetaOrchestrator.function_of_raw fn_raw w = (Returns f, w') ->
  Models.to_openai_tool_schema f = FunctionCreator.tool_of_function fn_raw.
Proof.
  intros H. apply function_of_raw_returns in H as (Hname & Hdesc & Hparams & _).
  unfold Models.to_openai_tool_schema, FunctionCreator.tool_of_function.
  rewrite (parameters_of_raw_loop _ _ (∅, []) Hparams), Hname, Hdesc. reflexivity.
Qed.

(** Whenever the merge step returns a configuration, the tool schemas
    its function models produce ([get_openai_tools]) are the ones
    [to_openai_tools] produces from the function dicts they were built
    from. *)
Theorem model_tools_equal_dict_tools analysis agent_config functions platform w cfg w' :
  MetaOrchestrator._merge_config analysis agent_config functions platform w
    = (Returns cfg, w') ->
  Models.get_openai_tools cfg = FunctionCreator.to_openai_tools functions.
Proof.
  intros H. apply merge_config_inv in H as (_ & _ & _ & Hfuncs & _).
  unfold Models.get_openai_tools, FunctionCreator.to_openai_tools.
  induction Hfuncs as [|raw f l l' (w1 & w2 & Hf) _ IH]; [reflexivity|].
  cbn [map]. rewrite IH, (function_of_raw_schema raw f w1 w2 Hf). reflexivity.
Qed.

Lemma model_tools_witness :
  match MetaOrchestrator._merge_config example_brief
          (AgentCreator._create_with_rules example_brief)
          (FunctionCreator._create_with_rules (functions_needed example_brief))
          "voiceowl" example_world with
  | (Returns cfg, _) =>
      Models.get_openai_tools cfg
      = FunctionCreator.to_openai_tools
          (FunctionCreator._create_with_rules (functions_needed example_brief))
  | (Raises _, _) => False
  end.
Proof.
  destruct (MetaOrchestrator._merge_config example_brief
              (AgentCreator._create_with_rules example_brief)
              (FunctionCreator._create_with_rules (functions_needed example_brief))
              "voiceowl" example_world) as [[cfg|e] w'] eqn:H.
  - exact (model_tools_equal_dict_tools _ _ _ _ _ _ _ H).
  - vm_compute in H. discriminate H.
Defined.

(** ** Intents *)

Lemma build_intents_names (analysis : AnalysisBrief) :
  map ir_name (AgentCreator._build_intents analysis)
  = "greeting"
    :: map (fun name => "request_" +:+ Py.replace " " "_" (Py.lower name))
           (map task_name (tasks analysis))
    ++ ["fallback"; "request_human_agent"].
Proof.
  unfold AgentCreator._build_intents. cbn [app map ir_name].
  rewrite !map_app, !map_map. reflexivity.
Qed.

Lemma intent_names_of_table :
  NoDup ("greeting"
         :: map (fun name => "request_" +:+ Py.replace " " "_" (Py.lower name))
                detectable_names
         ++ ["fallback"; "request_human_agent"]).
Proof. apply (bool_decide_unpack _). vm_compute. exact I. Qed.

Lemma NoDup_around {A B : Type} (g : A -> B) (a : B) (D l : list A) (rest : list B) :
  NoDup (a :: map g D ++ rest) -> NoDup l -> (forall x, In x l -> In x D) ->
  NoDup (a :: map g l ++ rest).
Proof.
  intros Htable Hnodup Hsub.
  apply NoDup_cons in Htable as [Hfirst Htable].
  apply NoDup_app in Htable as (Hinj & Hdisj & Hrest).
  assert (Hin : forall x, x ∈ map g l -> x ∈ map g D).
  { intros x Hx. apply list_elem_of_In, in_map_iff in Hx as (y & <- & Hy).
    apply list_elem_of_In, in_map, Hsub, Hy. }
  apply NoDup_cons. split.
  - intros H. apply Hfirst. apply elem_of_app in H as [H|H];
      apply elem_of_app; [left; apply Hin, H | right; exact H].
  - apply NoDup_app. split; [|split; [|exact Hrest]].
    + apply (NoDup_map_inj_on g D l Hinj Hsub Hnodup).
    + intros x Hx. apply Hdisj, Hin, Hx.
Qed.

Lemma build_intents_length (analysis : AnalysisBrief) :
  length (AgentCreator._build_intents analysis) = (length (tasks analysis) + 3)%nat.
Proof.
  unfold AgentCreator._build_intents. rewrite !length_app, length_map. cbn [length]. lia.
Qed.

(** The intents built for a rule-based brief, the greeting intent, one
    intent per task, the fallback intent and the request for a human
    agent, have pairwise different names. *)
Theorem intent_names_unique (user_prompt language platform : string) :
  NoDup (map ir_name
           (AgentCreator._build_intents
              (Orchestrator._analyze_with_rules user_prompt language platform)))
  /\ length (AgentCreator._build_intents
               (Orchestrator._analyze_with_rules user_prompt language platform))
     = (length (tasks (Orchestrator._analyze_with_rules user_prompt language platform))
        + 3)%nat.
Proof.
  split; [|apply build_intents_length].
  rewrite build_intents_names.
  destruct (brief_names_facts user_prompt language platform) as [Hnodup Hnames].
  rewrite Forall_forall in Hnames.
  apply (NoDup_around _ _ detectable_names);
    [exact intent_names_of_table | exact Hnodup |].
  intros x Hx. apply Hnames, list_elem_of_In, Hx.
Qed.

(** ** The configuration of a response *)

Lemma process_request_merged (request : Models.AgentCreateRequest) (w : World) :
  exists cfg w',
    MetaOrchestrator._merge_config
      (Orchestrator._analyze_with_rules (Models.user_prompt request)
         (Models.LanguageCode_value (Models.request_language request))
         (Models.request_platform request))
      (AgentCreator._create_with_rules
         (Orchestrator._analyze_with_rules (Models.user_prompt request)
            (Models.LanguageCode_value (Models.request_language request))
            (Models.request_platform request)))
      (FunctionCreator._create_with_rules
         (functions_needed
            (Orchestrator._analyze_with_rules (Models.user_prompt request)
               (Models.LanguageCode_value (Models.request_language request))
               (Models.request_platform request))))
      (Models.request_platform request) w
    = (Returns cfg, w')
    /\ Models.agent_config (fst (MetaOrchestrator.process_request request w)) = Some cfg
    /\ Models.success (fst (MetaOrchestrator.process_request request w)) = true.
Proof.
  destruct (process_request_success request w) as (cfg & w1 & Hrun).
  assert (Hcfg : Models.agent_config (fst (MetaOrchestrator.process_request request w))
                 = Some cfg) by (rewrite Hrun; reflexivity).
  destruct (process_request_returns request w cfg Hcfg) as (w' & Hmerge).
  exists cfg, w'. split; [exact Hmerge|]. split; [exact Hcfg|].
  rewrite Hrun. reflexivity.
Qed.

Lemma Forall2_map_eq {A B C : Type} (f : A -> C) (g : B -> C) (R : A -> B -> Prop)
    (l : list A) (l' : list B) :
  (forall x y, R x y -> g y = f x) -> Forall2 R l l' -> map g l' = map f l.
Proof.
  intros HR H. induction H as [|x y l l' Hxy _ IH]; [reflexivity|].
  cbn [map]. rewrite IH, (HR x y Hxy). reflexivity.
Qed.

(** The configuration of every rule-based response carries the name and
    role of the brief, one intent per intent dict and one function per
    function requirement, under the same names and in the same order, the
    platform of the request, and as metadata "source_prompt" the domain
    of the brief. *)
Theorem config_mirrors_brief (request : Models.AgentCreateRequest) (w : World) :
  exists cfg,
    Models.agent_config (fst (MetaOrchestrator.process_request request w)) = Some cfg
    /\ Models.persona_name (Models.persona cfg)
       = agent_name_suggestion
           (Orchestrator._analyze_with_rules (Models.user_prompt request)
              (Models.LanguageCode_value (Models.request_language request))
              (Models.request_platform request))
    /\ Models.role (Models.persona cfg)
       = agent_role
           (Orchestrator._analyze_with_rules (Models.user_prompt request)
              (Models.LanguageCode_value (Models.request_language request))
              (Models.request_platform request))
    /\ map Models.intent_name (Models.intents cfg)
       = map ir_name
           (AgentCreator._build_intents
              (Orchestrator._analyze_with_rules (Models.user_prompt request)
                 (Models.LanguageCode_value (Models.request_language request))
                 (Models.request_platform request)))
    /\ map Models.function_name (Models.functions cfg)
       = map fr_name
           (functions_needed
              (Orchestrator._analyze_with_rules (Models.user_prompt request)
                 (Models.LanguageCode_value (Models.request_language request))
                 (Models.request_platform request)))
    /\ length (Models.functions cfg)
       = length (List.filter requires_api
                   (tasks (Orchestrator._analyze_with_rules (Models.user_prompt request)
                             (Models.LanguageCode_value (Models.request_language request))
                             (Models.request_platform request))))
    /\ Models.deployment_platform (Models.deployment cfg) = Models.request_platform request
    /\ Models.metadata cfg
       = [("source_prompt",
           domain (Orchestrator._analyze_with_rules (Models.user_prompt request)
                     (Models.LanguageCode_value (Models.request_language request))
                     (Models.request_platform request)));
          ("generation_mode", "rule_based")].
Proof.
  destruct (process_request_merged request w) as (cfg & w' & Hmerge & Hcfg & _).
  exists cfg. split; [exact Hcfg|].
  pose proof (analysis_functions_needed (Models.user_prompt request)
                (Models.LanguageCode_value (Models.request_language request))
                (Models.request_platform request)) as Hfns.
  remember (Orchestrator._analyze_with_rules (Models.user_prompt request)
              (Models.LanguageCode_value (Models.request_language request))
              (Models.request_platform request)) as analysis eqn:Hanalysis.
  clear Hanalysis.
  apply merge_config_inv in Hmerge
    as (Hpersona & _ & Hintents & Hfuncs & Hdeploy & Hmeta & _).
  apply persona_new_returns in Hpersona as [Hpersona _].
  assert (Hnames : map Models.function_name (Models.functions cfg)
                   = map fr_name (functions_needed analysis)).
  { rewrite <- create_with_rules_names.
    eapply Forall2_map_eq; [|exact Hfuncs].
    intros raw f (w1 & w2 & H). exact (function_of_raw_name _ _ _ _ H). }
  rewrite Hpersona, Hdeploy, Hmeta.
  split; [reflexivity|]. split; [reflexivity|]. split.
  { rewrite <- create_with_rules_intents.
    eapply Forall2_map_eq; [|exact Hintents].
    intros raw i (w1 & w2 & H). apply intent_of_raw_returns in H. tauto. }
  split; [exact Hnames|]. split; [|split; reflexivity].
  rewrite <- (length_map Models.function_name), Hnames, Hfns.
  unfold Orchestrator._detect_functions. rewrite !length_map. reflexivity.
Qed.

(** ** The voice of a response *)

Lemma voice_id_fallback (analysis : AnalysisBrief) :
  In (language analysis) ["fr-FR"; "de-DE"; "ja-JP"] ->
  vr_voice_id (AgentCreator._build_voice analysis) = "en-US-Neural2-F".
Proof.
  unfold AgentCreator._build_voice. cbv zeta. cbn [vr_voice_id].
  unfold AgentCreator.voice_map. cbn [List.find].
  intros [<-|[<-|[<-|[]]]]; cbn [String.eqb Ascii.eqb Bool.eqb];
    rewrite !andb_false_r; reflexivity.
Qed.

(** The voice of every rule-based response speaks the language of the
    request, is never of neutral gender, and for French, German and
    Japanese, which the voice table does not list, has the voice
    identifier of the US English default. *)
Theorem response_voice (request : Models.AgentCreateRequest) (w : World) :
  exists cfg,
    Models.agent_config (fst (MetaOrchestrator.process_request request w)) = Some cfg
    /\ Models.voice_language (Models.voice cfg) = Models.request_language request
    /\ Models.gender (Models.voice cfg) <> Models.NEUTRAL
    /\ Models.provider (Models.voice cfg) = Models.GOOGLE
    /\ (In (Models.request_language request) [Models.FR_FR; Models.DE_DE; Models.JA_JP] ->
        Models.voice_id (Models.voice cfg) = "en-US-Neural2-F").
Proof.
  destruct (process_request_merged request w) as (cfg & w' & Hmerge & Hcfg & _).
  exists cfg. split; [exact Hcfg|].
  pose proof (analysis_language (Models.user_prompt request)
                (Models.LanguageCode_value (Models.request_language request))
                (Models.request_platform request)) as Hlang.
  pose proof (analysis_voice_gender (Models.user_prompt request)
                (Models.LanguageCode_value (Models.request_language request))
                (Models.request_platform request)) as Hgender.
  remember (Orchestrator._analyze_with_rules (Models.user_prompt request)
              (Models.LanguageCode_value (Models.request_language request))
              (Models.request_platform request)) as analysis eqn:Hanalysis.
  clear Hanalysis.
  apply merge_config_inv in Hmerge as (_ & Hvoice & _).
  rewrite create_with_rules_voice in Hvoice.
  cbn [vr_provider vr_voice_id vr_gender vr_language vr_speaking_rate vr_pitch] in Hvoice.
  apply voice_new_returns in Hvoice as (Hprovider & Hid & Hg & Hl & _).
  rewrite Hlang, language_value_valid in Hl. injection Hl as Hl.
  split; [symmetry; exact Hl|]. split; [|split].
  - rewrite Hgender, detect_voice_gender_spec in Hg.
    destruct (Py.isin "male voice" _ || Py.isin "male agent" _);
      cbn in Hg; injection Hg as <-; discriminate.
  - cbn in Hprovider. injection Hprovider as <-. reflexivity.
  - intros Hin. rewrite Hid. apply voice_id_fallback. rewrite Hlang.
    destruct Hin as [<-|[<-|[<-|[]]]]; cbn; tauto.
Qed.

(** ** The route that creates an agent *)

Section Route.

Variable analyze_request : string -> string -> string -> Run AnalysisBrief.
Variable create_agent_config : AnalysisBrief -> Run AgentConfigDict.
Variable create_functions : list FunctionRequirement -> Run (list FnDict).
Variable merge_config :
  AnalysisBrief -> AgentConfigDict -> list FnDict -> string -> Run Models.CXAgentConfig.
Variable to_openai_tools : list FnDict -> Run (list ToolSchema).

Local Abbreviation orchestrator :=
  (Some (MetaOrchestrator.process_request_with analyze_request create_agent_config
           create_functions merge_config to_openai_tools)).

(** Whatever the stages do, the route answers a request whose pipeline
    raised [e] with [HTTPException(400)] and the detail "Failed to create
    agent: " followed by [str(e)]; it answers every other request with
    the response itself, and never with another status. *)
Theorem create_agent_status (request : Models.AgentCreateRequest) (w : World) :
  (exists e,
     MetaOrchestrator.escapes analyze_request create_agent_config create_functions
       merge_config to_openai_tools request w e
     /\ fst (Main.create_agent orchestrator request w)
        = Main.HTTPException 400 ("Failed to create agent: " +:+ exc_str e))
  \/ (exists response,
        fst (Main.create_agent orchestrator request w) = Main.Responds response
        /\ Models.success response = true
        /\ is_Some (Models.agent_config response)
        /\ is_Some (Models.openai_tools_schema response)).
Proof.
  unfold Main.create_agent, MetaOrchestrator.process_request_with.
  destruct (MetaOrchestrator.pipeline analyze_request create_agent_config create_functions
              merge_config to_openai_tools request w) as [[response|e] w'] eqn:Hrun.
  - right. exists response.
    unfold MetaOrchestrator.pipeline in Hrun.
    apply run_bind_returns in Hrun as (a & w1 & _ & Hrun).
    apply run_bind_returns in Hrun as (c & w2 & _ & Hrun).
    apply run_bind_returns in Hrun as (f & w3 & _ & Hrun).
    apply run_bind_returns in Hrun as (g & w4 & _ & Hrun).
    apply run_bind_returns in Hrun as (t & w5 & _ & Hrun).
    inversion Hrun; subst. cbn. repeat split; eexists; reflexivity.
  - left. exists e. split; [|reflexivity].
    eapply pipeline_raises_escapes, Hrun.
Qed.

End Route.

(** ** The slots of a rule-based brief *)

Local Abbreviation slots_known t :=
  (Forall (fun slot => In slot collectable_slots) (data_to_collect t)).

Lemma known_by_check (l : list string) :
  forallb (fun s => existsb (String.eqb s) collectable_slots) l = true ->
  Forall (fun slot => In slot collectable_slots) l.
Proof.
  intros H. apply Forall_forall. intros slot Hin. apply list_elem_of_In in Hin.
  rewrite forallb_forall in H. specialize (H slot Hin).
  apply existsb_exists in H as (x & Hx & Heq). apply String.eqb_eq in Heq. congruence.
Qed.

Lemma detected_patterns_slots (text : string) (t : Task) :
  In t (Orchestrator.detected_patterns text) ->
  slots_known t /\ task_keywords t = None.
Proof.
  unfold Orchestrator.detected_patterns. intros H.
  apply list_elem_of_In, list_elem_of_omap in H as ([key pattern] & Hin & Hsome).
  apply list_elem_of_In in Hin. unfold Orchestrator.task_patterns in Hin.
  repeat (destruct Hin as [Heq|Hin];
          [injection Heq as <- <-; cbn in Hsome;
           match type of Hsome with
           | (if ?b then _ else _) = _ => destruct b; [|discriminate Hsome]
           | _ => try discriminate Hsome
           end;
           try (injection Hsome as <-; split; [|reflexivity];
                apply known_by_check; vm_compute; reflexivity)|]).
  destruct Hin.
Qed.

Lemma domain_default_tasks_slots (domain : string) (t : Task) :
  In t (Orchestrator._domain_default_tasks domain) ->
  slots_known t /\ task_keywords t = None.
Proof.
  unfold Orchestrator._domain_default_tasks. cbn [Py.get].
  repeat match goal with
         | |- context [String.eqb ?k domain] => destruct (String.eqb k domain)
         end;
    cbn [default]; intros [<-|[]]; (split; [|reflexivity]);
    apply known_by_check; vm_compute; reflexivity.
Qed.

Lemma detect_tasks_origin (text domain : string) (t : Task) :
  In t (Orchestrator._detect_tasks text domain) ->
  t = Orchestrator.greeting_task
  \/ In t (Orchestrator.detected_patterns text)
  \/ In t (Orchestrator._domain_default_tasks domain).
Proof.
  rewrite detect_tasks_unfold. cbv zeta. intros Ht.
  apply dedup_tasks_from_input in Ht.
  destruct (length _ <=? 1)%nat; [apply in_app_or in Ht as [Ht|Ht]|];
    try (destruct Ht as [<-|Ht]); tauto.
Qed.

Lemma slot_keywords_known :
  Forall (fun slot => In slot collectable_slots) (map fst Orchestrator.slot_keywords).
Proof. apply known_by_check. vm_compute. reflexivity. Qed.

Lemma extract_user_slots_known (text : string) :
  Forall (fun slot => In slot collectable_slots) (Orchestrator._extract_user_slots text).
Proof.
  unfold Orchestrator._extract_user_slots.
  rewrite (extract_loop_filter text Orchestrator.slot_keywords []);
    [| apply slot_keywords_nodup | intros k _ []].
  cbn [app]. apply Forall_forall. intros slot Hin.
  apply list_elem_of_In, in_map_iff in Hin as (entry & <- & Hin).
  apply filter_In in Hin as [Hin _].
  pose proof slot_keywords_known as Hknown. rewrite Forall_forall in Hknown.
  apply Hknown, list_elem_of_In, in_map, Hin.
Qed.

Lemma merge_slots_known (t : Task) (user_slots : list string) :
  slots_known t -> Forall (fun slot => In slot collectable_slots) user_slots ->
  slots_known (Orchestrator.merge_slots t user_slots).
Proof.
  intros Ht Hs. apply Forall_forall. intros slot Hin.
  unfold Orchestrator.merge_slots in Hin.
  destruct (merge_loop_exact user_slots (data_to_collect t)
              (list_to_set (data_to_collect t)))
    as (added & Heq & _ & _ & Hmem).
  { intros y. rewrite elem_of_list_to_set. apply list_elem_of_In. }
  destruct (foldl _ _ user_slots) as [slots existing]. cbn [fst data_to_collect] in *.
  rewrite Heq in Hin. apply elem_of_app in Hin as [Hin|Hin].
  - rewrite Forall_forall in Ht. apply Ht, Hin.
  - rewrite Forall_forall in Hs. apply Hs, list_elem_of_In.
    apply list_elem_of_In, Hmem in Hin. tauto.
Qed.

(** Every task of a rule-based brief collects slots of the tables only. *)
Lemma analysis_slots_known (user_prompt language platform : string) :
  Forall (fun t => slots_known t)
         (tasks (Orchestrator._analyze_with_rules user_prompt language platform)).
Proof.
  rewrite analysis_tasks.
  assert (Hdetect : Forall (fun t => slots_known t)
            (Orchestrator._detect_tasks (Py.lower user_prompt)
               (Orchestrator._detect_domain (Py.lower user_prompt)))).
  { apply Forall_forall. intros t Ht. apply list_elem_of_In, detect_tasks_origin in Ht
      as [->|[Ht|Ht]].
    - constructor.
    - apply (detected_patterns_slots _ t Ht).
    - apply (domain_default_tasks_slots _ t Ht). }
  pose proof (extract_user_slots_known (Py.lower user_prompt)) as Hslots.
  destruct (Orchestrator._extract_user_slots (Py.lower user_prompt)) as [|slot slots];
    [exact Hdetect|].
  unfold Orchestrator._merge_user_slots_into_tasks.
  destruct (Orchestrator.primary_task _) as [i|].
  - apply Forall_alter; [exact Hdetect|]. intros t _ Ht.
    apply merge_slots_known; assumption.
  - apply Forall_app. split; [exact Hdetect|]. constructor; [exact Hslots | constructor].
Qed.

Lemma known_slot_is_string (slot : string) :
  In slot collectable_slots ->
  (if Py.isin "date" (Py.lower slot) then "string"
   else if Py.isin "number" (Py.lower slot) || Py.isin "amount" (Py.lower slot)
        then "string"
   else if Py.isin "count" (Py.lower slot) || Py.isin "quantity" (Py.lower slot)
        then "integer"
   else "string") = "string".
Proof.
  unfold collectable_slots. intros Hin.
  repeat (destruct Hin as [<-|Hin]; [vm_compute; reflexivity|]). destruct Hin.
Qed.

(** Every parameter of every function definition made for a rule-based
    brief is a required parameter of type string, named after a slot of
    the tables, without enum or default: the branch that infers the type
    integer is never taken. *)
Theorem rule_function_parameters (user_prompt language platform : string) :
  Forall (fun fn =>
            exists params,
              fd_parameters fn = Some params
              /\ Forall (fun p => In (pd_name p) collectable_slots
                                  /\ pd_type p = Some "string"
                                  /\ pd_required p = Some true
                                  /\ pd_enum p = None /\ pd_default p = None)
                        params)
         (FunctionCreator._create_with_rules
            (functions_needed
               (Orchestrator._analyze_with_rules user_prompt language platform))).
Proof.
  rewrite analysis_functions_needed.
  pose proof (analysis_slots_known user_prompt language platform) as Hknown.
  remember (tasks (Orchestrator._analyze_with_rules user_prompt language platform))
    as tasks eqn:Htasks. clear Htasks.
  unfold FunctionCreator._create_with_rules, Orchestrator._detect_functions.
  rewrite map_map. apply Forall_forall. intros fn Hfn.
  apply list_elem_of_In, in_map_iff in Hfn as (task & <- & Htask).
  apply filter_In in Htask as [Htask _].
  rewrite Forall_forall in Hknown. apply list_elem_of_In, Hknown in Htask.
  unfold FunctionCreator._build_function. cbv zeta. cbn [fd_parameters].
  eexists. split; [reflexivity|].
  unfold Orchestrator.function_for_task. cbv zeta. cbn [fr_input_params].
  unfold Orchestrator._task_to_function_params. rewrite map_map.
  apply Forall_forall. intros p Hp.
  apply list_elem_of_In, in_map_iff in Hp as (slot & <- & Hslot).
  rewrite Forall_forall in Htask. apply list_elem_of_In, Htask in Hslot.
  unfold FunctionCreator.build_parameter.
  cbn [pd_name pd_type pd_required pd_enum pd_default pd_description default].
  rewrite (known_slot_is_string slot Hslot). repeat split; [exact Hslot].
Qed.

(** ** The shape of a rule-based brief *)

Lemma detect_domain_known (text : string) :
  In (Orchestrator._detect_domain text)
     (map fst Orchestrator.domain_keywords ++ ["general_support"]).
Proof.
  unfold Orchestrator._detect_domain.
  destruct (List.find _ Orchestrator.domain_keywords) as [[d kws]|] eqn:Hfind.
  - apply in_or_app. left. apply find_some in Hfind as [Hin _].
    apply (in_map fst) in Hin. exact Hin.
  - apply in_or_app. right. left. reflexivity.
Qed.

(** The domain of a rule-based brief is one of the eleven domains the
    name table and the role table list, so the agent name and the role are
    always taken from the tables, never from the defaults of the lookups. *)
Theorem brief_domain_in_tables (user_prompt language platform : string) :
  exists name role_text,
    Py.get Orchestrator.domain_names
      (domain (Orchestrator._analyze_with_rules user_prompt language platform))
    = Some name
    /\ Py.get Orchestrator.roles
         (domain (Orchestrator._analyze_with_rules user_prompt language platform))
       = Some role_text
    /\ agent_name_suggestion (Orchestrator._analyze_with_rules user_prompt language platform)
       = name
    /\ agent_role (Orchestrator._analyze_with_rules user_prompt language platform)
       = Py.title (domain (Orchestrator._analyze_with_rules user_prompt language platform))
         +:+ " " +:+ role_text.
Proof.
  assert (Hfields :
    agent_name_suggestion (Orchestrator._analyze_with_rules user_prompt language platform)
    = default "Ava" (Py.get Orchestrator.domain_names
                       (Orchestrator._detect_domain (Py.lower user_prompt)))
    /\ agent_role (Orchestrator._analyze_with_rules user_prompt language platform)
       = Py.title (Orchestrator._detect_domain (Py.lower user_prompt)) +:+ " "
         +:+ default "Customer Support Agent"
               (Py.get Orchestrator.roles
                  (Orchestrator._detect_domain (Py.lower user_prompt)))).
  { split.
    - cbv beta iota zeta delta [Orchestrator._analyze_with_rules agent_name_suggestion].
      unfold Orchestrator._detect_persona.
      repeat match goal with
             | |- context [if ?b then _ else _] => destruct b
             end; reflexivity.
    - cbv beta iota zeta delta [Orchestrator._analyze_with_rules agent_role].
      reflexivity. }
  destruct Hfields as [Hname Hrole]. rewrite Hname, Hrole, analysis_domain.
  pose proof (detect_domain_known (Py.lower user_prompt)) as Hin.
  remember (Orchestrator._detect_domain (Py.lower user_prompt)) as d eqn:Hd. clear Hd.
  cbn in Hin.
  repeat (destruct Hin as [<-|Hin]; [eexists _, _; repeat split; reflexivity|]).
  destruct Hin.
Qed.

(** The tasks of a rule-based brief start with the greeting task, which
    keeps the keywords of its pattern, followed by at least one more
    task; the tasks that follow carry no keywords and another name. *)
Theorem brief_tasks_shape (user_prompt language platform : string) :
  exists rest,
    tasks (Orchestrator._analyze_with_rules user_prompt language platform)
    = Orchestrator.greeting_task :: rest
    /\ rest <> []
    /\ Forall (fun t => task_keywords t = None /\ task_name t <> "Greeting") rest.
Proof.
  destruct (analysis_tasks_head user_prompt language platform) as [rest Hrest].
  exists rest. split; [exact Hrest|].
  destruct (brief_names_facts user_prompt language platform) as [Hnodup _].
  rewrite Hrest in Hnodup. cbn [map] in Hnodup.
  apply NoDup_cons in Hnodup as [Hfirst _].
  assert (Hnames : forall t, In t rest -> task_name t <> "Greeting").
  { intros t Ht Hname. apply Hfirst.
    change (task_name Orchestrator.greeting_task) with "Greeting". rewrite <- Hname.
    apply list_elem_of_In, in_map, Ht. }
  split.
  - pose proof (analysis_task_names user_prompt language platform) as Hmap.
    destruct (detect_tasks_inv (Py.lower user_prompt)
                (Orchestrator._detect_domain (Py.lower user_prompt)))
      as (_ & (t & Hin & Hname) & _).
    apply (in_map task_name) in Hin. rewrite <- Hmap, Hrest in Hin.
    intros ->. destruct Hin as [Hin|[]]. apply Hname. rewrite <- Hin. reflexivity.
  - assert (Hkeys : Forall (fun t => task_name t <> "Greeting" -> task_keywords t = None)
              (tasks (Orchestrator._analyze_with_rules user_prompt language platform))).
    { rewrite analysis_tasks.
      assert (Hdetect : Forall (fun t => task_name t <> "Greeting" -> task_keywords t = None)
                (Orchestrator._detect_tasks (Py.lower user_prompt)
                   (Orchestrator._detect_domain (Py.lower user_prompt)))).
      { apply Forall_forall. intros t Ht Hname.
        apply list_elem_of_In, detect_tasks_origin in Ht as [->|[Ht|Ht]].
        - exfalso. apply Hname. reflexivity.
        - apply (detected_patterns_slots _ t Ht).
        - apply (domain_default_tasks_slots _ t Ht). }
      destruct (Orchestrator._extract_user_slots (Py.lower user_prompt)) as [|slot slots];
        [exact Hdetect|].
      unfold Orchestrator._merge_user_slots_into_tasks.
      destruct (Orchestrator.primary_task _) as [i|].
      - apply Forall_alter; [exact Hdetect|]. intros t _ Ht.
        rewrite merge_slots_name. intros Hname. specialize (Ht Hname).
        unfold Orchestrator.merge_slots. destruct (foldl _ _ _). exact Ht.
      - apply Forall_app. split; [exact Hdetect|]. constructor; [|constructor].
        reflexivity. }
    rewrite Hrest in Hkeys. apply Forall_cons in Hkeys as [_ Hkeys].
    apply Forall_forall. intros t Ht. apply list_elem_of_In in Ht.
    split; [|apply Hnames, Ht].
    rewrite Forall_forall in Hkeys. apply Hkeys; [apply list_elem_of_In, Ht|].
    apply Hnames, Ht.
Qed.

(** ** The properties of a tool schema *)

Lemma tool_param_loop_lookup (ps : list ParamDict) (properties : gmap string PropSchema)
    (req : list string) (name : string) :
  fst (foldl FunctionCreator.tool_param_step (properties, req) ps) !! name
  = match last (List.filter (fun p => String.eqb (pd_name p) name) ps) with
    | Some p => Some (FunctionCreator.tool_property p)
    | None => properties !! name
    end.
Proof.
  revert properties req. induction ps as [|p ps IH]; intros properties req; [reflexivity|].
  cbn [foldl List.filter]. unfold FunctionCreator.tool_param_step at 2.
  assert (Hstep : forall req',
            fst (foldl FunctionCreator.tool_param_step
                   (<[pd_name p := FunctionCreator.tool_property p]> properties, req') ps)
            !! name
            = match last (if String.eqb (pd_name p) name
                          then p :: List.filter (fun p => String.eqb (pd_name p) name) ps
                          else List.filter (fun p => String.eqb (pd_name p) name) ps) with
              | Some p => Some (FunctionCreator.tool_property p)
              | None => properties !! name
              end).
  { intros req'. rewrite IH.
    destruct (String.eqb_spec (pd_name p) name) as [Heq|Hne].
    - rewrite last_cons.
      destruct (last (List.filter _ ps)); [reflexivity|].
      rewrite Heq. apply lookup_insert_eq.
    - destruct (last (List.filter _ ps)); [reflexivity|].
      apply lookup_insert_ne, Hne. }
  destruct (default true (pd_required p)); apply Hstep.
Qed.

(** [to_openai_tools] gives each function dict a tool under its name,
    whose "properties" hold, under each parameter name, the schema of the
    last parameter of that name, and nothing under any other name. *)
Theorem tool_properties_last_wins (functions : list FnDict) :
  Forall2 (fun fn tool =>
             tool_type tool = "function"
             /\ fs_name (tool_function tool) = fd_name fn
             /\ forall name,
                  psc_properties (fs_parameters (tool_function tool)) !! name
                  = FunctionCreator.tool_property
                    <$> last (List.filter (fun p => String.eqb (pd_name p) name)
                                          (default [] (fd_parameters fn))))
          functions (FunctionCreator.to_openai_tools functions).
Proof.
  unfold FunctionCreator.to_openai_tools.
  induction functions as [|fn functions IH]; [constructor|].
  cbn [map]. constructor; [|exact IH].
  unfold FunctionCreator.tool_of_function.
  pose proof (tool_param_loop_lookup (default [] (fd_parameters fn)) ∅ []) as Hlookup.
  destruct (foldl FunctionCreator.tool_param_step (∅, []) (default [] (fd_parameters fn)))
    as [properties req].
  cbn [tool_type tool_function fs_name fs_parameters psc_properties fst] in *.
  split; [reflexivity|]. split; [reflexivity|].
  intros name. rewrite Hlookup.
  destruct (last _); [reflexivity | apply lookup_empty].
Qed.

(** ** Function definitions that convert to models *)

Lemma outcome_mapM_ok {A B : Type} (f : A -> Outcome B) (l : list A) :
  (exists ys, mapM f l = Returns ys) <-> Forall (fun x => exists y, f x = Returns y) l.
Proof.
  split.
  - intros [ys H]. apply outcome_mapM_returns in H.
    induction H as [|x y l ys Hxy _ IH]; constructor; [exists y; exact Hxy | exact IH].
  - intros H. apply outcome_mapM_total. intros x Hx.
    rewrite Forall_forall in H. apply H, list_elem_of_In, Hx.
Qed.

(** The function definition built for a requirement converts to a
    [FunctionDefinition] model exactly when the type of each of its
    parameters, "string" when it has none, is one of the six values of
    [ParamType]: the name, the endpoint and the mock response never make
    the conversion fail. *)
Theorem built_function_converts_iff (fn_req : FunctionRequirement) (w : World) :
  (exists f w',
     MetaOrchestrator.function_of_raw (FunctionCreator._build_function fn_req) w
     = (Returns f, w'))
  <-> Forall (fun p => is_Some (Py.get Models.ParamType_values
                                  (default "string" (pd_type p))))
             (fr_input_params fn_req).
Proof.
  split.
  - intros (f & w' & H). apply function_of_raw_returns in H as (_ & _ & Hparams & _).
    unfold FunctionCreator._build_function in Hparams. cbv zeta in Hparams.
    cbn [fd_parameters default] in Hparams.
    remember (Models.parameters f) as fps eqn:Hfps. clear Hfps.
    revert fps Hparams. induction (fr_input_params fn_req) as [|p ps IH];
      intros fps Hparams; [constructor|].
    cbn [map] in Hparams. inversion Hparams as [|? fp ? fps' Hp Hrest]; subst.
    constructor; [|apply (IH fps' Hrest)].
    unfold MetaOrchestrator.parameter_of_raw, Models.FunctionParameter_new in Hp.
    apply outcome_bind_returns in Hp as (t & Ht & _). apply enum_field_returns in Ht.
    exists t. exact Ht.
  - intros Hparams. apply function_of_raw_total.
    + intros p Hp. unfold FunctionCreator._build_function in Hp. cbv zeta in Hp.
      cbn [fd_parameters default] in Hp.
      apply in_map_iff in Hp as (p0 & <- & Hp0).
      rewrite Forall_forall in Hparams. apply list_elem_of_In, Hparams in Hp0 as [t Ht].
      exists t. exact Ht.
    + intros ep Hep. unfold FunctionCreator._build_function in Hep. cbv zeta in Hep.
      cbn [fd_api_endpoint] in Hep. injection Hep as <-.
      unfold FunctionCreator._build_endpoint. cbv zeta.
      cbn [ep_method ep_timeout_seconds]. split; [apply http_method_valid | reflexivity].
Qed.
